(** * Resumable batch drivers: run_nupipeline.py (stage 1) and
      run_nuproducts.py (stage 2)

    A shallow embedding of the two orchestrators and of the part of the
    Python runtime they touch: log text and the two regular expressions,
    a filesystem of paths, the worker pool and the process exit status. *)

From Stdlib Require Import ZArith NArith List Ascii String Permutation.
From stdpp Require Import gmap strings list fin_maps pretty.

Open Scope Z_scope.

(** ** Text *)

(** A Python [str] is a sequence of code points. *)
Definition char := N.
Definition str := list char.

(** A string literal of the source. *)
Definition lit (s : string) : str := map N_of_ascii (list_ascii_of_string s).

Definition str_eqb (a b : str) : bool := bool_decide (a = b).

(** [str.splitlines()]: the line boundaries of the Python documentation;
    a carriage return followed by a line feed is one boundary, and a
    trailing boundary opens no empty last line. *)
Definition is_linebreak (c : char) : bool :=
  match c with
  | 10 | 11 | 12 | 13 | 28 | 29 | 30 | 133 | 8232 | 8233 => true
  | _ => false
  end%N.

Fixpoint splitlines_from (cur : str) (s : str) : list str :=
  match s with
  | [] => match cur with [] => [] | _ => [rev cur] end
  | c :: s' =>
      if is_linebreak c then
        rev cur ::
          match c, s' with
          | 13%N, 10%N :: s'' => splitlines_from [] s''
          | _, _ => splitlines_from [] s'
          end
      else splitlines_from (c :: cur) s'
  end.

Definition splitlines (s : str) : list str := splitlines_from [] s.

(** The slice [l[-n:]]. *)
Definition last_n {A} (n : nat) (l : list A) : list A :=
  skipn (length l - n) l.

(** [Some rest] when [p] starts [s], with [rest] what follows. *)
Fixpoint strip_prefix (p s : str) : option str :=
  match p, s with
  | [], _ => Some s
  | a :: p', b :: s' => if N.eqb a b then strip_prefix p' s' else None
  | _ :: _, [] => None
  end.

Fixpoint take_while {A} (f : A -> bool) (l : list A) : list A :=
  match l with
  | x :: l' => if f x then x :: take_while f l' else []
  | [] => []
  end.

(** ** Paths and the filesystem *)

(** A path is its sequence of components; the ancestors of a path are its
    prefixes, and the empty path is the directory paths are relative to. *)
Abbreviation path := (list str).

(** A file carries whether reading it succeeds ([false]: [read_text]
    raises an [OSError]) and its decoded text. [Denied] is an entry the
    process may not look at, its directory not being searchable: [stat]
    is refused, so that every test of the entry, and every use of it,
    raises [PermissionError]. *)
Inductive node :=
| Dir
| File (readable : bool) (content : str)
| Denied.

Abbreviation filesystem := (gmap path node).

Inductive exn :=
| OSError        (* I/O errors, among them FileNotFoundError *)
| ValueError.    (* a format code or a JSON document refused *)

Inductive res (A : Type) :=
| Ok (a : A)
| Raise (e : exn).
Arguments Ok {A} a.
Arguments Raise {A} e.

(** The empty path is the directory the process runs in. *)
Definition fs_lookup (p : path) (fs : filesystem) : option node :=
  match p with
  | [] => Some Dir
  | _ => fs !! p
  end.

(** [Path.exists], [Path.is_file] and [Path.is_dir]: a missing entry
    answers [False]; a refused [stat] is raised again (as pathlib does
    before Python 3.14). *)
Definition fs_exists (p : path) (fs : filesystem) : res bool :=
  match fs_lookup p fs with
  | Some Denied => Raise OSError
  | Some _ => Ok true
  | None => Ok false
  end.

Definition fs_is_file (p : path) (fs : filesystem) : res bool :=
  match fs_lookup p fs with
  | Some Denied => Raise OSError
  | Some (File _ _) => Ok true
  | _ => Ok false
  end.

Definition fs_is_dir (p : path) (fs : filesystem) : res bool :=
  match fs_lookup p fs with
  | Some Denied => Raise OSError
  | Some Dir => Ok true
  | _ => Ok false
  end.

Definition fs_read_text (p : path) (fs : filesystem) : res str :=
  match fs_lookup p fs with
  | Some (File true c) => Ok c
  | _ => Raise OSError
  end.

(** [shutil.rmtree(p)], when it goes through: [p] and everything below
    it is gone. *)
Definition fs_rmtree (p : path) (fs : filesystem) : filesystem :=
  filter (fun kv => ¬ (p `prefix_of` kv.1)) fs.

Definition is_denied (n : node) : bool :=
  match n with Denied => true | _ => false end.

(** [shutil.rmtree(p)] is refused, and raises [PermissionError], when
    [p] or something below it may not be looked at. *)
Definition rmtree_refused (p : path) (fs : filesystem) : bool :=
  existsb (fun kv => bool_decide (p `prefix_of` kv.1) && is_denied kv.2)
    (map_to_list fs).

(** What a refused [rmtree] leaves behind. It stops at the first entry
    it cannot remove, having removed those it came to before; which
    these are follows the order in which the system lists directories.
    [kept] tells, of an entry below [p], that the call had not removed
    it when it stopped; nothing outside [p] is touched. *)
Definition fs_rmtree_stopped (kept : path -> bool) (p : path) (fs : filesystem)
    : filesystem :=
  filter (fun kv => ¬ (p `prefix_of` kv.1) ∨ kept kv.1 = true) fs.

(** The parent of [p] is a directory. *)
Definition parent_is_dir (p : path) (fs : filesystem) : bool :=
  match fs_lookup (removelast p) fs with Some Dir => true | _ => false end.

(** [p.mkdir(parents=True, exist_ok=True)]: every missing ancestor and
    [p] itself become directories; an ancestor, or [p], that is a file
    or may not be looked at raises. [done] is the part of the path
    already walked. *)
Fixpoint mkdir_from (done : path) (rest : path) (fs : filesystem) : res filesystem :=
  match rest with
  | [] => Ok fs
  | c :: rest' =>
      let d := done ++ [c] in
      match fs !! d with
      | Some Dir => mkdir_from d rest' fs
      | Some (File _ _) => Raise OSError
      | Some Denied => Raise OSError
      | None => mkdir_from d rest' (<[d := Dir]> fs)
      end
  end.

Definition fs_mkdir_p (p : path) (fs : filesystem) : res filesystem :=
  mkdir_from [] p fs.

(** [open(p, "w")]: the file is created or truncated. *)
Definition fs_open_w (p : path) (fs : filesystem) : res filesystem :=
  match fs_lookup p fs with
  | Some Dir => Raise OSError
  | Some Denied => Raise OSError
  | Some (File r _) => Ok (<[p := File r []]> fs)
  | None => if parent_is_dir p fs then Ok (<[p := File true []]> fs)
            else Raise OSError
  end.

(** [open(p, "a")] followed by one [write]. *)
Definition fs_append (p : path) (t : str) (fs : filesystem) : res filesystem :=
  match fs_lookup p fs with
  | Some Dir => Raise OSError
  | Some Denied => Raise OSError
  | Some (File r c) => Ok (<[p := File r (c ++ t)]> fs)
  | None => if parent_is_dir p fs then Ok (<[p := File true t]> fs)
            else Raise OSError
  end.

(** ** The Python runtime and the external tools *)

(** What the drivers take from the interpreter and its libraries: the
    class of decimal digits of [re] (the [\d] of a [str] pattern),
    [pathlib]'s constructor, [/] and [str()], the format codes applied to
    the numbers of the JSON documents ([None]: the code raises), the
    number of logical processors, and, for a call of [shutil.rmtree]
    that is refused, which entries of the tree it had not come to when
    it stopped. *)
Class Platform := {
  is_decimal : char -> bool;
  mkpath : str -> path;
  pjoin : path -> str -> path;
  path_str : path -> str;
  num : Type;
  fmt_03d : num -> option str;
  fmt_03_0f : num -> option str;
  fmt_str : num -> str;
  cpu_count : Z;
  rmtree_kept : path -> filesystem -> path -> bool;
}.

(** The two external commands behind [subprocess.call]: given the
    argument vector and the filesystem, either the call raises (the
    process could not be started) or the process runs, changes the
    filesystem as it likes and exits with a return code. *)
Class Tools := {
  nupipe_one_sh : list str -> filesystem -> exn + (Z * filesystem);
  nuproducts : list str -> filesystem -> exn + (Z * filesystem);
}.

Inductive detector := A | B.

Definition det_str (d : detector) : str :=
  match d with A => lit "A" | B => lit "B" end.

(** The argument of [sys.exit]. *)
Inductive exit_arg :=
| Code (n : Z)
| Message (m : str).

(** How a computation ends: a value, an exception, or [SystemExit]
    (not an [Exception]: [except Exception] lets it through). *)
Inductive ending (X : Type) :=
| Done (x : X)
| Raised (e : exn)
| Exited (a : exit_arg).
Arguments Done {X} x.
Arguments Raised {X} e.
Arguments Exited {X} a.

Section Model.
Context `{PY : Platform}.

(** *** Configuration documents, read as the keys the drivers use *)

(** obslist.json *)
Record obslist := {
  observations : list str;
  indir_base : str;
  outdir_base : str;
  products_base : str;
  clobber : option str;
  extra_args : option str;
}.

(** region_cfg.json *)
Record region_cfg := {
  src_radii_arcsec : list num;
  bkg_annuli_arcsec : list (num * num);
  bin_sizes_s : list num;
  pilow : num;
  pihigh : num;
}.

(** [json.loads] on the text of each document; [None]: it raises. *)
Class Json := {
  loads_obslist : str -> option obslist;
  loads_region_cfg : str -> option region_cfg;
}.

(** The dict [{**ocfg, **rcfg}] of stage 2, as the pair of documents. *)
Definition merged_cfg : Type := obslist * region_cfg.

Definition combo : Type := num * num * num * num.

(** A stage-2 work unit: [(obs, det, cfg, comb)]. *)
Definition task : Type := str * detector * merged_cfg * combo.

(** The status of a stage-2 failure: [int | str]. *)
Inductive status :=
| ExitCode (rc : Z)
| ExceptionTag.       (* the string "exception" *)

(** *** What the process does, in order *)

Inductive record :=
| LogRequest (n : nat) (workers : Z)
| LogQueued (obs : str)
| LogSkipped (obs : str)
| LogNothingToDo
| LogExitedWith (obs : str) (rc : Z)           (* error *)
| LogFinishedOK (obs : str)
| LogQueuedJobs (n : nat) (workers : Z)
| LogRaised (obs : str) (det : detector) (comb : merged_cfg) (e : exn)  (* error *)
| LogFailed (obs : str) (det : detector) (comb : combo) (rc : Z)    (* error *)
| LogCompleted (obs : str) (det : detector) (comb : combo)
| LogTotalFailures (n : nat)                   (* error *)
| LogAllOk.

Inductive event :=
| EvIsFile (p : path)
| EvExists (p : path)
| EvIsDir (p : path)
| EvReadText (p : path)
| EvRmtree (p : path)
| EvMkdir (p : path)
| EvOpenW (p : path)
| EvAppend (p : path) (t : str)
| EvCall (cmd : list str) (rc : option Z)   (* [None]: the call raised *)
| EvSubmit1 (obs : str)
| EvSubmit2 (t : task)
| EvLog (r : record).

Record world := {
  w_fs : filesystem;
  w_trace : list event;
}.

Definition M (X : Type) : Type := world -> ending X * world.

Definition ret {X} (x : X) : M X := fun w => (Done x, w).

Definition bind {X Y} (m : M X) (k : X -> M Y) : M Y :=
  fun w =>
    match m w with
    | (Done x, w') => k x w'
    | (Raised e, w') => (Raised e, w')
    | (Exited a, w') => (Exited a, w')
    end.

Definition raise {X} (e : exn) : M X := fun w => (Raised e, w).

Definition sys_exit {X} (a : exit_arg) : M X := fun w => (Exited a, w).

Definition emit (e : event) : M unit :=
  fun w => (Done tt, {| w_fs := w_fs w; w_trace := w_trace w ++ [e] |}).

Definition get_fs : M filesystem := fun w => (Done (w_fs w), w).

Definition put_fs (fs : filesystem) : M unit :=
  fun w => (Done tt, {| w_fs := fs; w_trace := w_trace w |}).

Definition lift_res {X} (r : res X) : M X :=
  match r with Ok x => ret x | Raise e => raise e end.

Definition lift_opt {X} (e : exn) (o : option X) : M X :=
  match o with Some x => ret x | None => raise e end.

(** [try: m except OSError: h] *)
Definition except_OSError {X} (m : M X) (h : M X) : M X :=
  fun w =>
    match m w with
    | (Raised OSError, w') => h w'
    | r => r
    end.

(** What a future holds once its worker has run [m]: the value
    returned, or the exception raised. A worker never calls [sys.exit]. *)
Definition attempt {X} (m : M X) : M (exn + X) :=
  fun w =>
    match m w with
    | (Done x, w') => (Done (inr x), w')
    | (Raised e, w') => (Done (inl e), w')
    | (Exited a, w') => (Exited a, w')
    end.

(** The exit status the operating system sees. *)
Definition process_status {X} (r : ending X) : Z :=
  match r with
  | Done _ => 0
  | Raised _ => 1                 (* uncaught exception, traceback *)
  | Exited (Code n) => n
  | Exited (Message _) => 1
  end.

End Model.

Declare Scope py_scope.
Delimit Scope py_scope with py.
Notation "'let*' x ':=' m 'in' k" := (bind m (fun x => k))
  (at level 10, x pattern, m at level 100, k at level 200) : py_scope.
Notation "m ';;' k" := (bind m (fun _ => k))
  (at level 100, k at level 200, right associativity) : py_scope.

(** ** Effects shared by the two drivers *)

Section Effects.
Context `{PY : Platform}.
Local Open Scope py_scope.

Definition is_file (p : path) : M bool :=
  emit (EvIsFile p) ;; let* fs := get_fs in lift_res (fs_is_file p fs).

Definition exists_ (p : path) : M bool :=
  emit (EvExists p) ;; let* fs := get_fs in lift_res (fs_exists p fs).

Definition is_dir (p : path) : M bool :=
  emit (EvIsDir p) ;; let* fs := get_fs in lift_res (fs_is_dir p fs).

(** [p.read_text(errors="ignore")]. *)
Definition read_text (p : path) : M str :=
  emit (EvReadText p) ;; let* fs := get_fs in lift_res (fs_read_text p fs).

Definition rmtree (p : path) : M unit :=
  emit (EvRmtree p) ;;
  let* fs := get_fs in
  if rmtree_refused p fs then
    put_fs (fs_rmtree_stopped (rmtree_kept p fs) p fs) ;; raise OSError
  else put_fs (fs_rmtree p fs).

Definition mkdir_p (p : path) : M unit :=
  emit (EvMkdir p) ;;
  let* fs := get_fs in let* fs' := lift_res (fs_mkdir_p p fs) in put_fs fs'.

Definition open_w (p : path) : M unit :=
  emit (EvOpenW p) ;;
  let* fs := get_fs in let* fs' := lift_res (fs_open_w p fs) in put_fs fs'.

Definition append (p : path) (t : str) : M unit :=
  emit (EvAppend p t) ;;
  let* fs := get_fs in let* fs' := lift_res (fs_append p t fs) in put_fs fs'.

Definition logging (r : record) : M unit := emit (EvLog r).

(** [subprocess.call(cmd)] on one of the external tools. *)
Definition subprocess_call
    (tool : list str -> filesystem -> exn + (Z * filesystem))
    (cmd : list str) : M Z :=
  fun w =>
    match tool cmd (w_fs w) with
    | inr (rc, fs') =>
        (Done rc, {| w_fs := fs'; w_trace := w_trace w ++ [EvCall cmd (Some rc)] |})
    | inl e =>
        (Raised e, {| w_fs := w_fs w; w_trace := w_trace w ++ [EvCall cmd None] |})
    end.

(** [for x in l: body x] *)
Fixpoint for_each {X} (l : list X) (body : X -> M unit) : M unit :=
  match l with
  | [] => ret tt
  | x :: l' => body x ;; for_each l' body
  end.

(** [as_completed]: the futures in the order they complete, which the
    pool decides. [choices] is that decision: at each step the index
    (modulo the number still pending) of the next future to complete. *)
Fixpoint as_completed {X} (choices : list nat) (pending : list X) : list X :=
  match choices with
  | [] => pending
  | c :: cs =>
      match pending !! (c mod length pending)%nat with
      | Some x => x :: as_completed cs (delete (c mod length pending)%nat pending)
      | None => pending
      end
  end.

(** The pool runs [launch] on every submitted unit; each run is taken as
    one step, in completion order, and leaves its future filled. *)
Fixpoint run_workers {U R} (launch : U -> M R) (order : list U)
    : M (list (U * (exn + R))) :=
  match order with
  | [] => ret []
  | u :: rest =>
      let* r := attempt (launch u) in
      let* rs := run_workers launch rest in
      ret ((u, r) :: rs)
  end.

(** [fut.result()] *)
Definition result {R} (fut : exn + R) : M R :=
  match fut with inr v => ret v | inl e => raise e end.

End Effects.

Fixpoint join_str (sep : str) (l : list str) : str :=
  match l with
  | [] => []
  | [x] => x
  | x :: l' => x ++ sep ++ join_str sep l'
  end.

(** ** Stage 1: run_nupipeline.py *)

Module Nupipeline.

(** The [-j] option: "auto", "off", or a string handed to [int()]
    ([None]: [int()] raises). *)
Inductive job_setting :=
| JAuto
| JOff
| JInt (n : option Z).

Section Driver.
Context `{PY : Platform} {JS : Json} {TL : Tools}.
Local Open Scope py_scope.

(** [_FINISH_RE = re.compile(r"Finished nupipeline for (\d+)")] *)
Definition FINISH_PREFIX : str := lit "Finished nupipeline for ".

(** A match of the pattern starting at the head of [s]: group 1, the
    longest run of decimal digits after the prefix, not empty. *)
Definition _FINISH_RE_match (s : str) : option str :=
  match strip_prefix FINISH_PREFIX s with
  | Some rest =>
      match take_while is_decimal rest with
      | [] => None
      | d => Some d
      end
  | None => None
  end.

(** [_FINISH_RE.search(line)], as [m.group(1)]: the leftmost match. *)
Fixpoint _FINISH_RE_search (s : str) : option str :=
  match _FINISH_RE_match s with
  | Some d => Some d
  | None =>
      match s with
      | [] => None
      | _ :: s' => _FINISH_RE_search s'
      end
  end.

(** The loop over [reversed(tail)]: [true] when it returns [False]. *)
Fixpoint finished_in (obsid : str) (lines : list str) : bool :=
  match lines with
  | [] => false
  | line :: rest =>
      match _FINISH_RE_search line with
      | Some g => if str_eqb g obsid then true else finished_in obsid rest
      | None => finished_in obsid rest
      end
  end.

Definition outdir_of (cfg : obslist) (obsid : str) : path :=
  pjoin (mkpath (outdir_base cfg)) (obsid ++ lit "_out").

Definition log_path_of (cfg : obslist) (obsid : str) : path :=
  pjoin (outdir_of cfg obsid) (lit "nupipeline.log").

Definition _needs_rerun (obsid : str) (cfg : obslist) : M bool :=
  let log_path := log_path_of cfg obsid in
  let* present := is_file log_path in
  if negb present then ret true
  else
    except_OSError
      (let* text := read_text log_path in
       let tail := last_n 100 (splitlines text) in
       if finished_in obsid (rev tail) then ret false else ret true)
      (ret true).

Definition _launch_one (args : str * obslist) : M (str * Z) :=
  let '(obsid, cfg) := args in
  let cmd := [ lit "./nupipe_one.sh";
               obsid;
               indir_base cfg;
               outdir_base cfg;
               default (lit "no") (clobber cfg);
               default [] (extra_args cfg) ] in
  let* rc := subprocess_call nupipe_one_sh cmd in
  ret (obsid, rc).

(** Lines 123-132: the planning loop, [worklist] being the list built
    so far. *)
Fixpoint plan (obsids : list str) (cfg : obslist) (worklist : list str)
    : M (list str) :=
  match obsids with
  | [] => ret worklist
  | obs :: rest =>
      let* rerun := _needs_rerun obs cfg in
      let* worklist' :=
        (if rerun then
           let outdir := outdir_of cfg obs in
           let* d := is_dir outdir in
           (if d then rmtree outdir else ret tt) ;;
           logging (LogQueued obs) ;;
           ret (worklist ++ [obs])
         else
           logging (LogSkipped obs) ;;
           ret worklist) in
      plan rest cfg worklist'
  end.

(** The body of the loop over [as_completed(futures)]. *)
Definition report (entry : str * (exn + (str * Z))) : M unit :=
  let '(obs, fut) := entry in
  let* r := result fut in
  let rc := snd r in
  if negb (rc =? 0) then logging (LogExitedWith obs rc)
  else logging (LogFinishedOK obs).

(** Lines 141-156: the pool (which refuses a worker count below 1), the
    submissions, the workers and the collection loop. *)
Definition dispatch (max_workers : Z) (worklist : list str) (cfg : obslist)
    (choices : list nat) : M unit :=
  (if max_workers <=? 0 then raise ValueError else ret tt) ;;
  for_each worklist (fun obs => emit (EvSubmit1 obs)) ;;
  let* futures := run_workers (fun obs => _launch_one (obs, cfg))
                    (as_completed choices worklist) in
  for_each futures report.

Definition env_message (missing : list str) : str :=
  lit "Error: " ++ join_str (lit ", ") missing ++ lit " not defined "
    ++ [8211%N] ++ lit " did you run heainit/caldbinit?".

Definition config_message (cfg_file : path) : str :=
  lit "Config file '" ++ path_str cfg_file ++ lit "' not found.".

Definition main (environ : list str) (cfg_path : str) (jobs : job_setting)
    (choices : list nat) : M unit :=
  let missing :=
    filter (fun v => v ∉ environ) [lit "HEADAS"; lit "CALDB"] in
  if negb (bool_decide (missing = [])) then sys_exit (Message (env_message missing))
  else
    let cfg_file := mkpath cfg_path in
    let* found := exists_ cfg_file in
    if negb found then sys_exit (Message (config_message cfg_file))
    else
      let* text := read_text cfg_file in
      let* cfg := lift_opt ValueError (loads_obslist text) in
      let obsids := observations cfg in
      let* max_workers :=
        match jobs with
        | JAuto => ret (Z.max 1 (cpu_count / 2))
        | JOff => ret 1
        | JInt n => lift_opt ValueError n
        end in
      logging (LogRequest (length obsids) max_workers) ;;
      let* worklist := plan obsids cfg [] in
      if bool_decide (worklist = []) then logging LogNothingToDo
      else dispatch max_workers worklist cfg choices.

End Driver.
End Nupipeline.

(** ** Stage 2: run_nuproducts.py *)

Module Nuproducts.
Section Driver.
Context `{PY : Platform} {JS : Json} {TL : Tools}.
Local Open Scope py_scope.

Definition FIN_LINE : str := lit "nuproducts done".

(** The text appended on success: ["\nnuproducts done\n"]. *)
Definition MARKER : str := [10%N] ++ FIN_LINE ++ [10%N].

(** [FIN_RE = re.compile(r"^nuproducts done", re.M)]: with [re.M] the
    anchor holds at the start of the text and right after each line
    feed. [bol] tells whether the head of [s] is such a position. *)
Fixpoint FIN_RE_search_from (bol : bool) (s : str) : bool :=
  (bol && bool_decide (is_Some (strip_prefix FIN_LINE s)))
  || match s with
     | [] => false
     | c :: s' => FIN_RE_search_from (N.eqb c 10) s'
     end.

Definition FIN_RE_search (s : str) : bool := FIN_RE_search_from true s.

Definition log_of (outdir : path) : path := pjoin outdir (lit "nuproducts.log").

Definition _needs_rerun (outdir : path) : M bool :=
  let log := log_of outdir in
  let* present := exists_ log in
  if negb present then ret true
  else
    let* text := read_text log in
    ret (negb (FIN_RE_search text)).

(** A format code applied inside an f-string. *)
Definition fmt (f : num -> option str) (x : num) : M str :=
  lift_opt ValueError (f x).

Definition _launch (args : task) : M (str * detector * combo * Z) :=
  let '(obsid, det, cfg, comb) := args in
  let '(r_src, rin, rout, binsize) := comb in
  (* file setup *)
  let stem := lit "nu" ++ obsid in
  let evtdir := pjoin (mkpath (outdir_base (fst cfg))) (obsid ++ lit "_out") in
  let* s_src := fmt fmt_03_0f r_src in
  let src_reg :=
    pjoin evtdir (lit "src_" ++ det_str det ++ lit "_" ++ s_src ++ lit ".reg") in
  let* s_rin := fmt fmt_03_0f rin in
  let* s_rout := fmt fmt_03_0f rout in
  let bkg_reg :=
    pjoin evtdir (lit "bkg_" ++ det_str det ++ lit "_" ++ s_rin ++ lit "-"
                    ++ s_rout ++ lit ".reg") in
  let* d_src := fmt fmt_03d r_src in
  let* d_rin := fmt fmt_03d rin in
  let* d_rout := fmt fmt_03d rout in
  let outdir :=
    pjoin (pjoin (mkpath (products_base (fst cfg))) obsid)
      (det_str det ++ lit "_src" ++ d_src ++ lit "_bkg" ++ d_rin ++ lit "-"
         ++ d_rout ++ lit "_bin" ++ fmt_str binsize) in
  mkdir_p outdir ;;
  (* skip if already done *)
  let* rerun := _needs_rerun outdir in
  if negb rerun then ret (obsid, det, comb, 0)
  else
    (* run nuproducts *)
    let log := log_of outdir in
    let cmd := [ lit "nuproducts";
                 lit "indir=" ++ path_str evtdir;
                 lit "instrument=" ++ match det with A => lit "FPMA" | B => lit "FPMB" end;
                 lit "steminputs=" ++ stem;
                 lit "outdir=" ++ path_str outdir;
                 lit "srcregionfile=" ++ path_str src_reg;
                 lit "bkgregionfile=" ++ path_str bkg_reg;
                 lit "bkgextract=yes";
                 lit "pilow=" ++ fmt_str (pilow (snd cfg));
                 lit "pihigh=" ++ fmt_str (pihigh (snd cfg));
                 lit "binsize=" ++ fmt_str binsize;
                 lit "clobber=yes" ] in
    open_w log ;;
    let* rc := subprocess_call nuproducts cmd in
    (* mark completion *)
    (if rc =? 0 then append log MARKER else ret tt) ;;
    ret (obsid, det, comb, rc).

(** The third field of a failure: [combd] of the result, or, when the
    future raised, the third field of the task tuple, which
    [futs[fut][:3]] makes the configuration dict. *)
Inductive third :=
| ThirdComb (c : combo)
| ThirdCfg (cfg : merged_cfg).

Definition failure : Type := str * detector * third * status.

(** The body of the loop over [as_completed(futs)]; [failures] is the
    list so far. *)
Definition collect (failures : list failure)
    (entry : task * (exn + (str * detector * combo * Z))) : M (list failure) :=
  let '(t, fut) := entry in
  let '(obsid, det, comb, _) := t in
  match fut with
  | inl e =>
      logging (LogRaised obsid det comb e) ;;
      ret (failures ++ [(obsid, det, ThirdCfg comb, ExceptionTag)])
  | inr (oid, detd, combd, rc) =>
      if negb (rc =? 0) then
        logging (LogFailed oid detd combd rc) ;;
        ret (failures ++ [(oid, detd, ThirdComb combd, ExitCode rc)])
      else
        logging (LogCompleted oid detd combd) ;;
        ret failures
  end.

Fixpoint collect_all (failures : list failure)
    (futs : list (task * (exn + (str * detector * combo * Z))))
    : M (list failure) :=
  match futs with
  | [] => ret failures
  | entry :: rest =>
      let* failures' := collect failures entry in
      collect_all failures' rest
  end.

(** Lines 106-128. *)
Definition dispatch (tasks : list task) (choices : list nat) : M (list failure) :=
  for_each tasks (fun t => emit (EvSubmit2 t)) ;;
  let* futs := run_workers _launch (as_completed choices tasks) in
  collect_all [] futs.

(** Lines 130-136. *)
Definition final_exit (failures : list failure) : M unit :=
  if negb (bool_decide (failures = [])) then
    logging (LogTotalFailures (length failures)) ;;
    sys_exit (Code 1)
  else
    logging LogAllOk ;;
    sys_exit (Code 0).

Definition make_combos (rcfg : region_cfg) : list combo :=
  flat_map (fun r_src =>
    flat_map (fun '(rin, rout) =>
      map (fun binsize => (r_src, rin, rout, binsize)) (bin_sizes_s rcfg))
      (bkg_annuli_arcsec rcfg))
    (src_radii_arcsec rcfg).

Definition make_tasks (ocfg : obslist) (rcfg : region_cfg) : list task :=
  flat_map (fun obs =>
    flat_map (fun det =>
      map (fun comb => (obs, det, (ocfg, rcfg), comb)) (make_combos rcfg))
      [A; B])
    (observations ocfg).

Definition env_message : str :=
  lit "Error: HEASoft not initialised " ++ [8211%N]
    ++ lit " run heainit & caldbinit first".

Definition main (environ : list str) (choices : list nat) : M unit :=
  (* load configs *)
  let* rtext := read_text (mkpath (lit "region_cfg.json")) in
  let* rcfg := lift_opt ValueError (loads_region_cfg rtext) in
  let* otext := read_text (mkpath (lit "obslist.json")) in
  let* ocfg := lift_opt ValueError (loads_obslist otext) in
  (* ensure HEASoft is initialized *)
  if bool_decide (lit "HEADAS" ∉ environ) || bool_decide (lit "CALDB" ∉ environ)
  then sys_exit (Message env_message)
  else
    let tasks := make_tasks ocfg rcfg in
    let max_workers := Z.max 1 (cpu_count / 2) in
    logging (LogQueuedJobs (length tasks) max_workers) ;;
    let* failures := dispatch tasks choices in
    final_exit failures.

End Driver.
End Nuproducts.

(** ** A concrete runtime, for the scenarios *)

Module Scenario.

Definition ascii_decimal (c : char) : bool := (48 <=? c)%N && (c <=? 57)%N.

Fixpoint split_on (sep : char) (cur : str) (s : str) : list str :=
  match s with
  | [] => [rev cur]
  | c :: s' =>
      if N.eqb c sep then rev cur :: split_on sep [] s'
      else split_on sep (c :: cur) s'
  end.

(** A relative POSIX path: empty and "." components are dropped. *)
Definition posix_path (s : str) : path :=
  filter (fun c => c ≠ [] ∧ c ≠ lit ".") (split_on 47%N [] s).

Definition zero_pad (width : nat) (digits : str) : str :=
  replicate (width - length digits) 48%N ++ digits.

(** The code [03d] on an integer. *)
Definition int_03d (z : Z) : str :=
  if z <? 0 then 45%N :: zero_pad 2 (lit (pretty (- z)))
  else zero_pad 3 (lit (pretty z)).

Definition python : Platform := {|
  is_decimal := ascii_decimal;
  mkpath := posix_path;
  pjoin := fun p s => p ++ posix_path s;
  path_str := join_str (lit "/");
  num := Z;
  fmt_03d := fun z => Some (int_03d z);
  fmt_03_0f := fun z => Some (int_03d z);
  fmt_str := fun z => lit (pretty z);
  cpu_count := 8;
  rmtree_kept := fun _ _ _ => true;   (* the refused entry is met first *)
|}.

(** An argument with a NUL character makes [subprocess.call] raise. *)
Definition has_nul (cmd : list str) : bool :=
  existsb (fun a => bool_decide (0%N ∈ a)) cmd.

(** A test that went through and answered [True]. *)
Definition answers_true (r : res bool) : bool :=
  match r with Ok true => true | _ => false end.

(** nupipe_one.sh: needs the script in the working directory; reduces
    the observation when its input directory is there (exit 0, the log
    ends with the finished line), and exits 2 otherwise. *)
Definition shell_nupipe (cmd : list str) (fs : filesystem) : exn + (Z * filesystem) :=
  if has_nul cmd then inl ValueError
  else
    match cmd with
    | [script; obsid; indir; outdir; _; _] =>
        if negb (answers_true (fs_is_file (posix_path script) fs)) then inl OSError
        else
          let out := posix_path outdir ++ posix_path (obsid ++ lit "_out") in
          let log := out ++ [lit "nupipeline.log"] in
          if answers_true (fs_is_dir (posix_path indir ++ posix_path obsid) fs) then
            match fs_mkdir_p out fs with
            | Ok fs' =>
                inr (0, <[log := File true
                           (lit "Finished nupipeline for " ++ obsid ++ [10%N])]> fs')
            | Raise _ => inr (1, fs)
            end
          else inr (2, fs)
    | _ => inl OSError
    end.

Fixpoint arg_value (key : str) (cmd : list str) : option str :=
  match cmd with
  | [] => None
  | a :: cmd' =>
      match strip_prefix key a with
      | Some v => Some v
      | None => arg_value key cmd'
      end
  end.

(** nuproducts: its output goes to the log of the output directory; it
    exits 0 when the event directory is there and 2 otherwise. *)
Definition shell_nuproducts (cmd : list str) (fs : filesystem) : exn + (Z * filesystem) :=
  if has_nul cmd then inl ValueError
  else
    match arg_value (lit "indir=") cmd, arg_value (lit "outdir=") cmd with
    | Some indir, Some outdir =>
        let log := posix_path outdir ++ [lit "nuproducts.log"] in
        if answers_true (fs_is_dir (posix_path indir) fs) then
          inr (0, <[log := File true (lit "nuproducts: products written" ++ [10%N])]> fs)
        else
          inr (2, <[log := File true (lit "nuproducts: indir not found" ++ [10%N])]> fs)
    | _, _ => inl OSError
    end.

Definition shell : Tools := {|
  nupipe_one_sh := shell_nupipe;
  nuproducts := shell_nuproducts;
|}.

(** JSON text, written with ' for the double quote. *)
Definition json (s : string) : str :=
  map (fun c => if N.eqb c 39 then 34%N else c) (lit s).

Definition obslist_two_text : str :=
  json "{'observations': ['101', '102'], 'indir_base': 'in', 'outdir_base': 'out', 'products_base': 'prod'}".

Definition obslist_two : @obslist := {|
  observations := [lit "101"; lit "102"];
  indir_base := lit "in";
  outdir_base := lit "out";
  products_base := lit "prod";
  clobber := None;
  extra_args := None;
|}.

(** The first observation id ends with a NUL character. *)
Definition obslist_nul_text : str :=
  json "{'observations': ['101\u0000', '102'], 'indir_base': 'in', 'outdir_base': 'out', 'products_base': 'prod'}".

Definition obslist_nul : @obslist := {|
  observations := [lit "101" ++ [0%N]; lit "102"];
  indir_base := lit "in";
  outdir_base := lit "out";
  products_base := lit "prod";
  clobber := None;
  extra_args := None;
|}.

Definition obslist_one_text : str :=
  json "{'observations': ['101'], 'indir_base': 'in', 'outdir_base': 'out', 'products_base': 'prod'}".

Definition obslist_one : @obslist := {|
  observations := [lit "101"];
  indir_base := lit "in";
  outdir_base := lit "out";
  products_base := lit "prod";
  clobber := None;
  extra_args := None;
|}.

Definition region_text : str :=
  json "{'src_radii_arcsec': [30], 'bkg_annuli_arcsec': [[60, 90]], 'bin_sizes_s': [10], 'pilow': 35, 'pihigh': 1909}".

Definition region : @region_cfg python :=
  @Build_region_cfg python [30] [(60, 90)] [10] 35 1909.

Fixpoint assoc {V} (t : str) (table : list (str * V)) : option V :=
  match table with
  | [] => None
  | (k, v) :: table' => if str_eqb t k then Some v else assoc t table'
  end.

(** [json.loads] on the documents of the scenarios. *)
Definition documents : @Json python := {|
  loads_obslist t :=
    assoc t [(obslist_two_text, obslist_two); (obslist_nul_text, obslist_nul);
             (obslist_one_text, obslist_one)];
  loads_region_cfg t := assoc t [(region_text, region)];
|}.

Definition environ_ok : list str := [lit "HOME"; lit "HEADAS"; lit "CALDB"].

Definition start (files : list (path * node)) : @world python :=
  {| w_fs := list_to_map files; w_trace := [] |}.

Definition P (s : string) : path := posix_path (lit s).

Definition text_lines (lines : list string) : str :=
  flat_map (fun l => lit l ++ [10%N]) lines.

(** Stage 1, first run: the input of 101 is there, that of 102 is not. *)
Definition files_102_fails : list (path * node) :=
  [ (P "obslist.json", File true obslist_two_text);
    (P "nupipe_one.sh", File true []);
    (P "in", Dir); (P "in/101", Dir) ].

(** Stage 1: the first id of the list ends with a NUL character. *)
Definition files_nul : list (path * node) :=
  [ (P "obslist.json", File true obslist_nul_text);
    (P "nupipe_one.sh", File true []);
    (P "in", Dir); (P "in/102", Dir) ].

(** Stage 1: nupipe_one.sh is not in the working directory. *)
Definition files_no_script : list (path * node) :=
  [ (P "obslist.json", File true obslist_two_text);
    (P "in", Dir); (P "in/101", Dir); (P "in/102", Dir) ].

(** Stage 1: 101 finished in an earlier run; 102 was interrupted. *)
Definition files_resume : list (path * node) :=
  [ (P "obslist.json", File true obslist_two_text);
    (P "nupipe_one.sh", File true []);
    (P "in", Dir); (P "in/101", Dir); (P "in/102", Dir);
    (P "out", Dir);
    (P "out/101_out", Dir);
    (P "out/101_out/nupipeline.log",
       File true (text_lines ["Running nupipeline"; "Finished nupipeline for 101"]));
    (P "out/102_out", Dir);
    (P "out/102_out/nupipeline.log", File true (text_lines ["Running nupipeline"]));
    (P "out/102_out/event_cl", Dir);
    (P "out/102_out/event_cl/nu102A01_cl.evt", File true []) ].

(** Both logs are there and neither can be read. *)
Definition files_unreadable : list (path * node) :=
  [ (P "out", Dir); (P "out/101_out", Dir);
    (P "out/101_out/nupipeline.log", File false []);
    (P "prod", Dir); (P "prod/101", Dir);
    (P "prod/101/A_src030_bkg060-090_bin10", Dir);
    (P "prod/101/A_src030_bkg060-090_bin10/nuproducts.log", File false []) ].

(** The two output directories may not be searched: the test of either
    log is refused. *)
Definition files_denied : list (path * node) :=
  [ (P "out", Dir); (P "out/101_out", Dir);
    (P "out/101_out/nupipeline.log", Denied);
    (P "prod", Dir); (P "prod/101", Dir);
    (P "prod/101/A_src030_bkg060-090_bin10", Dir);
    (P "prod/101/A_src030_bkg060-090_bin10/nuproducts.log", Denied) ].

(** Stage 2, first run. *)
Definition files_stage2 : list (path * node) :=
  [ (P "obslist.json", File true obslist_one_text);
    (P "region_cfg.json", File true region_text);
    (P "out", Dir); (P "out/101_out", Dir) ].

(** Stage 2: the products of detector A are complete. *)
Definition files_stage2_done : list (path * node) :=
  files_stage2 ++
  [ (P "prod", Dir); (P "prod/101", Dir);
    (P "prod/101/A_src030_bkg060-090_bin10", Dir);
    (P "prod/101/A_src030_bkg060-090_bin10/nuproducts.log",
       File true (text_lines ["nuproducts: products written"; ""; "nuproducts done"])) ].

Definition task_A : @task python :=
  (lit "101", A, (obslist_one, region), (30, 60, 90, 10)).

Definition outdir_A : path := P "prod/101/A_src030_bkg060-090_bin10".

Definition cmd_A : list str :=
  map lit
    [ "nuproducts"; "indir=out/101_out"; "instrument=FPMA"; "steminputs=nu101";
      "outdir=prod/101/A_src030_bkg060-090_bin10";
      "srcregionfile=out/101_out/src_A_030.reg";
      "bkgregionfile=out/101_out/bkg_A_060-090.reg";
      "bkgextract=yes"; "pilow=35"; "pihigh=1909"; "binsize=10"; "clobber=yes" ].

End Scenario.

(** ** More scenarios *)

Module MoreScenarios.
Import Scenario.

(** An observation list with no observation. *)
Definition obslist_none_text : str :=
  json "{'observations': [], 'indir_base': 'in', 'outdir_base': 'out', 'products_base': 'prod'}".

Definition obslist_none : @obslist := {|
  observations := [];
  indir_base := lit "in";
  outdir_base := lit "out";
  products_base := lit "prod";
  clobber := None;
  extra_args := None;
|}.

(** [json.loads] on the documents of these scenarios; any other text
    is refused. *)
Definition documents_more : @Json python := {|
  loads_obslist t :=
    assoc t [(obslist_none_text, obslist_none); (obslist_one_text, obslist_one);
             (obslist_two_text, obslist_two)];
  loads_region_cfg t := assoc t [(region_text, region)];
|}.

(** Stage 2 with an empty observation list. *)
Definition files_stage2_none : list (path * node) :=
  [ (P "obslist.json", File true obslist_none_text);
    (P "region_cfg.json", File true region_text) ].

(** Stage 2: the products of both detectors are complete. *)
Definition files_stage2_all_done : list (path * node) :=
  files_stage2_done ++
  [ (P "prod/101/B_src030_bkg060-090_bin10", Dir);
    (P "prod/101/B_src030_bkg060-090_bin10/nuproducts.log",
       File true (text_lines ["nuproducts: products written"; ""; "nuproducts done"])) ].

(** Stage 2: the event directory of 101 is missing, so the tool exits 2. *)
Definition files_stage2_no_events : list (path * node) :=
  [ (P "obslist.json", File true obslist_one_text);
    (P "region_cfg.json", File true region_text) ].

(** Stage 2: region_cfg.json is not a JSON document. *)
Definition files_stage2_bad_region : list (path * node) :=
  [ (P "obslist.json", File true obslist_one_text);
    (P "region_cfg.json", File true (lit "{")) ].

(** Stage 2: obslist.json is not a JSON document. *)
Definition files_stage2_bad_obslist : list (path * node) :=
  [ (P "obslist.json", File true (lit "{"));
    (P "region_cfg.json", File true region_text) ].

(** Stage 1: obslist.json is there and cannot be read. *)
Definition files_config_unreadable : list (path * node) :=
  [ (P "obslist.json", File false []) ].

(** Stage 1: the only observation finished in an earlier run. *)
Definition files_all_finished : list (path * node) :=
  [ (P "obslist.json", File true obslist_one_text);
    (P "nupipe_one.sh", File true []);
    (P "in", Dir); (P "in/101", Dir);
    (P "out", Dir); (P "out/101_out", Dir);
    (P "out/101_out/nupipeline.log",
       File true (text_lines ["Running nupipeline"; "Finished nupipeline for 101"])) ].

(** A stage-2 unit whose observation id ends with a NUL character. *)
Definition task_nul : @task python :=
  (lit "101" ++ [0%N], A, (obslist_one, region), (30, 60, 90, 10)).

Definition task_B : @task python :=
  (lit "101", B, (obslist_one, region), (30, 60, 90, 10)).

(** Stage 1: 101 finished in an earlier run; the output directory of
    102 may not be searched. *)
Definition files_resume_denied : list (path * node) :=
  [ (P "obslist.json", File true obslist_two_text);
    (P "nupipe_one.sh", File true []);
    (P "in", Dir); (P "in/101", Dir); (P "in/102", Dir);
    (P "out", Dir);
    (P "out/101_out", Dir);
    (P "out/101_out/nupipeline.log",
       File true (text_lines ["Running nupipeline"; "Finished nupipeline for 101"]));
    (P "out/102_out", Dir);
    (P "out/102_out/nupipeline.log", Denied) ].

(** Stage 1: 101 finished in an earlier run; 102 was interrupted, and
    its event directory may not be searched. *)
Definition files_resume_locked : list (path * node) :=
  files_resume ++ [ (P "out/102_out/event_cl/nu102B01_cl.evt", Denied) ].

End MoreScenarios.

(** ** What the claims speak of *)

Section Observations.
Context `{PY : Platform}.

(** [line] matches the finished pattern and the observation id embedded
    in the match is [id]: the line reads [pre], the prefix, the digits
    [id], then [post]; the run of digits stops there; and no match starts
    further left. *)
Definition finished_marker (line id : str) : Prop :=
  ∃ pre post,
    line = pre ++ Nupipeline.FINISH_PREFIX ++ id ++ post
    ∧ id ≠ []
    ∧ Forall (fun c => is_decimal c = true) id
    ∧ (∀ c, head post = Some c → is_decimal c = false)
    ∧ (∀ pre' rest c,
         line = pre' ++ Nupipeline.FINISH_PREFIX ++ rest →
         (length pre' < length pre)%nat →
         head rest = Some c → is_decimal c = false).

(** Stage 1: the answer of the completion check on a filesystem, and
    the calls it makes to get it. *)
Definition stage1_answer (cfg : obslist) (obsid : str) (fs : filesystem)
    : ending bool :=
  let log := Nupipeline.log_path_of cfg obsid in
  match fs_is_file log fs with
  | Raise e => Raised e          (* the test is outside the [try] *)
  | Ok false => Done true
  | Ok true =>
      match fs_read_text log fs with
      | Ok text =>
          Done (negb (Nupipeline.finished_in obsid
                        (rev (last_n 100 (splitlines text)))))
      | Raise _ => Done true
      end
  end.

Definition stage1_query (cfg : obslist) (obsid : str) (fs : filesystem) : list event :=
  let log := Nupipeline.log_path_of cfg obsid in
  EvIsFile log ::
    match fs_is_file log fs with Ok true => [EvReadText log] | _ => [] end.

(** The units the pool was given, in order of submission. *)
Definition submitted1 (tr : list event) : list str :=
  omap (fun e => match e with EvSubmit1 obs => Some obs | _ => None end) tr.

Definition submitted2 (tr : list event) : list task :=
  omap (fun e => match e with EvSubmit2 t => Some t | _ => None end) tr.

(** The per-unit lines of the collection loops. *)
Definition is_report (r : record) : bool :=
  match r with
  | LogExitedWith _ _ | LogFinishedOK _
  | LogRaised _ _ _ _ | LogFailed _ _ _ _ | LogCompleted _ _ _ => true
  | _ => false
  end.

Definition reports (tr : list event) : list record :=
  omap (fun e => match e with
                 | EvLog r => if is_report r then Some r else None
                 | _ => None
                 end) tr.

(** Stage 1: the units reported as failed, with their exit codes. *)
Definition failures1 (tr : list event) : list (str * Z) :=
  omap (fun e => match e with
                 | EvLog (LogExitedWith obs rc) => Some (obs, rc)
                 | _ => None
                 end) tr.

(** The line stage 1 writes for a future that returned. *)
Definition report1 (obs : str) (rc : Z) : record :=
  if negb (rc =? 0) then LogExitedWith obs rc else LogFinishedOK obs.

(** The line, and the failure if any, stage 2 derives from a future. *)
Definition report2 (entry : task * (exn + (str * detector * combo * Z))) : record :=
  match entry with
  | ((obsid, det, cfg, _), inl e) => LogRaised obsid det cfg e
  | (_, inr (oid, detd, combd, rc)) =>
      if negb (rc =? 0) then LogFailed oid detd combd rc
      else LogCompleted oid detd combd
  end.

Definition failure2 (entry : task * (exn + (str * detector * combo * Z)))
    : list Nuproducts.failure :=
  match entry with
  | ((obsid, det, cfg, _), inl e) =>
      [(obsid, det, Nuproducts.ThirdCfg cfg, ExceptionTag)]
  | (_, inr (oid, detd, combd, rc)) =>
      if negb (rc =? 0) then [(oid, detd, Nuproducts.ThirdComb combd, ExitCode rc)]
      else []
  end.

(** Stage 2: the answer of the completion check, the calls it makes,
    and the output directory of a unit ([None]: a format code raises). *)
Definition stage2_answer (outdir : path) (fs : filesystem) : ending bool :=
  let log := Nuproducts.log_of outdir in
  match fs_exists log fs with
  | Raise e => Raised e
  | Ok false => Done true
  | Ok true =>
      match fs_read_text log fs with
      | Ok text => Done (negb (Nuproducts.FIN_RE_search text))
      | Raise e => Raised e
      end
  end.

Definition stage2_query (outdir : path) (fs : filesystem) : list event :=
  let log := Nuproducts.log_of outdir in
  EvExists log ::
    match fs_exists log fs with Ok true => [EvReadText log] | _ => [] end.

Definition stage2_outdir (args : task) : option path :=
  let '(obsid, det, cfg, comb) := args in
  let '(r_src, rin, rout, binsize) := comb in
  match fmt_03_0f r_src, fmt_03_0f rin, fmt_03_0f rout with
  | Some _, Some _, Some _ =>
      match fmt_03d r_src, fmt_03d rin, fmt_03d rout with
      | Some d_src, Some d_rin, Some d_rout =>
          Some (pjoin (pjoin (mkpath (products_base (fst cfg))) obsid)
                  (det_str det ++ lit "_src" ++ d_src ++ lit "_bkg" ++ d_rin
                     ++ lit "-" ++ d_rout ++ lit "_bin" ++ fmt_str binsize))
      | _, _, _ => None
      end
  | _, _, _ => None
  end.

Definition key_of (args : task) : str * detector * combo :=
  let '(obsid, det, _, comb) := args in (obsid, det, comb).

Definition grow (w : world) (fs : filesystem) (evs : list event) : world :=
  {| w_fs := fs; w_trace := w_trace w ++ evs |}.

(** The ways one run of the stage-2 launcher can go. *)
Inductive launch_outcome {TL : Tools} (args : task) (w : world)
    : ending (str * detector * combo * Z) * world → Prop :=
| launch_format_error :
    stage2_outdir args = None →
    launch_outcome args w (Raised ValueError, w)
| launch_mkdir_error outdir e :
    stage2_outdir args = Some outdir →
    fs_mkdir_p outdir (w_fs w) = Raise e →
    launch_outcome args w (Raised e, grow w (w_fs w) [EvMkdir outdir])
| launch_check_error outdir fs1 e :
    stage2_outdir args = Some outdir →
    fs_mkdir_p outdir (w_fs w) = Ok fs1 →
    stage2_answer outdir fs1 = Raised e →
    launch_outcome args w
      (Raised e, grow w fs1 (EvMkdir outdir :: stage2_query outdir fs1))
| launch_already_done outdir fs1 :
    stage2_outdir args = Some outdir →
    fs_mkdir_p outdir (w_fs w) = Ok fs1 →
    stage2_answer outdir fs1 = Done false →
    launch_outcome args w
      (Done (key_of args, 0),
       grow w fs1 (EvMkdir outdir :: stage2_query outdir fs1))
| launch_open_error outdir fs1 e :
    stage2_outdir args = Some outdir →
    fs_mkdir_p outdir (w_fs w) = Ok fs1 →
    stage2_answer outdir fs1 = Done true →
    fs_open_w (Nuproducts.log_of outdir) fs1 = Raise e →
    launch_outcome args w
      (Raised e,
       grow w fs1 (EvMkdir outdir :: stage2_query outdir fs1
                     ++ [EvOpenW (Nuproducts.log_of outdir)]))
| launch_spawn_error outdir fs1 fs2 cmd e :
    stage2_outdir args = Some outdir →
    fs_mkdir_p outdir (w_fs w) = Ok fs1 →
    stage2_answer outdir fs1 = Done true →
    fs_open_w (Nuproducts.log_of outdir) fs1 = Ok fs2 →
    nuproducts cmd fs2 = inl e →
    launch_outcome args w
      (Raised e,
       grow w fs2 (EvMkdir outdir :: stage2_query outdir fs1
                     ++ [EvOpenW (Nuproducts.log_of outdir); EvCall cmd None]))
| launch_tool_failed outdir fs1 fs2 cmd rc fs3 :
    stage2_outdir args = Some outdir →
    fs_mkdir_p outdir (w_fs w) = Ok fs1 →
    stage2_answer outdir fs1 = Done true →
    fs_open_w (Nuproducts.log_of outdir) fs1 = Ok fs2 →
    nuproducts cmd fs2 = inr (rc, fs3) →
    rc ≠ 0 →
    launch_outcome args w
      (Done (key_of args, rc),
       grow w fs3 (EvMkdir outdir :: stage2_query outdir fs1
                     ++ [EvOpenW (Nuproducts.log_of outdir);
                         EvCall cmd (Some rc)]))
| launch_marker_error outdir fs1 fs2 cmd fs3 e :
    stage2_outdir args = Some outdir →
    fs_mkdir_p outdir (w_fs w) = Ok fs1 →
    stage2_answer outdir fs1 = Done true →
    fs_open_w (Nuproducts.log_of outdir) fs1 = Ok fs2 →
    nuproducts cmd fs2 = inr (0, fs3) →
    fs_append (Nuproducts.log_of outdir) Nuproducts.MARKER fs3 = Raise e →
    launch_outcome args w
      (Raised e,
       grow w fs3 (EvMkdir outdir :: stage2_query outdir fs1
                     ++ [EvOpenW (Nuproducts.log_of outdir);
                         EvCall cmd (Some 0);
                         EvAppend (Nuproducts.log_of outdir) Nuproducts.MARKER]))
| launch_marked outdir fs1 fs2 cmd fs3 fs4 :
    stage2_outdir args = Some outdir →
    fs_mkdir_p outdir (w_fs w) = Ok fs1 →
    stage2_answer outdir fs1 = Done true →
    fs_open_w (Nuproducts.log_of outdir) fs1 = Ok fs2 →
    nuproducts cmd fs2 = inr (0, fs3) →
    fs_append (Nuproducts.log_of outdir) Nuproducts.MARKER fs3 = Ok fs4 →
    launch_outcome args w
      (Done (key_of args, 0),
       grow w fs4 (EvMkdir outdir :: stage2_query outdir fs1
                     ++ [EvOpenW (Nuproducts.log_of outdir);
                         EvCall cmd (Some 0);
                         EvAppend (Nuproducts.log_of outdir) Nuproducts.MARKER])).

(** Stage 1: one turn of the planning loop on unit [obs], from the
    worklist [wl] and the world [w]; the turn raises when the check, the
    test of the output directory or its removal does. *)
Definition plan_step (cfg : obslist) (obs : str) (wl : list str) (w : world)
    : ending (list str) * world :=
  let fs := w_fs w in
  let outdir := Nupipeline.outdir_of cfg obs in
  match stage1_answer cfg obs fs with
  | Done true =>
      match fs_is_dir outdir fs with
      | Ok true =>
          if rmtree_refused outdir fs then
            (Raised OSError,
             grow w (fs_rmtree_stopped (rmtree_kept outdir fs) outdir fs)
               (stage1_query cfg obs fs ++ [EvIsDir outdir; EvRmtree outdir]))
          else
            (Done (wl ++ [obs]),
             grow w (fs_rmtree outdir fs)
               (stage1_query cfg obs fs
                  ++ [EvIsDir outdir; EvRmtree outdir; EvLog (LogQueued obs)]))
      | Ok false =>
          (Done (wl ++ [obs]),
           grow w fs (stage1_query cfg obs fs
                        ++ [EvIsDir outdir; EvLog (LogQueued obs)]))
      | Raise e =>
          (Raised e, grow w fs (stage1_query cfg obs fs ++ [EvIsDir outdir]))
      end
  | Done false =>
      (Done wl, grow w fs (stage1_query cfg obs fs ++ [EvLog (LogSkipped obs)]))
  | Raised e => (Raised e, grow w fs (stage1_query cfg obs fs))
  | Exited a => (Exited a, grow w fs (stage1_query cfg obs fs))
  end.

(** What a worker process may do: anything but submit or log. *)
Definition is_worker_event (e : event) : bool :=
  match e with
  | EvSubmit1 _ | EvSubmit2 _ | EvLog _ => false
  | _ => true
  end.

(** A launcher that ends by returning or raising, having grown the
    trace by worker events only. *)
Definition worker_like {U R} (launch : U → M R) : Prop :=
  ∀ u w, ∃ fs' evs,
    snd (launch u w) = {| w_fs := fs'; w_trace := w_trace w ++ evs |}
    ∧ Forall (fun e => is_worker_event e = true) evs
    ∧ ∀ a, fst (launch u w) ≠ Exited a.

(** The futures the collection loop goes through, in completion order:
    each submitted unit with what its worker left. *)
Definition futures_of {U R} (launch : U → M R) (order : list U) (w : world)
    : list (U * (exn + R)) :=
  match fst (run_workers launch order w) with
  | Done futs => futs
  | _ => []
  end.

Definition futures1 {TL : Tools} (cfg : obslist) (worklist : list str)
    (choices : list nat) (w : world) : list (str * (exn + (str * Z))) :=
  futures_of (fun obs => Nupipeline._launch_one (obs, cfg))
    (as_completed choices worklist)
    {| w_fs := w_fs w; w_trace := w_trace w ++ map EvSubmit1 worklist |}.

Definition futures2 {TL : Tools} (tasks : list task) (choices : list nat)
    (w : world) : list (task * (exn + (str * detector * combo * Z))) :=
  futures_of Nuproducts._launch (as_completed choices tasks)
    {| w_fs := w_fs w; w_trace := w_trace w ++ map EvSubmit2 tasks |}.

Definition returned {U R} (fut : U * (exn + R)) : bool :=
  match fut with (_, inr _) => true | (_, inl _) => false end.

(** The line stage 1 writes for one future that returned. *)
Definition report1_of (fut : str * (exn + (str * Z))) : list record :=
  match fut with
  | (obs, inr (_, rc)) => [report1 obs rc]
  | (_, inl _) => []
  end.

(** Stage 1: the worker count the [-j] option resolves to ([None]:
    [int()] raises). *)
Definition worker_count (jobs : Nupipeline.job_setting) : option Z :=
  match jobs with
  | Nupipeline.JAuto => Some (Z.max 1 (cpu_count / 2))
  | Nupipeline.JOff => Some 1
  | Nupipeline.JInt n => n
  end.

(** The subprocess calls of a trace, with what each returned. *)
Definition calls (tr : list event) : list (list str * option Z) :=
  omap (fun e => match e with EvCall cmd rc => Some (cmd, rc) | _ => None end) tr.

(** What a computation added to the trace. *)
Definition new_events (w w' : world) : list event :=
  drop (length (w_trace w)) (w_trace w').

(** The subprocess calls that ran to an exit code. *)
Definition is_call (e : event) : bool :=
  match e with EvCall _ _ => true | _ => false end.

Definition is_append (e : event) : bool :=
  match e with EvAppend _ _ => true | _ => false end.

Definition is_submit (e : event) : bool :=
  match e with EvSubmit1 _ | EvSubmit2 _ => true | _ => false end.

Definition is_rmtree (e : event) : bool :=
  match e with EvRmtree _ => true | _ => false end.

(** *** What the further properties speak of *)

(** Stage 2: unit [t] is complete on [fs]: the output directory can be
    made and the check, on [fs], answers that no run is needed. *)
Definition stage2_done (fs : filesystem) (t : task) : bool :=
  match stage2_outdir t with
  | Some outdir =>
      match fs_mkdir_p outdir fs, stage2_answer outdir fs with
      | Ok _, Done false => true
      | _, _ => false
      end
  | None => false
  end.

(** The line stage 2 writes for a unit that returned 0. *)
Definition completed_line (t : task) : record :=
  let '(obs, det, _, comb) := t in LogCompleted obs det comb.

(** A future that returned exit code 0. *)
Definition returned_zero {U K} (fut : U * (exn + (K * Z))) : bool :=
  match fut with
  | (_, inr (_, rc)) => rc =? 0
  | (_, inl _) => false
  end.

(** Stage 1: the variables the environment check finds missing, in
    the order it names them. *)
Definition missing_vars (environ : list str) : list str :=
  (if bool_decide (lit "HEADAS" ∈ environ) then [] else [lit "HEADAS"])
  ++ (if bool_decide (lit "CALDB" ∈ environ) then [] else [lit "CALDB"]).

(** Stage 1: the units the planner logged as queued, and the units it
    logged a decision for, in order. *)
Definition queued (tr : list event) : list str :=
  omap (fun e => match e with
                 | EvLog (LogQueued obs) => Some obs
                 | _ => None
                 end) tr.

Definition decided (tr : list event) : list str :=
  omap (fun e => match e with
                 | EvLog (LogQueued obs) | EvLog (LogSkipped obs) => Some obs
                 | _ => None
                 end) tr.

(** Stage 1: unit [obs] is finished on [fs]: the check answers that no
    run is needed. *)
Definition stage1_done (cfg : obslist) (fs : filesystem) (obs : str) : bool :=
  match stage1_answer cfg obs fs with
  | Done false => true
  | _ => false
  end.

(** Stage 1: nothing the planner may do for [obs] is refused on [fs]:
    neither the test of its log, nor the test of its output directory,
    nor the removal of that directory. *)
Definition permitted (cfg : obslist) (fs : filesystem) (obs : str) : bool :=
  match fs_is_file (Nupipeline.log_path_of cfg obs) fs,
        fs_is_dir (Nupipeline.outdir_of cfg obs) fs with
  | Ok _, Ok _ => negb (rmtree_refused (Nupipeline.outdir_of cfg obs) fs)
  | _, _ => false
  end.


(** Stage 1: what the planner does for a unit found complete. *)
Definition skip_events (cfg : obslist) (fs : filesystem) (obs : str) : list event :=
  stage1_query cfg obs fs ++ [EvLog (LogSkipped obs)].

(** Stage 1: the argument vector the launcher builds for a unit. *)
Definition nupipe_command (cfg : obslist) (obs : str) : list str :=
  [ lit "./nupipe_one.sh"; obs; indir_base cfg; outdir_base cfg;
    default (lit "no") (clobber cfg); default [] (extra_args cfg) ].


End Observations.

(** * Proofs *)

Opaque lit Nupipeline.FINISH_PREFIX Nuproducts.FIN_LINE Nuproducts.MARKER.

Section TextFacts.
Context `{PY : Platform}.

Lemma strip_prefix_Some (p s rest : str) :
  strip_prefix p s = Some rest ↔ s = p ++ rest.
Proof.
  revert s. induction p as [|a p IH]; intros s; simpl.
  - split; congruence.
  - destruct s as [|b s]; [split; discriminate|].
    destruct (N.eqb_spec a b) as [->|Hne].
    + rewrite IH. split; [intros ->; reflexivity | intros [= ->]; reflexivity].
    + split; [discriminate | intros [= ? ?]; congruence].
Qed.

Lemma take_while_split {X} (f : X → bool) (l : list X) :
  ∃ post, l = take_while f l ++ post
          ∧ Forall (fun c => f c = true) (take_while f l)
          ∧ ∀ c, head post = Some c → f c = false.
Proof.
  induction l as [|x l (post & Hl & Hall & Hhd)]; simpl.
  - exists []. split; [done|]. split; [constructor | intros c; discriminate].
  - destruct (f x) eqn:Hx.
    + exists post. simpl. split; [congruence|]. split; [by constructor | done].
    + exists (x :: l). split; [done|]. split; [constructor|]. intros c [= <-]. done.
Qed.

Lemma take_while_unique {X} (f : X → bool) (d post : list X) :
  Forall (fun c => f c = true) d →
  (∀ c, head post = Some c → f c = false) →
  take_while f (d ++ post) = d.
Proof.
  intros Hall Hhd. induction Hall as [|x d Hx _ IH]; simpl.
  - destruct post as [|c post]; [done|]. simpl. by rewrite (Hhd c).
  - by rewrite Hx, IH.
Qed.

Lemma FINISH_RE_match_Some (s d : str) :
  Nupipeline._FINISH_RE_match s = Some d ↔
  ∃ post, s = Nupipeline.FINISH_PREFIX ++ d ++ post
          ∧ d ≠ []
          ∧ Forall (fun c => is_decimal c = true) d
          ∧ ∀ c, head post = Some c → is_decimal c = false.
Proof.
  unfold Nupipeline._FINISH_RE_match. split.
  - destruct (strip_prefix _ s) as [rest|] eqn:Hs; [|discriminate].
    apply strip_prefix_Some in Hs.
    destruct (take_while_split is_decimal rest) as (post & Hrest & Hall & Hhd).
    destruct (take_while is_decimal rest) as [|c0 d0] eqn:Htw; [discriminate|].
    intros [= <-]. exists post. subst s. rewrite Hrest at 1. done.
  - intros (post & -> & Hne & Hall & Hhd).
    destruct (strip_prefix _ _) as [rest|] eqn:Hs.
    + apply strip_prefix_Some, app_inv_head in Hs. subst rest.
      rewrite take_while_unique by done. destruct d; done.
    + assert (strip_prefix Nupipeline.FINISH_PREFIX
                (Nupipeline.FINISH_PREFIX ++ d ++ post) = Some (d ++ post)) as E
        by by apply strip_prefix_Some.
      congruence.
Qed.

Lemma FINISH_RE_match_None (s : str) :
  Nupipeline._FINISH_RE_match s = None ↔
  ∀ rest c, s = Nupipeline.FINISH_PREFIX ++ rest →
            head rest = Some c → is_decimal c = false.
Proof.
  unfold Nupipeline._FINISH_RE_match. split.
  - intros H rest c ->.
    destruct (strip_prefix _ _) as [rest'|] eqn:Hs.
    + apply strip_prefix_Some, app_inv_head in Hs. subst rest'.
      destruct rest as [|c' rest]; [discriminate|]. simpl in *. intros [= ->].
      destruct (is_decimal c); [discriminate | done].
    + assert (strip_prefix Nupipeline.FINISH_PREFIX
                (Nupipeline.FINISH_PREFIX ++ rest) = Some rest) as E
        by by apply strip_prefix_Some.
      congruence.
  - intros H. destruct (strip_prefix _ s) as [rest|] eqn:Hs; [|done].
    apply strip_prefix_Some in Hs.
    destruct rest as [|c rest]; [done|]. simpl.
    by rewrite (H (c :: rest) c Hs eq_refl).
Qed.

Lemma FINISH_RE_search_unfold (s : str) :
  Nupipeline._FINISH_RE_search s =
  match Nupipeline._FINISH_RE_match s with
  | Some d => Some d
  | None => match s with
            | [] => None
            | _ :: s' => Nupipeline._FINISH_RE_search s'
            end
  end.
Proof. by destruct s. Qed.

(** The search returns the id of the leftmost, longest match. *)
Lemma FINISH_RE_search_spec (line id : str) :
  Nupipeline._FINISH_RE_search line = Some id ↔ finished_marker line id.
Proof.
  split.
  - revert id. induction line as [|c line IH]; intros id;
      rewrite FINISH_RE_search_unfold.
    + destruct (Nupipeline._FINISH_RE_match []) as [d|] eqn:Hm; [|discriminate].
      intros [= ->]. apply FINISH_RE_match_Some in Hm as (post & Hl & ? & ? & ?).
      exists [], post. split; [done|]. do 3 (split; [done|]).
      simpl. intros; lia.
    + destruct (Nupipeline._FINISH_RE_match (c :: line)) as [d|] eqn:Hm.
      * intros [= ->]. apply FINISH_RE_match_Some in Hm as (post & Hl & ? & ? & ?).
        exists [], post. split; [done|]. do 3 (split; [done|]).
        simpl. intros; lia.
      * intros Hs. apply IH in Hs as (pre & post & Hl & ? & ? & ? & Hleft).
        exists (c :: pre), post. split; [by rewrite Hl|].
        do 3 (split; [done|]).
        intros pre' rest c' Hl' Hlen Hhd.
        destruct pre' as [|c0 pre'].
        -- rewrite FINISH_RE_match_None in Hm. by apply (Hm rest c' Hl').
        -- simpl in Hl'. injection Hl' as -> Hl'. simpl in Hlen.
           apply (Hleft pre' rest c'); [done | lia | done].
  - intros (pre & post & Hl & Hne & Hall & Hhd & Hleft).
    revert line Hl Hleft. induction pre as [|c pre IH]; intros line Hl Hleft.
    + simpl in Hl.
      assert (Nupipeline._FINISH_RE_match line = Some id) as Hm
        by (apply FINISH_RE_match_Some; by exists post).
      by rewrite FINISH_RE_search_unfold, Hm.
    + simpl in Hl. subst line. rewrite FINISH_RE_search_unfold.
      assert (Nupipeline._FINISH_RE_match
                (c :: pre ++ Nupipeline.FINISH_PREFIX ++ id ++ post) = None) as ->.
      { apply FINISH_RE_match_None. intros rest c' Hr Hhd'.
        apply (Hleft [] rest c'); [done | simpl; lia | done]. }
      apply IH; [done|]. intros pre' rest c' Hl' Hlen Hhd'.
      apply (Hleft (c :: pre') rest c'); [by rewrite Hl' | simpl; lia | done].
Qed.

Lemma finished_in_spec (obsid : str) (lines : list str) :
  Nupipeline.finished_in obsid lines = true ↔
  ∃ line, line ∈ lines ∧ finished_marker line obsid.
Proof.
  induction lines as [|l lines IH]; simpl.
  - split; [discriminate | intros (? & H & _); by apply elem_of_nil in H].
  - destruct (Nupipeline._FINISH_RE_search l) as [g|] eqn:Hs.
    + unfold str_eqb. case_bool_decide as Hg.
      * subst g. split; [|done]. intros _. exists l. split; [left|].
        by apply FINISH_RE_search_spec.
      * rewrite IH. split.
        -- intros (x & ? & ?). exists x. split; [by right | done].
        -- intros (x & [->|Hin]%elem_of_cons & Hx); [|by exists x].
           apply FINISH_RE_search_spec in Hx. congruence.
    + rewrite IH. split.
      * intros (x & ? & ?). exists x. split; [by right | done].
      * intros (x & [->|Hin]%elem_of_cons & Hx); [|by exists x].
        apply FINISH_RE_search_spec in Hx. congruence.
Qed.

End TextFacts.

Section DetectorFacts.
Context `{PY : Platform}.

Lemma needs_rerun1_run (obsid : str) (cfg : obslist) (w : world) :
  Nupipeline._needs_rerun obsid cfg w =
  (stage1_answer cfg obsid (w_fs w),
   {| w_fs := w_fs w;
      w_trace := w_trace w ++ stage1_query cfg obsid (w_fs w) |}).
Proof.
  unfold Nupipeline._needs_rerun, stage1_answer, stage1_query, is_file, read_text,
    except_OSError, bind, emit, get_fs, ret, lift_res, raise,
    fs_is_file, fs_read_text. simpl.
  destruct (fs_lookup _ (w_fs w)) as [[|[] text|]|] eqn:E; simpl;
    rewrite ?E; simpl; rewrite <- ?app_assoc; simpl; try done.
  by destruct (Nupipeline.finished_in _ _).
Qed.

Lemma elem_of_rev_iff {X} (x : X) (l : list X) : x ∈ rev l ↔ x ∈ l.
Proof. rewrite !list_elem_of_In. symmetry. apply in_rev. Qed.

Lemma last_n_app {X} (n : nat) (l1 l2 : list X) :
  length l2 = n → last_n n (l1 ++ l2) = l2.
Proof.
  intros <-. unfold last_n. rewrite length_app.
  replace (length l1 + length l2 - length l2)%nat with (length l1) by lia.
  by rewrite drop_app_length.
Qed.

(** C6. Stage 1: an absent log means not complete; a readable log means
    complete exactly when one of its last 100 lines matches the finished
    pattern with the unit's own id embedded; a marker before the last
    100 lines, or one with another id, does not count. *)
Theorem C6_stage1_completion_check (obsid : str) (cfg : obslist) (w : world) :
  let log := Nupipeline.log_path_of cfg obsid in
  let answer := fst (Nupipeline._needs_rerun obsid cfg w) in
  (fs_is_file log (w_fs w) = Ok false → answer = Done true)
  ∧ (∀ text, fs_lookup log (w_fs w) = Some (File true text) →
       (answer = Done false ∨ answer = Done true)
       ∧ (answer = Done false ↔
            ∃ line, line ∈ last_n 100 (splitlines text)
                    ∧ finished_marker line obsid))
  ∧ (∀ text earlier tail,
       fs_lookup log (w_fs w) = Some (File true text) →
       splitlines text = earlier ++ tail → length tail = 100%nat →
       (answer = Done false ↔
          ∃ line, line ∈ tail ∧ finished_marker line obsid))
  ∧ (∀ text,
       fs_lookup log (w_fs w) = Some (File true text) →
       (∀ line id, line ∈ last_n 100 (splitlines text) →
                   finished_marker line id → id ≠ obsid) →
       answer = Done true).
Proof.
  intros log answer. subst answer. rewrite needs_rerun1_run. simpl.
  assert (∀ text, fs_lookup log (w_fs w) = Some (File true text) →
            stage1_answer cfg obsid (w_fs w)
            = Done (negb (Nupipeline.finished_in obsid
                            (rev (last_n 100 (splitlines text)))))) as Hans.
  { intros text Hlog. unfold stage1_answer, fs_is_file, fs_read_text.
    fold log. by rewrite Hlog. }
  assert (∀ text, fs_lookup log (w_fs w) = Some (File true text) →
            stage1_answer cfg obsid (w_fs w) = Done false ↔
            ∃ line, line ∈ last_n 100 (splitlines text)
                    ∧ finished_marker line obsid) as Hiff.
  { intros text Hlog. rewrite (Hans text Hlog).
    assert (∀ b, Done (negb b) = (Done false : ending bool) ↔ b = true) as ->
      by (intros []; simpl; split; congruence).
    rewrite finished_in_spec.
    split; intros (line & Hin & Hm); exists line; split; try done.
    - by apply elem_of_rev_iff.
    - by apply elem_of_rev_iff. }
  split; [|split; [|split]].
  - intros Hfile. unfold stage1_answer. fold log. by rewrite Hfile.
  - intros text Hlog. split.
    + rewrite (Hans text Hlog). destruct (Nupipeline.finished_in _ _); auto.
    + apply (Hiff text Hlog).
  - intros text earlier tail Hlog Hsplit Hlen.
    rewrite <- (last_n_app 100 earlier tail Hlen), <- Hsplit.
    apply (Hiff text Hlog).
  - intros text Hlog Hother.
    destruct (Nupipeline.finished_in obsid (rev (last_n 100 (splitlines text))))
      eqn:Hfin; [|by rewrite (Hans text Hlog), Hfin].
    assert (stage1_answer cfg obsid (w_fs w) = Done false) as Hf
      by by rewrite (Hans text Hlog), Hfin.
    destruct (proj1 (Hiff text Hlog) Hf) as (line & Hin & Hm).
    by destruct (Hother line obsid Hin Hm).
Qed.

End DetectorFacts.

Section EffectFacts.
Context `{PY : Platform}.

Lemma grow_grow (w : world) fs1 evs1 fs2 evs2 :
  grow (grow w fs1 evs1) fs2 evs2 = grow w fs2 (evs1 ++ evs2).
Proof. unfold grow. simpl. by rewrite app_assoc. Qed.

Lemma grow_fs (w : world) fs evs : w_fs (grow w fs evs) = fs.
Proof. reflexivity. Qed.

Lemma grow_trace (w : world) fs evs : w_trace (grow w fs evs) = w_trace w ++ evs.
Proof. reflexivity. Qed.

Lemma grow_nil (w : world) : grow w (w_fs w) [] = w.
Proof. destruct w. unfold grow. simpl. by rewrite app_nil_r. Qed.

Lemma calls_elem (cmd : list str) (rc : option Z) (tr : list event) :
  (cmd, rc) ∈ calls tr → EvCall cmd rc ∈ tr.
Proof.
  unfold calls. intros (e & He & Heq)%list_elem_of_omap.
  destruct e; try discriminate. by injection Heq as -> ->.
Qed.

Lemma bind_run {X Y} (m : M X) (k : X → M Y) (w : world) :
  bind m k w =
  match m w with
  | (Done x, w') => k x w'
  | (Raised e, w') => (Raised e, w')
  | (Exited a, w') => (Exited a, w')
  end.
Proof. reflexivity. Qed.

Lemma mkdir_p_run (p : path) (w : world) :
  mkdir_p p w =
  match fs_mkdir_p p (w_fs w) with
  | Ok fs' => (Done tt, grow w fs' [EvMkdir p])
  | Raise e => (Raised e, grow w (w_fs w) [EvMkdir p])
  end.
Proof.
  unfold mkdir_p, bind, emit, get_fs, put_fs, lift_res, grow. simpl.
  by destruct (fs_mkdir_p p (w_fs w)).
Qed.

Lemma open_w_run (p : path) (w : world) :
  open_w p w =
  match fs_open_w p (w_fs w) with
  | Ok fs' => (Done tt, grow w fs' [EvOpenW p])
  | Raise e => (Raised e, grow w (w_fs w) [EvOpenW p])
  end.
Proof.
  unfold open_w, bind, emit, get_fs, put_fs, lift_res, grow. simpl.
  by destruct (fs_open_w p (w_fs w)).
Qed.

Lemma append_run (p : path) (t : str) (w : world) :
  append p t w =
  match fs_append p t (w_fs w) with
  | Ok fs' => (Done tt, grow w fs' [EvAppend p t])
  | Raise e => (Raised e, grow w (w_fs w) [EvAppend p t])
  end.
Proof.
  unfold append, bind, emit, get_fs, put_fs, lift_res, grow. simpl.
  by destruct (fs_append p t (w_fs w)).
Qed.

Lemma subprocess_call_run tool (cmd : list str) (w : world) :
  subprocess_call tool cmd w =
  match tool cmd (w_fs w) with
  | inr (rc, fs') => (Done rc, grow w fs' [EvCall cmd (Some rc)])
  | inl e => (Raised e, grow w (w_fs w) [EvCall cmd None])
  end.
Proof. reflexivity. Qed.

Lemma needs_rerun2_run (outdir : path) (w : world) :
  Nuproducts._needs_rerun outdir w =
  (stage2_answer outdir (w_fs w),
   grow w (w_fs w) (stage2_query outdir (w_fs w))).
Proof.
  unfold Nuproducts._needs_rerun, stage2_answer, stage2_query, exists_, read_text,
    bind, emit, get_fs, ret, lift_res, raise, grow. simpl.
  destruct (fs_exists _ (w_fs w)) as [[]|e] eqn:E; simpl; rewrite ?E; simpl;
    try done.
  destruct (fs_read_text _ (w_fs w)) eqn:E2; simpl; rewrite ?E2; simpl;
    by rewrite <- app_assoc.
Qed.

End EffectFacts.

Ltac norm_grow := rewrite ?grow_grow, <- ?app_assoc; cbn [app].

Section LauncherFacts.
Context `{PY : Platform} {TL : Tools}.

Lemma launch_run (args : task) (w : world) :
  launch_outcome args w (Nuproducts._launch args w).
Proof.
  destruct args as [[[obsid det] cfg] [[[r_src rin] rout] binsize]].
  unfold Nuproducts._launch, Nuproducts.fmt.
  destruct (fmt_03_0f r_src) as [s_src|] eqn:E1;
    [|apply launch_format_error; simpl; by rewrite E1].
  destruct (fmt_03_0f rin) as [s_rin|] eqn:E2;
    [|apply launch_format_error; simpl; by rewrite E1, E2].
  destruct (fmt_03_0f rout) as [s_rout|] eqn:E3;
    [|apply launch_format_error; simpl; by rewrite E1, E2, E3].
  destruct (fmt_03d r_src) as [d_src|] eqn:E4;
    [|apply launch_format_error; simpl; by rewrite E1, E2, E3, E4].
  destruct (fmt_03d rin) as [d_rin|] eqn:E5;
    [|apply launch_format_error; simpl; by rewrite E1, E2, E3, E4, E5].
  destruct (fmt_03d rout) as [d_rout|] eqn:E6;
    [|apply launch_format_error; simpl; by rewrite E1, E2, E3, E4, E5, E6].
  cbn [lift_opt bind ret raise].
  set (outdir := pjoin (pjoin _ obsid) _).
  assert (stage2_outdir (obsid, det, cfg, (r_src, rin, rout, binsize)) = Some outdir)
    as Hout by (simpl; by rewrite E1, E2, E3, E4, E5, E6).
  rewrite bind_run, mkdir_p_run.
  destruct (fs_mkdir_p outdir (w_fs w)) as [fs1|e] eqn:Hmk;
    [|by eapply launch_mkdir_error].
  rewrite bind_run, needs_rerun2_run, !grow_fs.
  destruct (stage2_answer outdir fs1) as [[]|e|a] eqn:Hans.
  - (* not complete: run the tool *)
    cbn [negb]. rewrite bind_run, open_w_run, !grow_fs.
    destruct (fs_open_w _ fs1) as [fs2|e] eqn:Hop.
    + rewrite bind_run, subprocess_call_run, !grow_fs.
      match goal with |- context [nuproducts ?c fs2] => set (cmd := c) end.
      destruct (nuproducts cmd fs2) as [e|[rc fs3]] eqn:Htool.
      * norm_grow. by eapply launch_spawn_error.
      * destruct (Z.eqb_spec rc 0) as [->|Hrc].
        -- rewrite bind_run, append_run, !grow_fs.
           destruct (fs_append _ _ fs3) as [fs4|e] eqn:Hap.
           ++ norm_grow. unfold ret. by eapply (launch_marked (obsid, det, cfg, (r_src, rin, rout, binsize)) w).
           ++ norm_grow. by eapply launch_marker_error.
        -- norm_grow. unfold ret. by eapply (launch_tool_failed (obsid, det, cfg, (r_src, rin, rout, binsize)) w).
    + norm_grow. by eapply launch_open_error.
  - cbn [negb]. norm_grow. unfold ret. by eapply (launch_already_done (obsid, det, cfg, (r_src, rin, rout, binsize)) w).
  - norm_grow. by eapply launch_check_error.
  - (* the check never exits *)
    unfold stage2_answer in Hans.
    destruct (fs_exists _ fs1) as [[]|]; [destruct (fs_read_text _ fs1)| |];
      discriminate.
Qed.

End LauncherFacts.

Section LauncherClaims.
Context `{PY : Platform} {TL : Tools}.

Lemma new_events_grow (w : world) fs evs : new_events w (grow w fs evs) = evs.
Proof. unfold new_events, grow. simpl. by rewrite drop_app_length. Qed.

Lemma new_events_same (w : world) : new_events w w = [].
Proof. unfold new_events. by rewrite drop_all. Qed.

Lemma stage2_query_quiet (outdir : path) (fs : filesystem) (e : event) :
  e ∈ stage2_query outdir fs →
  is_call e = false ∧ is_append e = false ∧ is_submit e = false.
Proof.
  unfold stage2_query. intros Hin.
  destruct (fs_exists _ fs) as [[]|];
    repeat (apply elem_of_cons in Hin as [->|Hin]; [done|]);
    by apply elem_of_nil in Hin.
Qed.

Lemma mkdir_from_keeps (done rest : path) (fs fs' : filesystem) q n :
  mkdir_from done rest fs = Ok fs' → fs !! q = Some n → fs' !! q = Some n.
Proof.
  revert done fs. induction rest as [|c rest IH]; intros done fs; simpl.
  - by intros [= ->].
  - destruct (fs !! (done ++ [c])) as [[|r t|]|] eqn:E; [by apply IH|done|done|].
    intros Hmk Hq. apply (IH _ _ Hmk).
    rewrite lookup_insert_ne; [done|]. intros Heq. rewrite Heq in E. congruence.
Qed.

Lemma mkdir_from_is_dir (done rest : path) (fs fs' : filesystem) :
  fs_lookup done fs = Some Dir →
  mkdir_from done rest fs = Ok fs' →
  fs_lookup (done ++ rest) fs' = Some Dir.
Proof.
  revert done fs. induction rest as [|c rest IH]; intros done fs Hdone; simpl.
  - intros [= ->]. by rewrite app_nil_r.
  - assert (∀ g : filesystem, fs_lookup (done ++ [c]) g = g !! (done ++ [c])) as Hlk
      by (intros g; by destruct done).
    rewrite (app_assoc done [c] rest : done ++ c :: rest = (done ++ [c]) ++ rest).
    destruct (fs !! (done ++ [c])) as [[|r t|]|] eqn:E; [|done|done|].
    + apply IH. by rewrite Hlk.
    + apply IH. by rewrite Hlk, lookup_insert_eq.
Qed.

Lemma mkdir_p_is_dir (p : path) (fs fs' : filesystem) :
  fs_mkdir_p p fs = Ok fs' → fs_is_dir p fs' = Ok true.
Proof.
  intros H. apply (mkdir_from_is_dir [] p) in H; [|done].
  unfold fs_is_dir. simpl in H. by rewrite H.
Qed.

Lemma launch_events_2 (a o c : event) (q : list event) :
  a :: q ++ [o; c] = (a :: q ++ [o]) ++ [c].
Proof. cbn [app]. by rewrite <- app_assoc. Qed.

Lemma launch_events_3 (a o c d : event) (q : list event) :
  a :: q ++ [o; c; d] = (a :: q ++ [o]) ++ [c; d].
Proof. cbn [app]. by rewrite <- app_assoc. Qed.

Lemma launch_prefix_quiet (outdir : path) (fs1 : filesystem) (e : event) :
  e ∈ EvMkdir outdir :: stage2_query outdir fs1
        ++ [EvOpenW (Nuproducts.log_of outdir)] →
  is_append e = false ∧ is_call e = false.
Proof.
  intros [->|[Hq| ->%list_elem_of_singleton]%elem_of_app]%elem_of_cons;
    [done| |done].
  by destruct (stage2_query_quiet _ _ _ Hq) as (? & ? & _).
Qed.

Lemma MARKER_text :
  Nuproducts.MARKER = 10%N :: lit "nuproducts done" ++ [10%N].
Proof. by vm_compute. Qed.

Lemma fs_lookup_insert (p : path) (n : node) (fs : filesystem) :
  p ≠ [] → fs_lookup p (<[p := n]> fs) = Some n.
Proof. intros Hp. destruct p; [done|]. simpl. by rewrite lookup_insert_eq. Qed.

Lemma fs_open_w_lookup (p : path) (fs fs' : filesystem) :
  fs_open_w p fs = Ok fs' → ∃ r, fs_lookup p fs' = Some (File r []).
Proof.
  unfold fs_open_w. intros H.
  assert (p ≠ []) as Hp by (intros ->; simpl in H; discriminate).
  destruct (fs_lookup p fs) as [[|r c|]|]; [done| |done|].
  - injection H as <-. exists r. by apply fs_lookup_insert.
  - destruct (parent_is_dir p fs); [|done]. injection H as <-.
    exists true. by apply fs_lookup_insert.
Qed.

(** C2. Stage 2: when the launcher runs the subprocess and it exits
    with [rc], the log is an empty file when the call starts and nothing
    is appended to it before the call returns. On a non-zero exit the
    launcher writes nothing more: the filesystem is as the tool left
    it. On exit code 0 the launcher appends, right after the call, a
    line feed, the line "nuproducts done" and a line feed: the log the
    tool left gets that text at its end (a log the tool removed is made
    anew with that text alone), every other entry staying as the tool
    left it; only when the log can no longer be opened for appending
    does the launcher raise instead, the filesystem as the tool left
    it. *)
Theorem C2_marker_only_after_zero_exit (args : task) (w : world)
    (cmd : list str) (rc : Z) :
  let run := Nuproducts._launch args w in
  let w' := snd run in
  let marker := 10%N :: lit "nuproducts done" ++ [10%N] in
  EvCall cmd (Some rc) ∈ new_events w w' →
  ∃ outdir before fs_before fs_tool,
    let log := Nuproducts.log_of outdir in
    stage2_outdir args = Some outdir
    ∧ nuproducts cmd fs_before = inr (rc, fs_tool)
    ∧ (∃ r, fs_lookup log fs_before = Some (File r []))
    ∧ new_events w w' =
        before ++ EvCall cmd (Some rc)
          :: (if rc =? 0 then [EvAppend log Nuproducts.MARKER] else [])
    ∧ Nuproducts.MARKER = marker
    ∧ (∀ e, e ∈ before → is_append e = false ∧ is_call e = false)
    ∧ ((∃ p t, EvAppend p t ∈ new_events w w') ↔ rc = 0)
    ∧ (rc ≠ 0 → fst run = Done (key_of args, rc) ∧ w_fs w' = fs_tool)
    ∧ (rc = 0 →
         match fs_lookup log fs_tool with
         | Some (File r text) =>
             fst run = Done (key_of args, 0)
             ∧ w_fs w' = <[log := File r (text ++ marker)]> fs_tool
         | None =>
             if parent_is_dir log fs_tool
             then fst run = Done (key_of args, 0)
                  ∧ w_fs w' = <[log := File true marker]> fs_tool
             else fst run = Raised OSError ∧ w_fs w' = fs_tool
         | Some _ => fst run = Raised OSError ∧ w_fs w' = fs_tool
         end).
Proof.
  intros run w' marker. subst run w'.
  assert (∀ outdir fs3 (r : res filesystem),
            fs_append (Nuproducts.log_of outdir) Nuproducts.MARKER fs3 = r →
            match fs_lookup (Nuproducts.log_of outdir) fs3 with
            | Some (File b text) =>
                r = Ok (<[Nuproducts.log_of outdir := File b (text ++ marker)]> fs3)
            | None =>
                if parent_is_dir (Nuproducts.log_of outdir) fs3
                then r = Ok (<[Nuproducts.log_of outdir := File true marker]> fs3)
                else r = Raise OSError
            | Some _ => r = Raise OSError
            end) as Happend.
  { intros outdir fs3 r <-. unfold fs_append. rewrite MARKER_text. fold marker.
    destruct (fs_lookup _ fs3) as [[|b text|]|]; try done.
    by destruct (parent_is_dir _ fs3). }
  destruct (launch_run args w) as
    [ Hout | outdir e Hout Hmk | outdir fs1 e Hout Hmk Hans
    | outdir fs1 Hout Hmk Hans | outdir fs1 e Hout Hmk Hans Hop
    | outdir fs1 fs2 cmd' e Hout Hmk Hans Hop Htool
    | outdir fs1 fs2 cmd' rc' fs3 Hout Hmk Hans Hop Htool Hrc
    | outdir fs1 fs2 cmd' fs3 e Hout Hmk Hans Hop Htool Hap
    | outdir fs1 fs2 cmd' fs3 fs4 Hout Hmk Hans Hop Htool Hap ];
    cbn [fst snd]; rewrite ?new_events_grow, ?new_events_same, ?grow_fs;
    rewrite ?launch_events_2, ?launch_events_3; intros Hin.
  - by apply elem_of_nil in Hin.
  - by apply list_elem_of_singleton in Hin.
  - apply elem_of_cons in Hin as [?|Hin]; [done|].
    by destruct (stage2_query_quiet _ _ _ Hin).
  - apply elem_of_cons in Hin as [?|Hin]; [done|].
    by destruct (stage2_query_quiet _ _ _ Hin).
  - by destruct (launch_prefix_quiet _ _ _ Hin).
  - apply elem_of_app in Hin as [Hin|Hin%list_elem_of_singleton]; [|done].
    by destruct (launch_prefix_quiet _ _ _ Hin).
  - apply elem_of_app in Hin as [Hin|Hin%list_elem_of_singleton];
      [by destruct (launch_prefix_quiet _ _ _ Hin)|].
    injection Hin as -> ->.
    eexists outdir, _, fs2, fs3. cbv zeta.
    destruct (Z.eqb_spec rc' 0) as [?|_]; [done|].
    split; [done|]. split; [done|]. split; [exact (fs_open_w_lookup _ _ _ Hop)|].
    split; [done|]. split; [apply MARKER_text|].
    split; [apply launch_prefix_quiet|]. split; [|done].
    split; [|done]. intros (p & t & Hp).
    apply elem_of_app in Hp as [Hp|Hp%list_elem_of_singleton]; [|done].
    by destruct (launch_prefix_quiet _ _ _ Hp).
  - apply elem_of_app in Hin as [Hin|Hin];
      [by destruct (launch_prefix_quiet _ _ _ Hin)|].
    apply elem_of_cons in Hin as [Hin|Hin%list_elem_of_singleton]; [|done].
    injection Hin as -> ->.
    eexists outdir, _, fs2, fs3. cbv zeta. cbn [Z.eqb].
    split; [done|]. split; [done|]. split; [exact (fs_open_w_lookup _ _ _ Hop)|].
    split; [done|]. split; [apply MARKER_text|].
    split; [apply launch_prefix_quiet|].
    split; [split; [done|]; intros _; eexists _, _;
            apply elem_of_app; right; apply elem_of_cons; right; by left|].
    split; [done|]. intros _. specialize (Happend outdir fs3 _ Hap).
    assert (e = OSError) as ->.
    { unfold fs_append in Hap.
      destruct (fs_lookup _ fs3) as [[| |]|]; try congruence.
      destruct (parent_is_dir _ fs3); congruence. }
    destruct (fs_lookup _ fs3) as [[|b text|]|]; try done.
    by destruct (parent_is_dir _ fs3).
  - apply elem_of_app in Hin as [Hin|Hin];
      [by destruct (launch_prefix_quiet _ _ _ Hin)|].
    apply elem_of_cons in Hin as [Hin|Hin%list_elem_of_singleton]; [|done].
    injection Hin as -> ->.
    eexists outdir, _, fs2, fs3. cbv zeta. cbn [Z.eqb].
    split; [done|]. split; [done|]. split; [exact (fs_open_w_lookup _ _ _ Hop)|].
    split; [done|]. split; [apply MARKER_text|].
    split; [apply launch_prefix_quiet|].
    split; [split; [done|]; intros _; eexists _, _;
            apply elem_of_app; right; apply elem_of_cons; right; by left|].
    split; [done|]. intros _. specialize (Happend outdir fs3 _ Hap).
    destruct (fs_lookup _ fs3) as [[|b text|]|]; try done.
    + by injection Happend as <-.
    + destruct (parent_is_dir _ fs3); [|done]. by injection Happend as <-.
Qed.


(** C7, as amended. Stage 1: when the log is found to be a file and
    reading it raises an I/O error, the check answers not complete and
    raises nothing; the handler covers the read alone, so an error
    raised by the test of the log itself reaches the caller. The stage-2
    check has no handler: an error of its test or of the read reaches
    the caller. *)
Theorem C7_unreadable_log (obsid : str) (cfg : obslist) (outdir : path) (w : world) :
  (fs_is_file (Nupipeline.log_path_of cfg obsid) (w_fs w) = Ok true →
   fs_read_text (Nupipeline.log_path_of cfg obsid) (w_fs w) = Raise OSError →
   fst (Nupipeline._needs_rerun obsid cfg w) = Done true)
  ∧ (∀ e, fs_is_file (Nupipeline.log_path_of cfg obsid) (w_fs w) = Raise e →
          fst (Nupipeline._needs_rerun obsid cfg w) = Raised e)
  ∧ (fs_exists (Nuproducts.log_of outdir) (w_fs w) = Ok true →
     fs_read_text (Nuproducts.log_of outdir) (w_fs w) = Raise OSError →
     fst (Nuproducts._needs_rerun outdir w) = Raised OSError)
  ∧ (∀ e, fs_exists (Nuproducts.log_of outdir) (w_fs w) = Raise e →
          fst (Nuproducts._needs_rerun outdir w) = Raised e).
Proof.
  split; [|split; [|split]].
  - intros Hfile Hread. rewrite needs_rerun1_run. cbn [fst].
    unfold stage1_answer. by rewrite Hfile, Hread.
  - intros e Hfile. rewrite needs_rerun1_run. cbn [fst].
    unfold stage1_answer. by rewrite Hfile.
  - intros Hex Hread. rewrite needs_rerun2_run. cbn [fst].
    unfold stage2_answer. by rewrite Hex, Hread.
  - intros e Hex. rewrite needs_rerun2_run. cbn [fst].
    unfold stage2_answer. by rewrite Hex.
Qed.

(** Stage 1: the check leaves the filesystem as it is and never exits. *)
Lemma needs_rerun1_frame (obsid : str) (cfg : obslist) (w : world) :
  w_fs (snd (Nupipeline._needs_rerun obsid cfg w)) = w_fs w
  ∧ ∀ a, fst (Nupipeline._needs_rerun obsid cfg w) ≠ Exited a.
Proof.
  rewrite needs_rerun1_run. split; [done|]. intros a. cbn [fst].
  unfold stage1_answer.
  destruct (fs_is_file _ (w_fs w)) as [[]|]; [|done|done].
  by destruct (fs_read_text _ (w_fs w)).
Qed.

End LauncherClaims.

Section PlannerFacts.
Context `{PY : Platform}.

Lemma is_dir_run (p : path) (w : world) :
  is_dir p w =
  match fs_is_dir p (w_fs w) with
  | Ok b => (Done b, grow w (w_fs w) [EvIsDir p])
  | Raise e => (Raised e, grow w (w_fs w) [EvIsDir p])
  end.
Proof.
  unfold is_dir, bind, emit, get_fs, lift_res, grow. simpl.
  by destruct (fs_is_dir p (w_fs w)).
Qed.

Lemma rmtree_run (p : path) (w : world) :
  rmtree p w =
  if rmtree_refused p (w_fs w)
  then (Raised OSError,
        grow w (fs_rmtree_stopped (rmtree_kept p (w_fs w)) p (w_fs w)) [EvRmtree p])
  else (Done tt, grow w (fs_rmtree p (w_fs w)) [EvRmtree p]).
Proof.
  unfold rmtree, bind, emit, get_fs, put_fs, raise, grow. simpl.
  by destruct (rmtree_refused p (w_fs w)).
Qed.

Lemma logging_run (r : record) (w : world) :
  logging r w = (Done tt, grow w (w_fs w) [EvLog r]).
Proof. reflexivity. Qed.

Ltac run_effects :=
  repeat first
    [ rewrite bind_run | rewrite rmtree_run
    | rewrite logging_run | progress cbn [w_fs w_trace grow ret] ].

(** The loop takes one [plan_step] per candidate, and stops at the
    first one that raises. *)
Lemma plan_cons (obs : str) (rest : list str) (cfg : obslist)
    (wl : list str) (w : world) :
  Nupipeline.plan (obs :: rest) cfg wl w =
  match plan_step cfg obs wl w with
  | (Done wl', w') => Nupipeline.plan rest cfg wl' w'
  | (Raised e, w') => (Raised e, w')
  | (Exited a, w') => (Exited a, w')
  end.
Proof.
  cbn [Nupipeline.plan]. rewrite bind_run, needs_rerun1_run.
  unfold plan_step.
  destruct (stage1_answer cfg obs (w_fs w)) as [[]|e|a]; try done.
  - rewrite bind_run, bind_run, is_dir_run. cbn [w_fs].
    destruct (fs_is_dir _ (w_fs w)) as [[]|e];
      [rewrite bind_run, rmtree_run, ?grow_fs;
       destruct (rmtree_refused _ (w_fs w))| |]; run_effects;
      unfold grow; cbn [fst snd w_fs w_trace]; by rewrite <- ?app_assoc.
  - run_effects. unfold grow; cbn [fst snd w_fs w_trace]. by rewrite <- !app_assoc.
Qed.

Lemma plan_app (pre post : list str) (cfg : obslist) (wl : list str) (w : world) :
  Nupipeline.plan (pre ++ post) cfg wl w =
  match Nupipeline.plan pre cfg wl w with
  | (Done wl', w') => Nupipeline.plan post cfg wl' w'
  | (Raised e, w') => (Raised e, w')
  | (Exited a, w') => (Exited a, w')
  end.
Proof.
  revert wl w. induction pre as [|obs pre IH]; intros wl w; [done|].
  cbn [app]. rewrite !plan_cons.
  destruct (plan_step cfg obs wl w) as [[wl'|e|a] w']; [apply IH|done|done].
Qed.

Lemma plan_step_never_exits (cfg : obslist) (obs : str) (wl : list str)
    (w : world) (a : exit_arg) :
  fst (plan_step cfg obs wl w) ≠ Exited a.
Proof.
  unfold plan_step.
  destruct (needs_rerun1_frame obs cfg w) as [_ Hne].
  rewrite needs_rerun1_run in Hne. cbn [fst] in Hne.
  destruct (stage1_answer cfg obs (w_fs w)) as [[]|e|a']; try done.
  - destruct (fs_is_dir _ (w_fs w)) as [[]|e]; [|done|done].
    by destruct (rmtree_refused _ (w_fs w)).
  - by destruct (Hne a').
Qed.


(** One more candidate after [pre]: the loop takes one [plan_step] from
    where [pre] left it. *)
Lemma plan_snoc (pre : list str) (obs : str) (cfg : obslist)
    (wl : list str) (w : world) (wl_b : list str) (w_b : world) :
  Nupipeline.plan pre cfg wl w = (Done wl_b, w_b) →
  Nupipeline.plan (pre ++ [obs]) cfg wl w = plan_step cfg obs wl_b w_b
  ∧ ∀ post, Nupipeline.plan (pre ++ obs :: post) cfg wl w =
            match plan_step cfg obs wl_b w_b with
            | (Done wl', w') => Nupipeline.plan post cfg wl' w'
            | (Raised e, w') => (Raised e, w')
            | (Exited a, w') => (Exited a, w')
            end.
Proof.
  intros Hpre. split.
  - rewrite plan_app, Hpre, plan_cons.
    by destruct (plan_step cfg obs wl_b w_b) as [[wl'|e|a] w'].
  - intros post. by rewrite plan_app, Hpre, plan_cons.
Qed.

Lemma rmtree_gone (p q : path) (fs : filesystem) :
  p `prefix_of` q → fs_rmtree p fs !! q = None.
Proof.
  intros Hpq. unfold fs_rmtree. apply map_lookup_filter_None. right.
  intros n _ Hn. by apply Hn.
Qed.

Lemma rmtree_elsewhere (p q : path) (fs : filesystem) :
  ¬ p `prefix_of` q → fs_rmtree p fs !! q = fs !! q.
Proof.
  intros Hpq. unfold fs_rmtree.
  destruct (fs !! q) as [n|] eqn:E.
  - by apply map_lookup_filter_Some.
  - apply map_lookup_filter_None. by left.
Qed.

Lemma rmtree_refused_spec (p : path) (fs : filesystem) :
  rmtree_refused p fs = true ↔ ∃ q, p `prefix_of` q ∧ fs !! q = Some Denied.
Proof.
  unfold rmtree_refused. rewrite existsb_exists. split.
  - intros ([q n] & Hin & H). apply andb_true_iff in H as [Hp Hn].
    apply bool_decide_eq_true in Hp. exists q. split; [done|].
    apply list_elem_of_In, elem_of_map_to_list in Hin. by destruct n.
  - intros (q & Hp & Hq). exists (q, Denied). split.
    + by apply list_elem_of_In, elem_of_map_to_list.
    + cbn [fst snd is_denied]. by rewrite bool_decide_eq_true_2.
Qed.

(** A refused [rmtree] only deletes, and only below its target. *)
Lemma stopped_sub (kept : path → bool) (p q : path) (fs : filesystem) (n : node) :
  fs_rmtree_stopped kept p fs !! q = Some n → fs !! q = Some n.
Proof. unfold fs_rmtree_stopped. by intros [? _]%map_lookup_filter_Some. Qed.

Lemma stopped_lost (kept : path → bool) (p q : path) (fs : filesystem) (n : node) :
  fs !! q = Some n → fs_rmtree_stopped kept p fs !! q = None → p `prefix_of` q.
Proof.
  intros Hq Hgone. destruct (decide (p `prefix_of` q)) as [|Hn]; [done|].
  unfold fs_rmtree_stopped in Hgone.
  apply map_lookup_filter_None in Hgone as [Hgone|Hgone]; [congruence|].
  destruct (Hgone n Hq). by left.
Qed.

Lemma stage1_query_quiet (cfg : obslist) (obs : str) (fs : filesystem) (e : event) :
  e ∈ stage1_query cfg obs fs → is_rmtree e = false ∧ is_submit e = false.
Proof.
  unfold stage1_query. intros Hin.
  destruct (fs_is_file _ fs) as [[]|];
    repeat (apply elem_of_cons in Hin as [->|Hin]; [done|]);
    by apply elem_of_nil in Hin.
Qed.

(** C8. Stage 1: when the planner reaches a unit that the check judges
    incomplete and whose output directory exists, it removes the whole
    directory and only then puts the unit on the work list; a unit the
    check judges complete is not put on the list and the planner leaves
    the filesystem, its output directory included, as it was. A unit
    judged incomplete that has no output directory is queued with
    nothing removed. When the check, or the test of the output
    directory, raises, planning ends there with nothing removed; when
    the removal itself is refused, planning ends there too: the unit is
    not queued, and nothing outside its output directory is lost. *)
Theorem C8_wipe_before_requeue (cfg : obslist) (pre : list str) (obs : str)
    (wl : list str) (w : world) (wl_b : list str) (w_b : world) :
  Nupipeline.plan pre cfg wl w = (Done wl_b, w_b) →
  let outdir := Nupipeline.outdir_of cfg obs in
  let step := Nupipeline.plan (pre ++ [obs]) cfg wl w in
  let check := fst (Nupipeline._needs_rerun obs cfg w_b) in
  (check = Done true →
   fs_is_dir outdir (w_fs w_b) = Ok true →
   rmtree_refused outdir (w_fs w_b) = false →
     ∃ w_a,
       step = (Done (wl_b ++ [obs]), w_a)
       ∧ (∀ post, Nupipeline.plan (pre ++ obs :: post) cfg wl w =
                  Nupipeline.plan post cfg (wl_b ++ [obs]) w_a)
       ∧ w_fs w_a = fs_rmtree outdir (w_fs w_b)
       ∧ (∀ q, outdir `prefix_of` q → w_fs w_a !! q = None)
       ∧ ∃ before,
           new_events w_b w_a =
             before ++ [EvRmtree outdir; EvLog (LogQueued obs)]
           ∧ ∀ e, e ∈ before → is_rmtree e = false)
  ∧ (check = Done false →
     ∃ w_a,
       step = (Done wl_b, w_a)
       ∧ (∀ post, Nupipeline.plan (pre ++ obs :: post) cfg wl w =
                  Nupipeline.plan post cfg wl_b w_a)
       ∧ w_fs w_a = w_fs w_b
       ∧ (∀ e, e ∈ new_events w_b w_a → is_rmtree e = false)
       ∧ ∃ before, new_events w_b w_a = before ++ [EvLog (LogSkipped obs)])
  ∧ (check = Done true →
     fs_is_dir outdir (w_fs w_b) = Ok false →
     ∃ w_a,
       step = (Done (wl_b ++ [obs]), w_a)
       ∧ (∀ post, Nupipeline.plan (pre ++ obs :: post) cfg wl w =
                  Nupipeline.plan post cfg (wl_b ++ [obs]) w_a)
       ∧ w_fs w_a = w_fs w_b
       ∧ (∀ e, e ∈ new_events w_b w_a → is_rmtree e = false)
       ∧ ∃ before, new_events w_b w_a = before ++ [EvLog (LogQueued obs)])
  ∧ (∀ e, check = Raised e
          ∨ (check = Done true ∧ fs_is_dir outdir (w_fs w_b) = Raise e) →
     ∃ w_a,
       step = (Raised e, w_a)
       ∧ (∀ post, Nupipeline.plan (pre ++ obs :: post) cfg wl w = (Raised e, w_a))
       ∧ w_fs w_a = w_fs w_b
       ∧ ∀ ev, ev ∈ new_events w_b w_a →
               is_rmtree ev = false ∧ ∀ r, ev ≠ EvLog r)
  ∧ (check = Done true →
     fs_is_dir outdir (w_fs w_b) = Ok true →
     rmtree_refused outdir (w_fs w_b) = true →
     ∃ w_a,
       step = (Raised OSError, w_a)
       ∧ (∀ post, Nupipeline.plan (pre ++ obs :: post) cfg wl w
                  = (Raised OSError, w_a))
       ∧ (∀ q n, w_fs w_a !! q = Some n → w_fs w_b !! q = Some n)
       ∧ (∀ q n, w_fs w_b !! q = Some n → w_fs w_a !! q = None →
                 outdir `prefix_of` q)
       ∧ (∃ before, new_events w_b w_a = before ++ [EvRmtree outdir]
                    ∧ ∀ e, e ∈ before → is_rmtree e = false)
       ∧ ∀ ev r, ev ∈ new_events w_b w_a → ev ≠ EvLog r).
Proof.
  intros Hpre outdir step check. subst step check.
  destruct (plan_snoc pre obs cfg wl w wl_b w_b Hpre) as [Hsnoc Hpost].
  rewrite Hsnoc. rewrite needs_rerun1_run. cbn [fst].
  assert (∀ l ev, ev ∈ stage1_query cfg obs (w_fs w_b) ++ l →
                  (∀ ev', ev' ∈ l → is_rmtree ev' = false) →
                  is_rmtree ev = false) as Hquiet.
  { intros l ev [Hq|Hl]%elem_of_app Hl'; [|by apply Hl'].
    by destruct (stage1_query_quiet _ _ _ _ Hq). }
  assert (∀ ev, ev ∈ stage1_query cfg obs (w_fs w_b) → ∀ r, ev ≠ EvLog r) as Hnolog.
  { unfold stage1_query. intros ev Hin r ->.
    destruct (fs_is_file _ (w_fs w_b)) as [[]|];
      repeat (apply elem_of_cons in Hin as [?|Hin]; [done|]);
      by apply elem_of_nil in Hin. }
  split; [|split; [|split; [|split]]].
  - intros Hans Hdir Hfree. eexists.
    split; [unfold plan_step; fold outdir; rewrite Hans, Hdir, Hfree; reflexivity|].
    split; [intros post; rewrite Hpost; unfold plan_step; fold outdir;
            by rewrite Hans, Hdir, Hfree|].
    rewrite new_events_grow, grow_fs.
    split; [done|]. split; [by intros q; apply rmtree_gone|].
    exists (stage1_query cfg obs (w_fs w_b) ++ [EvIsDir outdir]). split.
    + by rewrite <- app_assoc.
    + intros e He. apply (Hquiet _ _ He). by intros ev' ->%list_elem_of_singleton.
  - intros Hans. eexists.
    split; [unfold plan_step; rewrite Hans; reflexivity|].
    split; [intros post; rewrite Hpost; unfold plan_step; by rewrite Hans|].
    rewrite new_events_grow, grow_fs.
    split; [done|]. split; [|by eexists].
    intros e He. apply (Hquiet _ _ He). by intros ev' ->%list_elem_of_singleton.
  - intros Hans Hdir. eexists.
    split; [unfold plan_step; fold outdir; rewrite Hans, Hdir; reflexivity|].
    split; [intros post; rewrite Hpost; unfold plan_step; fold outdir;
            by rewrite Hans, Hdir|].
    rewrite new_events_grow, grow_fs.
    split; [done|]. split.
    + intros e He. apply (Hquiet _ _ He).
      intros ev' [->| ->%list_elem_of_singleton]%elem_of_cons; done.
    + exists (stage1_query cfg obs (w_fs w_b) ++ [EvIsDir outdir]).
      by rewrite <- app_assoc.
  - intros e [Hans|[Hans Hdir]]; eexists.
    + split; [unfold plan_step; rewrite Hans; reflexivity|].
      split; [intros post; rewrite Hpost; unfold plan_step; by rewrite Hans|].
      rewrite new_events_grow, grow_fs. split; [done|]. intros ev Hev. split.
      * by destruct (stage1_query_quiet _ _ _ _ Hev).
      * by apply Hnolog.
    + split; [unfold plan_step; fold outdir; rewrite Hans, Hdir; reflexivity|].
      split; [intros post; rewrite Hpost; unfold plan_step; fold outdir;
              by rewrite Hans, Hdir|].
      rewrite new_events_grow, grow_fs. split; [done|].
      intros ev [Hq| ->%list_elem_of_singleton]%elem_of_app; [|done]. split.
      * by destruct (stage1_query_quiet _ _ _ _ Hq).
      * by apply Hnolog.
  - intros Hans Hdir Hrefused. eexists.
    split; [unfold plan_step; fold outdir; rewrite Hans, Hdir, Hrefused;
            reflexivity|].
    split; [intros post; rewrite Hpost; unfold plan_step; fold outdir;
            by rewrite Hans, Hdir, Hrefused|].
    rewrite new_events_grow, grow_fs.
    split; [intros q n; apply stopped_sub|].
    split; [intros q n; apply stopped_lost|]. split.
    + exists (stage1_query cfg obs (w_fs w_b) ++ [EvIsDir outdir]). split.
      * by rewrite <- app_assoc.
      * intros e He. apply (Hquiet _ _ He). by intros ev' ->%list_elem_of_singleton.
    + intros ev r [Hq|Hin]%elem_of_app; [by apply Hnolog|].
      apply elem_of_cons in Hin as [->|Hin%list_elem_of_singleton]; [done|].
      by subst ev.
Qed.

End PlannerFacts.

Section PoolFacts.
Context `{PY : Platform}.

Lemma for_each_emit {X} (f : X → event) (l : list X) (w : world) :
  for_each l (fun x => emit (f x)) w = (Done tt, grow w (w_fs w) (map f l)).
Proof.
  revert w. induction l as [|x l IH]; intros w.
  - cbn [for_each map ret]. by rewrite grow_nil.
  - cbn [for_each map]. rewrite bind_run.
    change (emit (f x) w) with (Done tt, grow w (w_fs w) [f x]).
    cbn iota beta. rewrite IH, grow_fs, grow_grow. done.
Qed.

(** The completion order is a rearrangement of the submissions. *)
Lemma as_completed_perm {X} (choices : list nat) (pending : list X) :
  as_completed choices pending ≡ₚ pending.
Proof.
  revert pending. induction choices as [|c cs IH]; intros pending; [done|].
  cbn [as_completed].
  destruct (pending !! (c mod length pending)%nat) as [x|] eqn:E; [|done].
  rewrite IH. symmetry. by apply delete_Permutation.
Qed.

Lemma run_workers_run {U R} (launch : U → M R) (order : list U) (w : world) :
  worker_like launch →
  ∃ futs fs' evs,
    run_workers launch order w = (Done futs, grow w fs' evs)
    ∧ map fst futs = order
    ∧ Forall (fun e => is_worker_event e = true) evs.
Proof.
  intros Hlaunch. revert w. induction order as [|u order IH]; intros w.
  - exists [], (w_fs w), []. by rewrite grow_nil.
  - cbn [run_workers]. rewrite bind_run. unfold attempt.
    destruct (Hlaunch u w) as (fs1 & evs1 & Hw & Hevs1 & Hnoexit).
    destruct (launch u w) as [r w1]. cbn [fst snd] in *. subst w1.
    destruct (IH {| w_fs := fs1; w_trace := w_trace w ++ evs1 |})
      as (futs & fs2 & evs2 & Hrun & Hmap & Hevs2).
    destruct r as [x|e|a]; [| |by destruct (Hnoexit a)].
    + rewrite bind_run, Hrun. cbn [ret].
      exists ((u, inr x) :: futs), fs2, (evs1 ++ evs2).
      split; [|split; [by rewrite <- Hmap | by apply Forall_app]].
      unfold grow. cbn [w_fs w_trace]. by rewrite app_assoc.
    + rewrite bind_run, Hrun. cbn [ret].
      exists ((u, inl e) :: futs), fs2, (evs1 ++ evs2).
      split; [|split; [by rewrite <- Hmap | by apply Forall_app]].
      unfold grow. cbn [w_fs w_trace]. by rewrite app_assoc.
Qed.

Lemma futures_of_run {U R} (launch : U → M R) (order : list U) (w : world) :
  worker_like launch →
  ∃ fs' evs,
    run_workers launch order w = (Done (futures_of launch order w), grow w fs' evs)
    ∧ map fst (futures_of launch order w) = order
    ∧ Forall (fun e => is_worker_event e = true) evs.
Proof.
  intros Hlaunch.
  destruct (run_workers_run launch order w Hlaunch) as (futs & fs' & evs & H & ? & ?).
  exists fs', evs. unfold futures_of. by rewrite H.
Qed.

Lemma omap_none {X Y} (f : X → option Y) (l : list X) :
  Forall (fun x => f x = None) l → omap f l = [].
Proof.
  induction 1 as [|x l Hx _ IH]; [done|]. cbn [omap list_omap]. by rewrite Hx.
Qed.

Lemma worker_events_no_submit1 (evs : list event) :
  Forall (fun e => is_worker_event e = true) evs → submitted1 evs = [].
Proof.
  intros H. apply omap_none. eapply Forall_impl; [exact H|].
  by intros [].
Qed.

Lemma worker_events_no_submit2 (evs : list event) :
  Forall (fun e => is_worker_event e = true) evs → submitted2 evs = [].
Proof.
  intros H. apply omap_none. eapply Forall_impl; [exact H|].
  by intros [].
Qed.

Lemma worker_events_no_report (evs : list event) :
  Forall (fun e => is_worker_event e = true) evs → reports evs = [].
Proof.
  intros H. apply omap_none. eapply Forall_impl; [exact H|].
  by intros [].
Qed.

Lemma submitted1_submits (l : list str) : submitted1 (map EvSubmit1 l) = l.
Proof. induction l as [|x l IH]; [done|]. cbn. by f_equal. Qed.

Lemma submitted2_submits (l : list task) : submitted2 (map EvSubmit2 l) = l.
Proof. induction l as [|x l IH]; [done|]. cbn. by f_equal. Qed.

Lemma reports_submits1 (l : list str) : reports (map EvSubmit1 l) = [].
Proof. by induction l. Qed.

Lemma reports_submits2 (l : list task) : reports (map EvSubmit2 l) = [].
Proof. by induction l. Qed.

End PoolFacts.

Section DispatchFacts.
Context `{PY : Platform} {TL : Tools}.

Lemma stage2_query_worker (outdir : path) (fs : filesystem) :
  Forall (fun e => is_worker_event e = true) (stage2_query outdir fs).
Proof. unfold stage2_query. destruct (fs_exists _ fs) as [[]|]; by repeat constructor. Qed.

Lemma launch2_worker_like : worker_like Nuproducts._launch.
Proof.
  intros args w. pose proof (stage2_query_worker) as Hq.
  destruct (launch_run args w); cbn [fst snd].
  - exists (w_fs w), []. destruct w. cbn. by rewrite app_nil_r.
  - eexists _, _. split; [reflexivity|]. split; [by repeat constructor|done].
  - eexists _, _. split; [reflexivity|]. split; [|done].
    constructor; [done | apply Hq].
  - eexists _, _. split; [reflexivity|]. split; [|done].
    constructor; [done | apply Hq].
  - eexists _, _. split; [reflexivity|].
    split; [|done]. constructor; [done|].
    apply Forall_app; split; [apply Hq | by repeat constructor].
  - eexists _, _. split; [reflexivity|].
    split; [|done]. constructor; [done|].
    apply Forall_app; split; [apply Hq | by repeat constructor].
  - eexists _, _. split; [reflexivity|].
    split; [|done]. constructor; [done|].
    apply Forall_app; split; [apply Hq | by repeat constructor].
  - eexists _, _. split; [reflexivity|].
    split; [|done]. constructor; [done|].
    apply Forall_app; split; [apply Hq | by repeat constructor].
  - eexists _, _. split; [reflexivity|].
    split; [|done]. constructor; [done|].
    apply Forall_app; split; [apply Hq | by repeat constructor].
Qed.

Lemma launch_one_run (obs : str) (cfg : obslist) (w : world) :
  ∃ cmd,
    Nupipeline._launch_one (obs, cfg) w =
    match nupipe_one_sh cmd (w_fs w) with
    | inr (rc, fs') => (Done (obs, rc), grow w fs' [EvCall cmd (Some rc)])
    | inl e => (Raised e, grow w (w_fs w) [EvCall cmd None])
    end.
Proof.
  exists [lit "./nupipe_one.sh"; obs; indir_base cfg; outdir_base cfg;
          default (lit "no") (clobber cfg); default [] (extra_args cfg)].
  unfold Nupipeline._launch_one. rewrite bind_run, subprocess_call_run.
  by destruct (nupipe_one_sh _ _) as [e|[rc fs']].
Qed.

Lemma launch1_worker_like (cfg : obslist) :
  worker_like (fun obs => Nupipeline._launch_one (obs, cfg)).
Proof.
  intros obs w. destruct (launch_one_run obs cfg w) as (cmd & ->).
  destruct (nupipe_one_sh cmd (w_fs w)) as [e|[rc fs']]; cbn [fst snd];
    eexists _, _; (split; [reflexivity|]); by repeat constructor.
Qed.

(** Stage 2: the collection loop takes every future, whatever it holds. *)
Lemma collect_all_run (failures : list Nuproducts.failure)
    (futs : list (task * (exn + (str * detector * combo * Z)))) (w : world) :
  Nuproducts.collect_all failures futs w =
  (Done (failures ++ flat_map failure2 futs),
   grow w (w_fs w) (map (fun f => EvLog (report2 f)) futs)).
Proof.
  revert failures w. induction futs as [|fut futs IH]; intros failures w.
  - cbn [Nuproducts.collect_all flat_map map ret]. by rewrite app_nil_r, grow_nil.
  - cbn [Nuproducts.collect_all flat_map map]. rewrite bind_run.
    destruct fut as [[[[obsid det] cfg] comb] [e|[[[oid detd] combd] rc]]];
      cbn [Nuproducts.collect report2 failure2].
    + rewrite bind_run, logging_run. cbn [ret]. rewrite IH, grow_fs, grow_grow.
      by rewrite <- app_assoc.
    + destruct (negb (rc =? 0)).
      * rewrite bind_run, logging_run. cbn [ret]. rewrite IH, grow_fs, grow_grow.
        by rewrite <- app_assoc.
      * rewrite bind_run, logging_run. cbn [ret]. rewrite IH, grow_fs, grow_grow.
        by rewrite app_nil_l.
Qed.

Lemma dispatch2_run (tasks : list task) (choices : list nat) (w : world) :
  ∃ fs' evs,
    Nuproducts.dispatch tasks choices w =
      (Done (flat_map failure2 (futures2 tasks choices w)),
       grow w fs' (map EvSubmit2 tasks ++ evs
                     ++ map (fun f => EvLog (report2 f)) (futures2 tasks choices w)))
    ∧ Forall (fun e => is_worker_event e = true) evs
    ∧ map fst (futures2 tasks choices w) = as_completed choices tasks.
Proof.
  unfold Nuproducts.dispatch, futures2.
  rewrite bind_run, for_each_emit.
  destruct (futures_of_run Nuproducts._launch (as_completed choices tasks)
              (grow w (w_fs w) (map EvSubmit2 tasks)) launch2_worker_like)
    as (fs' & evs & Hrun & Hmap & Hevs).
  exists fs', evs. rewrite bind_run. unfold grow in Hrun |- *. rewrite Hrun.
  rewrite collect_all_run. unfold grow. cbn [w_fs w_trace app].
  by rewrite <- !app_assoc.
Qed.

Lemma report_run (futs : list (str * (exn + (str * Z)))) (w : world) :
  forallb returned futs = true →
  for_each futs Nupipeline.report w =
  (Done tt, grow w (w_fs w) (map EvLog (flat_map report1_of futs))).
Proof.
  revert w. induction futs as [|[obs [e|[o rc]]] futs IH]; intros w Hall.
  - cbn [for_each flat_map map ret]. by rewrite grow_nil.
  - discriminate.
  - cbn [for_each flat_map map report1_of app]. rewrite bind_run.
    unfold Nupipeline.report. rewrite bind_run. cbn [result ret snd].
    unfold report1.
    destruct (negb (rc =? 0)); rewrite logging_run, IH, grow_fs, grow_grow by done;
      done.
Qed.

(** Stage 1: the loop stops at the first future that raised; what came
    before it is reported, what comes after is not. *)
Lemma report_stops (ok rest : list (str * (exn + (str * Z)))) (obs : str)
    (e : exn) (w : world) :
  forallb returned ok = true →
  for_each (ok ++ (obs, inl e) :: rest) Nupipeline.report w =
  (Raised e, grow w (w_fs w) (map EvLog (flat_map report1_of ok))).
Proof.
  revert w. induction ok as [|[obs' [e'|[o rc]]] ok IH]; intros w Hall.
  - cbn [app for_each flat_map map]. rewrite bind_run.
    unfold Nupipeline.report. rewrite bind_run. cbn [result]. unfold raise.
    by rewrite grow_nil.
  - discriminate.
  - cbn [app for_each flat_map map report1_of]. rewrite bind_run.
    unfold Nupipeline.report at 1. rewrite bind_run. cbn [result ret snd].
    unfold report1.
    destruct (negb (rc =? 0)); rewrite logging_run, IH, grow_fs, grow_grow by done;
      done.
Qed.

Lemma dispatch1_run (mw : Z) (worklist : list str) (cfg : obslist)
    (choices : list nat) (w : world) :
  0 < mw →
  ∃ fs' evs,
    Nupipeline.dispatch mw worklist cfg choices w =
      for_each (futures1 cfg worklist choices w) Nupipeline.report
        (grow w fs' (map EvSubmit1 worklist ++ evs))
    ∧ Forall (fun e => is_worker_event e = true) evs
    ∧ map fst (futures1 cfg worklist choices w) = as_completed choices worklist.
Proof.
  intros Hmw. unfold Nupipeline.dispatch, futures1.
  destruct (Z.leb_spec mw 0) as [?|_]; [lia|].
  rewrite bind_run. cbn [ret]. rewrite bind_run, for_each_emit.
  destruct (futures_of_run (fun obs => Nupipeline._launch_one (obs, cfg))
              (as_completed choices worklist)
              (grow w (w_fs w) (map EvSubmit1 worklist)) (launch1_worker_like cfg))
    as (fs' & evs & Hrun & Hmap & Hevs).
  exists fs', evs. rewrite bind_run. unfold grow in Hrun |- *. rewrite Hrun.
  cbn [w_fs w_trace]. by rewrite <- !app_assoc.
Qed.

End DispatchFacts.

Section DispatchClaims.
Context `{PY : Platform} {TL : Tools}.

Lemma reports_app (l1 l2 : list event) : reports (l1 ++ l2) = reports l1 ++ reports l2.
Proof. apply omap_app. Qed.

Lemma reports_cons (e : event) (l : list event) :
  reports (e :: l) = reports [e] ++ reports l.
Proof. apply (reports_app [e] l). Qed.

Lemma reports_report2 (futs : list (task * (exn + (str * detector * combo * Z)))) :
  reports (map (fun f => EvLog (report2 f)) futs) = map report2 futs.
Proof.
  induction futs as [|fut futs IH]; [done|].
  cbn [map]. rewrite reports_cons, IH.
  change (map report2 futs) with ([] ++ map report2 futs) at 2.
  rewrite app_comm_cons. f_equal.
  destruct fut as [[[[obsid det] cfg] comb] [e|[[[oid detd] combd] rc]]]; [done|].
  cbn [report2]. by destruct (negb (rc =? 0)).
Qed.

Lemma reports_report1 (l : list record) :
  Forall (fun r => is_report r = true) l → reports (map EvLog l) = l.
Proof.
  induction 1 as [|r l Hr _ IH]; [done|].
  cbn [map]. rewrite reports_cons, IH. unfold reports. cbn. by rewrite Hr.
Qed.

Lemma report1_of_reports (futs : list (str * (exn + (str * Z)))) :
  Forall (fun r => is_report r = true) (flat_map report1_of futs).
Proof.
  induction futs as [|[obs [e|[o rc]]] futs IH]; cbn [flat_map report1_of app];
    [done|done|].
  constructor; [|done]. unfold report1. by destruct (negb (rc =? 0)).
Qed.

Lemma report1_of_length (futs : list (str * (exn + (str * Z)))) :
  forallb returned futs = true →
  length (flat_map report1_of futs) = length futs.
Proof.
  induction futs as [|[obs [e|[o rc]]] futs IH]; cbn; [done|done|].
  intros H. by rewrite IH.
Qed.

(** C4, as amended. Stage 2: whatever the futures hold (a zero exit, a
    non-zero exit or an exception), the loop takes each of them: one
    report per submitted unit, and the failures are those of the futures
    that raised or returned non-zero. Stage 1: the same, as long as no
    future raises. *)
Theorem C4_one_outcome_per_unit :
  (∀ (tasks : list task) (choices : list nat) (w : world),
     let futs := futures2 tasks choices w in
     let run := Nuproducts.dispatch tasks choices w in
     fst run = Done (flat_map failure2 futs)
     ∧ map fst futs ≡ₚ tasks
     ∧ reports (new_events w (snd run)) = map report2 futs
     ∧ length (reports (new_events w (snd run))) = length tasks)
  ∧ (∀ (mw : Z) (worklist : list str) (cfg : obslist) (choices : list nat)
       (w : world),
     let futs := futures1 cfg worklist choices w in
     let run := Nupipeline.dispatch mw worklist cfg choices w in
     0 < mw →
     forallb returned futs = true →
     fst run = Done tt
     ∧ map fst futs ≡ₚ worklist
     ∧ reports (new_events w (snd run)) = flat_map report1_of futs
     ∧ length (reports (new_events w (snd run))) = length worklist).
Proof.
  split.
  - intros tasks choices w futs run. subst futs run.
    destruct (dispatch2_run tasks choices w) as (fs' & evs & -> & Hevs & Hmap).
    cbn [fst snd]. rewrite new_events_grow, !reports_app, reports_submits2,
      (worker_events_no_report _ Hevs), reports_report2. cbn [app].
    assert (map fst (futures2 tasks choices w) ≡ₚ tasks) as Hperm
      by (rewrite Hmap; apply as_completed_perm).
    split; [done|]. split; [done|]. split; [done|].
    rewrite length_map, <- (length_map fst). by rewrite Hperm.
  - intros mw worklist cfg choices w futs run Hmw Hall. subst futs run.
    destruct (dispatch1_run mw worklist cfg choices w Hmw)
      as (fs' & evs & -> & Hevs & Hmap).
    rewrite report_run by done. cbn [fst snd].
    rewrite grow_fs, grow_grow, new_events_grow, !reports_app, reports_submits1,
      (worker_events_no_report _ Hevs), reports_report1
      by apply report1_of_reports. cbn [app].
    assert (map fst (futures1 cfg worklist choices w) ≡ₚ worklist) as Hperm
      by (rewrite Hmap; apply as_completed_perm).
    split; [done|]. split; [done|]. split; [done|].
    rewrite report1_of_length by done. rewrite <- (length_map fst). by rewrite Hperm.
Qed.

Lemma first_raised {U R} (l : list (U * (exn + R))) :
  forallb returned l = false →
  ∃ ok u e rest, l = ok ++ (u, inl e) :: rest ∧ forallb returned ok = true.
Proof.
  induction l as [|[u [e|r]] l IH]; [done| |]; cbn [forallb returned andb].
  - intros _. by exists [], u, e, l.
  - intros (ok & u' & e & rest & -> & Hok)%IH.
    by exists ((u, inr r) :: ok), u', e, rest.
Qed.

Lemma spawn_error_raises (args : task) (w : world) (cmd : list str) :
  EvCall cmd None ∈ new_events w (snd (Nuproducts._launch args w)) →
  ∃ e, fst (Nuproducts._launch args w) = Raised e.
Proof.
  destruct (launch_run args w); cbn [fst snd];
    rewrite ?new_events_grow, ?new_events_same;
    rewrite ?launch_events_2, ?launch_events_3; intros Hin; try by eexists.
  - apply elem_of_cons in Hin as [?|Hin]; [done|].
    by destruct (stage2_query_quiet _ _ _ Hin).
  - apply elem_of_app in Hin as [Hin|Hin%list_elem_of_singleton]; [|done].
    by destruct (launch_prefix_quiet _ _ _ Hin).
  - apply elem_of_app in Hin as [Hin|Hin];
      [by destruct (launch_prefix_quiet _ _ _ Hin)|].
    apply elem_of_cons in Hin as [Hin|Hin%list_elem_of_singleton]; done.
Qed.

(** C5, as amended. Stage 2: when [subprocess.call] raises, the
    launcher raises, its future holds the exception, and the dispatch
    loop turns it into a failure whose status is the tag "exception",
    which no exit code equals; the loop itself never raises. Stage 1
    has no handler: a future that raised makes the dispatch loop raise. *)
Theorem C5_spawn_exception :
  (∀ (args : task) (w : world) (cmd : list str),
     EvCall cmd None ∈ new_events w (snd (Nuproducts._launch args w)) →
     ∃ e, fst (Nuproducts._launch args w) = Raised e)
  ∧ (∀ (tasks : list task) (choices : list nat) (w : world),
       ∃ failures,
         fst (Nuproducts.dispatch tasks choices w) = Done failures
         ∧ ∀ obsid det cfg comb e,
             ((obsid, det, cfg, comb), inl e) ∈ futures2 tasks choices w →
             (obsid, det, Nuproducts.ThirdCfg cfg, ExceptionTag) ∈ failures
             ∧ EvLog (LogRaised obsid det cfg e)
                 ∈ new_events w (snd (Nuproducts.dispatch tasks choices w)))
  ∧ (∀ rc : Z, ExceptionTag ≠ ExitCode rc)
  ∧ (∀ (mw : Z) (worklist : list str) (cfg : obslist) (choices : list nat)
       (w : world),
       0 < mw →
       forallb returned (futures1 cfg worklist choices w) = false →
       ∃ e, fst (Nupipeline.dispatch mw worklist cfg choices w) = Raised e).
Proof.
  split; [apply spawn_error_raises|]. split; [|split; [done|]].
  - intros tasks choices w.
    destruct (dispatch2_run tasks choices w) as (fs' & evs & -> & Hevs & Hmap).
    eexists. split; [reflexivity|]. intros obsid det cfg comb e Hin.
    cbn [snd]. rewrite new_events_grow. split.
    + apply list_elem_of_In, in_flat_map. eexists. split.
      * apply list_elem_of_In, Hin.
      * by left.
    + apply elem_of_app. right. apply elem_of_app. right.
      apply (list_elem_of_fmap_2 (fun f => EvLog (report2 f)) _ _ Hin).
  - intros mw worklist cfg choices w Hmw Hraised.
    destruct (dispatch1_run mw worklist cfg choices w Hmw)
      as (fs' & evs & -> & _ & _).
    destruct (first_raised _ Hraised) as (ok & obs & e & rest & -> & Hok).
    exists e. by rewrite report_stops.
Qed.

End DispatchClaims.

Section MainFacts.
Context `{PY : Platform} {JS : Json} {TL : Tools}.

Lemma read_text_run (p : path) (w : world) :
  read_text p w =
  match fs_read_text p (w_fs w) with
  | Ok t => (Done t, grow w (w_fs w) [EvReadText p])
  | Raise e => (Raised e, grow w (w_fs w) [EvReadText p])
  end.
Proof.
  unfold read_text, bind, emit, get_fs, lift_res, grow. simpl.
  by destruct (fs_read_text p (w_fs w)).
Qed.

Lemma exists_run (p : path) (w : world) :
  exists_ p w =
  match fs_exists p (w_fs w) with
  | Ok b => (Done b, grow w (w_fs w) [EvExists p])
  | Raise e => (Raised e, grow w (w_fs w) [EvExists p])
  end.
Proof.
  unfold exists_, bind, emit, get_fs, lift_res, grow. simpl.
  by destruct (fs_exists p (w_fs w)).
Qed.

Lemma read_text_exists (p : path) (fs : filesystem) (t : str) :
  fs_read_text p fs = Ok t → fs_exists p fs = Ok true.
Proof.
  unfold fs_read_text, fs_exists. by destruct (fs_lookup p fs) as [[|[] c|]|].
Qed.

Lemma missing_read_raises (p : path) (fs : filesystem) :
  fs_exists p fs = Ok false → fs_read_text p fs = Raise OSError.
Proof.
  unfold fs_read_text, fs_exists. by destruct (fs_lookup p fs) as [[|[] c|]|].
Qed.

Lemma final_exit_run (failures : list Nuproducts.failure) (w : world) :
  Nuproducts.final_exit failures w =
  (Exited (Code (if bool_decide (failures = []) then 0 else 1)),
   grow w (w_fs w)
     [EvLog (if bool_decide (failures = []) then LogAllOk
             else LogTotalFailures (length failures))]).
Proof.
  unfold Nuproducts.final_exit. by case_bool_decide.
Qed.

Lemma main2_run (environ : list str) (choices : list nat) (w : world)
    (rtext otext : str) (rcfg : region_cfg) (ocfg : obslist) :
  fs_read_text (mkpath (lit "region_cfg.json")) (w_fs w) = Ok rtext →
  loads_region_cfg rtext = Some rcfg →
  fs_read_text (mkpath (lit "obslist.json")) (w_fs w) = Ok otext →
  loads_obslist otext = Some ocfg →
  lit "HEADAS" ∈ environ →
  lit "CALDB" ∈ environ →
  Nuproducts.main environ choices w =
  bind (Nuproducts.dispatch (Nuproducts.make_tasks ocfg rcfg) choices)
    Nuproducts.final_exit
    (grow w (w_fs w)
       [EvReadText (mkpath (lit "region_cfg.json"));
        EvReadText (mkpath (lit "obslist.json"));
        EvLog (LogQueuedJobs (length (Nuproducts.make_tasks ocfg rcfg))
                 (Z.max 1 (cpu_count / 2)))]).
Proof.
  intros Hr Hrcfg Ho Hocfg Hh Hc. unfold Nuproducts.main.
  rewrite bind_run, read_text_run, Hr, Hrcfg. cbn [lift_opt].
  rewrite bind_run. cbn [ret].
  rewrite bind_run, read_text_run, grow_fs, Ho, Hocfg. cbn [lift_opt].
  rewrite bind_run. cbn [ret].
  rewrite !bool_decide_eq_false_2 by (intros H; by apply H). cbn [orb].
  rewrite bind_run, logging_run, grow_fs, !grow_grow. done.
Qed.

Lemma main1_run (environ : list str) (cfg_path : str)
    (jobs : Nupipeline.job_setting) (choices : list nat) (w : world)
    (text : str) (cfg : obslist) (mw : Z) :
  lit "HEADAS" ∈ environ →
  lit "CALDB" ∈ environ →
  fs_read_text (mkpath cfg_path) (w_fs w) = Ok text →
  loads_obslist text = Some cfg →
  worker_count jobs = Some mw →
  Nupipeline.main environ cfg_path jobs choices w =
  bind (Nupipeline.plan (observations cfg) cfg [])
    (fun worklist =>
       if bool_decide (worklist = []) then logging LogNothingToDo
       else Nupipeline.dispatch mw worklist cfg choices)
    (grow w (w_fs w)
       [EvExists (mkpath cfg_path); EvReadText (mkpath cfg_path);
        EvLog (LogRequest (length (observations cfg)) mw)]).
Proof.
  intros Hh Hc Hread Hcfg Hmw. unfold Nupipeline.main.
  assert (filter (fun v => v ∉ environ) [lit "HEADAS"; lit "CALDB"] = []) as ->.
  { rewrite filter_cons_False by (intros H; by apply H).
    rewrite filter_cons_False by (intros H; by apply H). done. }
  rewrite bool_decide_eq_true_2 by done. cbn [negb].
  rewrite bind_run, exists_run, (read_text_exists _ _ _ Hread). cbn [negb].
  rewrite bind_run, read_text_run, grow_fs, Hread, Hcfg. cbn [lift_opt].
  rewrite bind_run. cbn [ret]. rewrite bind_run.
  assert (match jobs with
          | Nupipeline.JAuto => ret (Z.max 1 (cpu_count / 2))
          | Nupipeline.JOff => ret 1
          | Nupipeline.JInt n => lift_opt ValueError n
          end = ret mw) as ->.
  { destruct jobs as [| |[n|]]; cbn in Hmw; by try injection Hmw as ->. }
  cbn [ret]. rewrite bind_run, logging_run, grow_fs, !grow_grow. done.
Qed.

(** C1, as amended. Stage 2: once the configuration is loaded and the
    environment is set, the process ends through [sys.exit] with status 0
    when the list of failures is empty and 1 when it is not. Stage 1
    keeps no list of failures: once its dispatch loop has taken every
    future, [main] returns and the status is 0, whatever the exit codes
    of the units were. *)
Theorem C1_exit_status :
  (∀ (environ : list str) (choices : list nat) (w : world)
     (rtext otext : str) (rcfg : region_cfg) (ocfg : obslist),
     fs_read_text (mkpath (lit "region_cfg.json")) (w_fs w) = Ok rtext →
     loads_region_cfg rtext = Some rcfg →
     fs_read_text (mkpath (lit "obslist.json")) (w_fs w) = Ok otext →
     loads_obslist otext = Some ocfg →
     lit "HEADAS" ∈ environ →
     lit "CALDB" ∈ environ →
     let run := Nuproducts.main environ choices w in
     ∃ failures,
       failures =
         flat_map failure2
           (futures2 (Nuproducts.make_tasks ocfg rcfg) choices
              (grow w (w_fs w)
                 [EvReadText (mkpath (lit "region_cfg.json"));
                  EvReadText (mkpath (lit "obslist.json"));
                  EvLog (LogQueuedJobs
                           (length (Nuproducts.make_tasks ocfg rcfg))
                           (Z.max 1 (cpu_count / 2)))]))
       ∧ fst run = Exited (Code (if bool_decide (failures = []) then 0 else 1))
       ∧ (process_status (fst run) = 0 ↔ failures = [])
       ∧ (failures ≠ [] → process_status (fst run) = 1))
  ∧ (∀ (environ : list str) (cfg_path : str) (jobs : Nupipeline.job_setting)
       (choices : list nat) (w : world) (text : str) (cfg : obslist) (mw : Z)
       (worklist : list str) (w_p : world),
     lit "HEADAS" ∈ environ →
     lit "CALDB" ∈ environ →
     fs_read_text (mkpath cfg_path) (w_fs w) = Ok text →
     loads_obslist text = Some cfg →
     worker_count jobs = Some mw →
     0 < mw →
     Nupipeline.plan (observations cfg) cfg []
       (grow w (w_fs w)
          [EvExists (mkpath cfg_path); EvReadText (mkpath cfg_path);
           EvLog (LogRequest (length (observations cfg)) mw)])
       = (Done worklist, w_p) →
     forallb returned (futures1 cfg worklist choices w_p) = true →
     let run := Nupipeline.main environ cfg_path jobs choices w in
     fst run = Done tt ∧ process_status (fst run) = 0).
Proof.
  split.
  - intros environ choices w rtext otext rcfg ocfg Hr Hrcfg Ho Hocfg Hh Hc run.
    subst run. rewrite (main2_run _ _ _ _ _ _ _ Hr Hrcfg Ho Hocfg Hh Hc).
    rewrite bind_run.
    destruct (dispatch2_run (Nuproducts.make_tasks ocfg rcfg) choices
                (grow w (w_fs w)
                   [EvReadText (mkpath (lit "region_cfg.json"));
                    EvReadText (mkpath (lit "obslist.json"));
                    EvLog (LogQueuedJobs
                             (length (Nuproducts.make_tasks ocfg rcfg))
                             (Z.max 1 (cpu_count / 2)))]))
      as (fs' & evs & -> & _ & _).
    rewrite final_exit_run. cbn [fst].
    eexists. split; [reflexivity|]. split; [done|].
    case_bool_decide as Hf; cbn [process_status]; by split.
  - intros environ cfg_path jobs choices w text cfg mw worklist w_p
      Hh Hc Hread Hcfg Hjobs Hmw Hplan Hall run.
    subst run. rewrite (main1_run _ _ _ _ _ _ _ _ Hh Hc Hread Hcfg Hjobs).
    rewrite bind_run, Hplan. case_bool_decide as Hwl.
    + by rewrite logging_run.
    + destruct (dispatch1_run mw worklist cfg choices w_p Hmw)
        as (fs' & evs & -> & _ & _).
      by rewrite report_run.
Qed.

(** C9, as amended. Stage 1: when the configuration file is missing the
    process ends through [sys.exit] with a message, having done no more
    than look for the file. Stage 2 does not look before reading: when
    one of its two configuration files is missing, the process ends on
    the uncaught error, having done no more than try to read. *)
Theorem C9_missing_config :
  (∀ (environ : list str) (cfg_path : str) (jobs : Nupipeline.job_setting)
     (choices : list nat) (w : world),
     fs_exists (mkpath cfg_path) (w_fs w) = Ok false →
     let run := Nupipeline.main environ cfg_path jobs choices w in
     (∃ m, fst run = Exited (Message m))
     ∧ w_fs (snd run) = w_fs w
     ∧ (new_events w (snd run) = []
        ∨ new_events w (snd run) = [EvExists (mkpath cfg_path)]))
  ∧ (∀ (environ : list str) (choices : list nat) (w : world),
       fs_exists (mkpath (lit "region_cfg.json")) (w_fs w) = Ok false
       ∨ fs_exists (mkpath (lit "obslist.json")) (w_fs w) = Ok false →
       let run := Nuproducts.main environ choices w in
       (∃ e, fst run = Raised e)
       ∧ w_fs (snd run) = w_fs w
       ∧ Forall (fun ev => ∃ p, ev = EvReadText p) (new_events w (snd run))).
Proof.
  split.
  - intros environ cfg_path jobs choices w Hmissing run. subst run.
    unfold Nupipeline.main. case_bool_decide as Henv; cbn [negb].
    + rewrite bind_run, exists_run, Hmissing. cbn [negb fst snd sys_exit].
      rewrite new_events_grow, grow_fs. split; [by eexists|]. split; [done|].
      by right.
    + cbn [fst snd sys_exit]. rewrite new_events_same.
      split; [by eexists|]. split; [done|]. by left.
  - intros environ choices w Hmissing run. subst run. unfold Nuproducts.main.
    rewrite bind_run, read_text_run.
    destruct (fs_read_text (mkpath (lit "region_cfg.json")) (w_fs w))
      as [rtext|e] eqn:Hr.
    + destruct Hmissing as [Hm|Hm];
        [by rewrite (missing_read_raises _ _ Hm) in Hr|].
      rewrite bind_run.
      destruct (loads_region_cfg rtext) as [rcfg|]; cbn [lift_opt ret raise].
      * rewrite bind_run, read_text_run, grow_fs, (missing_read_raises _ _ Hm).
        cbn [fst snd]. rewrite grow_grow, new_events_grow, grow_fs.
        split; [by eexists|]. split; [done|]. repeat constructor; by eexists.
      * cbn [fst snd]. rewrite new_events_grow, grow_fs.
        split; [by eexists|]. split; [done|]. repeat constructor; by eexists.
    + cbn [fst snd]. rewrite new_events_grow, grow_fs.
      split; [by eexists|]. split; [done|]. repeat constructor; by eexists.
Qed.

End MainFacts.

Section SubmissionClaims.
Context `{PY : Platform} {TL : Tools}.

Lemma submitted1_logs (l : list record) : submitted1 (map EvLog l) = [].
Proof. by induction l. Qed.

Lemma submitted2_logs {X} (f : X → record) (l : list X) :
  submitted2 (map (fun x => EvLog (f x)) l) = [].
Proof. by induction l. Qed.

Lemma submitted1_app (l1 l2 : list event) :
  submitted1 (l1 ++ l2) = submitted1 l1 ++ submitted1 l2.
Proof. apply omap_app. Qed.

Lemma submitted2_app (l1 l2 : list event) :
  submitted2 (l1 ++ l2) = submitted2 l1 ++ submitted2 l2.
Proof. apply omap_app. Qed.

Lemma launch_short_circuit (args : task) (w : world) (outdir : path)
    (fs1 : filesystem) :
  stage2_outdir args = Some outdir →
  fs_mkdir_p outdir (w_fs w) = Ok fs1 →
  stage2_answer outdir fs1 = Done false →
  Nuproducts._launch args w =
  (Done (key_of args, 0), grow w fs1 (EvMkdir outdir :: stage2_query outdir fs1)).
Proof.
  intros Hout Hmk Hans.
  destruct (launch_run args w) as
    [ Hout' | outdir' e Hout' Hmk' | outdir' fs1' e Hout' Hmk' Hans'
    | outdir' fs1' Hout' Hmk' Hans' | outdir' fs1' e Hout' Hmk' Hans' Hop
    | outdir' fs1' fs2 cmd' e Hout' Hmk' Hans' Hop Htool
    | outdir' fs1' fs2 cmd' rc' fs3 Hout' Hmk' Hans' Hop Htool Hrc
    | outdir' fs1' fs2 cmd' fs3 e Hout' Hmk' Hans' Hop Htool Hap
    | outdir' fs1' fs2 cmd' fs3 fs4 Hout' Hmk' Hans' Hop Htool Hap ];
    rewrite Hout in Hout'; try discriminate; injection Hout' as <-;
    rewrite Hmk in Hmk'; try discriminate; injection Hmk' as <-;
    rewrite Hans in Hans'; try discriminate; done.
Qed.

(** C3, as amended. Stage 1: for each candidate the planner first
    queries the completion check; a unit found complete is logged as
    skipped and stays off the work list, and the pool is given exactly
    the work list. Stage 2 has no such filter: every candidate is handed
    to the pool, and the check is made by the launcher, which for a
    unit found complete returns status 0 without starting a process. *)
Theorem C3_check_before_dispatch :
  (∀ (cfg : obslist) (pre : list str) (obs : str) (wl : list str) (w : world)
     (wl_b : list str) (w_b : world),
     Nupipeline.plan pre cfg wl w = (Done wl_b, w_b) →
     let check := Nupipeline._needs_rerun obs cfg w_b in
     let step := Nupipeline.plan (pre ++ [obs]) cfg wl w in
     let w_a := snd step in
     (∃ rest, new_events w_b w_a = new_events w_b (snd check) ++ rest)
     ∧ (∀ e, e ∈ new_events w_b w_a → is_submit e = false)
     ∧ (∀ a, fst check ≠ Exited a)
     ∧ (fst check = Done false →
          fst step = Done wl_b
          ∧ (∀ post, Nupipeline.plan (pre ++ obs :: post) cfg wl w =
                     Nupipeline.plan post cfg wl_b w_a)
          ∧ new_events w_b w_a =
              new_events w_b (snd check) ++ [EvLog (LogSkipped obs)])
     ∧ (fst check = Done true →
          match fs_is_dir (Nupipeline.outdir_of cfg obs) (w_fs w_b) with
          | Ok d =>
              if d && rmtree_refused (Nupipeline.outdir_of cfg obs) (w_fs w_b)
              then
                fst step = Raised OSError
                ∧ ∀ post, Nupipeline.plan (pre ++ obs :: post) cfg wl w = step
              else
                fst step = Done (wl_b ++ [obs])
                ∧ ∀ post, Nupipeline.plan (pre ++ obs :: post) cfg wl w =
                          Nupipeline.plan post cfg (wl_b ++ [obs]) w_a
          | Raise e =>
              fst step = Raised e
              ∧ ∀ post, Nupipeline.plan (pre ++ obs :: post) cfg wl w = step
          end)
     ∧ (∀ e, fst check = Raised e →
          fst step = Raised e
          ∧ new_events w_b w_a = new_events w_b (snd check)
          ∧ ∀ post, Nupipeline.plan (pre ++ obs :: post) cfg wl w = step))
  ∧ (∀ (mw : Z) (worklist : list str) (cfg : obslist) (choices : list nat)
       (w : world),
       0 < mw →
       submitted1
         (new_events w (snd (Nupipeline.dispatch mw worklist cfg choices w)))
       = worklist)
  ∧ (∀ (tasks : list task) (choices : list nat) (w : world),
       submitted2 (new_events w (snd (Nuproducts.dispatch tasks choices w)))
       = tasks)
  ∧ (∀ (args : task) (w : world) (outdir : path) (fs1 : filesystem),
       stage2_outdir args = Some outdir →
       fs_mkdir_p outdir (w_fs w) = Ok fs1 →
       stage2_answer outdir fs1 = Done false →
       fst (Nuproducts._launch args w) = Done (key_of args, 0)
       ∧ ∀ e, e ∈ new_events w (snd (Nuproducts._launch args w)) →
              is_call e = false).
Proof.
  split; [|split; [|split]].
  - intros cfg pre obs wl w wl_b w_b Hpre check step w_a. subst check w_a step.
    destruct (plan_snoc pre obs cfg wl w wl_b w_b Hpre) as [Hsnoc Hpost].
    rewrite Hsnoc.
    destruct (needs_rerun1_frame obs cfg w_b) as [_ Hne].
    rewrite needs_rerun1_run in Hne |- *. cbn [fst snd] in Hne |- *.
    change {| w_fs := w_fs w_b;
              w_trace := w_trace w_b ++ stage1_query cfg obs (w_fs w_b) |}
      with (grow w_b (w_fs w_b) (stage1_query cfg obs (w_fs w_b))).
    rewrite new_events_grow. unfold plan_step in Hpost |- *.
    assert (∀ l e, e ∈ stage1_query cfg obs (w_fs w_b) ++ l →
                   (∀ e', e' ∈ l → is_submit e' = false) →
                   is_submit e = false) as Hquiet.
    { intros l e [Hq|Hl]%elem_of_app Hl'; [|by apply Hl'].
      by destruct (stage1_query_quiet _ _ _ _ Hq). }
    destruct (stage1_answer cfg obs (w_fs w_b)) as [[]|e|a];
      [destruct (fs_is_dir _ (w_fs w_b)) as [[]|e];
       [destruct (rmtree_refused _ (w_fs w_b))| |]| | |];
      cbn [fst snd andb]; rewrite ?new_events_grow.
    all: (split; [first [by eexists | by exists []; rewrite app_nil_r]|]).
    all: (split;
          [intros e' He'; first
             [ apply (Hquiet _ _ He'); intros e'' He'';
               repeat (apply elem_of_cons in He'' as [->|He'']; [done|]);
               by apply elem_of_nil in He''
             | by destruct (stage1_query_quiet _ _ _ _ He') ]|]).
    all: (split; [exact Hne|]).
    all: split_and!; try done.
    all: try (intros e' [= <-]; done).
  - intros mw worklist cfg choices w Hmw.
    destruct (dispatch1_run mw worklist cfg choices w Hmw)
      as (fs' & evs & -> & Hevs & _).
    destruct (forallb returned (futures1 cfg worklist choices w)) eqn:Hall.
    + rewrite report_run by done. cbn [snd].
      rewrite grow_fs, grow_grow, new_events_grow, !submitted1_app,
        submitted1_submits, (worker_events_no_submit1 _ Hevs), submitted1_logs.
      by rewrite !app_nil_r.
    + destruct (first_raised _ Hall) as (ok & obs & e & rest & -> & Hok).
      rewrite report_stops by done. cbn [snd].
      rewrite grow_fs, grow_grow, new_events_grow, !submitted1_app,
        submitted1_submits, (worker_events_no_submit1 _ Hevs), submitted1_logs.
      by rewrite !app_nil_r.
  - intros tasks choices w.
    destruct (dispatch2_run tasks choices w) as (fs' & evs & -> & Hevs & _).
    cbn [snd]. rewrite new_events_grow, !submitted2_app, submitted2_submits,
      (worker_events_no_submit2 _ Hevs), submitted2_logs.
    by rewrite !app_nil_r.
  - intros args w outdir fs1 Hout Hmk Hans.
    rewrite (launch_short_circuit _ _ _ _ Hout Hmk Hans). cbn [fst snd].
    rewrite new_events_grow. split; [done|].
    intros e [->|Hin]%elem_of_cons; [done|].
    by destruct (stage2_query_quiet _ _ _ Hin).
Qed.

End SubmissionClaims.

(** * Further properties of the two drivers *)

(** ** Stage 2: the marker and the launcher *)

Section MarkerFacts.
Context `{PY : Platform} {TL : Tools}.

Lemma FIN_RE_search_from_unfold (bol : bool) (s : str) :
  Nuproducts.FIN_RE_search_from bol s =
  (bol && bool_decide (is_Some (strip_prefix Nuproducts.FIN_LINE s)))
  || match s with
     | [] => false
     | c :: s' => Nuproducts.FIN_RE_search_from (N.eqb c 10) s'
     end.
Proof. by destruct s. Qed.

Lemma MARKER_eq : Nuproducts.MARKER = [10%N] ++ Nuproducts.FIN_LINE ++ [10%N].
Proof. by vm_compute. Qed.

Lemma FIN_LINE_no_match_empty : strip_prefix Nuproducts.FIN_LINE [] = None.
Proof. by vm_compute. Qed.

Lemma FIN_RE_search_from_spec (bol : bool) (s : str) :
  Nuproducts.FIN_RE_search_from bol s = true ↔
  ∃ pre post,
    s = pre ++ Nuproducts.FIN_LINE ++ post
    ∧ (if bol then pre = [] ∨ last pre = Some 10%N else last pre = Some 10%N).
Proof.
  revert bol. induction s as [|c s IH]; intros bol;
    rewrite FIN_RE_search_from_unfold, orb_true_iff, andb_true_iff,
      bool_decide_eq_true.
  - split.
    + intros [[-> [rest H]]|]; [|done]. apply strip_prefix_Some in H.
      exists [], rest. split; [done | by left].
    + intros (pre & post & H & Hpre).
      destruct pre as [|c pre]; [|done].
      destruct bol; [|done]. left. split; [done|].
      exists post. by apply strip_prefix_Some.
  - rewrite IH. split.
    + intros [[-> [rest H]]|(pre & post & -> & Hpre)].
      * apply strip_prefix_Some in H. exists [], rest. split; [done | by left].
      * exists (c :: pre), post. split; [done|].
        assert (last (c :: pre) = Some 10%N) as Hl.
        { destruct pre as [|c' pre].
          - destruct (N.eqb_spec c 10) as [->|]; [done|]. done.
          - rewrite last_cons_cons.
            destruct (N.eqb c 10); [by destruct Hpre | done]. }
        destruct bol; [by right | done].
    + intros (pre & post & H & Hpre). destruct pre as [|c' pre].
      * destruct bol; [|done]. left. split; [done|].
        exists post. by apply strip_prefix_Some.
      * injection H as <- ->. right. exists pre, post. split; [done|].
        assert (last (c :: pre) = Some 10%N) as Hl
          by (destruct bol; [by destruct Hpre | done]).
        destruct pre as [|c' pre].
        -- injection Hl as ->. by left.
        -- rewrite last_cons_cons in Hl. destruct (N.eqb c 10); [by right | done].
Qed.

(** X1. Stage 2: the completion pattern finds a match in a log exactly
    when the text "nuproducts done" stands at the very start of the log or
    right after a line feed; the same text inside a line does not count. *)
Theorem fin_re_matches_at_line_start (text : str) :
  Nuproducts.FIN_RE_search text = true ↔
  ∃ pre post,
    text = pre ++ Nuproducts.FIN_LINE ++ post
    ∧ (pre = [] ∨ last pre = Some 10%N).
Proof. apply (FIN_RE_search_from_spec true). Qed.

Lemma FIN_RE_search_marker (c : str) :
  Nuproducts.FIN_RE_search (c ++ Nuproducts.MARKER) = true.
Proof.
  apply (FIN_RE_search_from_spec true). exists (c ++ [10%N]), [10%N]. split.
  - by rewrite MARKER_eq, <- !app_assoc.
  - right. by rewrite last_snoc.
Qed.

Lemma FIN_RE_search_empty : Nuproducts.FIN_RE_search [] = false.
Proof.
  unfold Nuproducts.FIN_RE_search.
  rewrite FIN_RE_search_from_unfold, FIN_LINE_no_match_empty. done.
Qed.

Lemma fs_append_lookup (p : path) (t : str) (fs fs' : filesystem) :
  fs_append p t fs = Ok fs' →
  ∃ r c, fs_lookup p fs' = Some (File r (c ++ t)).
Proof.
  unfold fs_append. intros H.
  assert (p ≠ []) as Hp by (intros ->; simpl in H; discriminate).
  destruct (fs_lookup p fs) as [[|r c|]|]; [done| |done|].
  - injection H as <-. exists r, c. by apply fs_lookup_insert.
  - destruct (parent_is_dir p fs); [|done]. injection H as <-.
    exists true, []. by apply fs_lookup_insert.
Qed.

Lemma stage2_answer_complete (outdir : path) (fs : filesystem) :
  stage2_answer outdir fs = Done false ↔
  ∃ text, fs_lookup (Nuproducts.log_of outdir) fs = Some (File true text)
          ∧ Nuproducts.FIN_RE_search text = true.
Proof.
  unfold stage2_answer, fs_exists, fs_read_text.
  destruct (fs_lookup _ fs) as [[|[] c|]|]; split;
    try done; try (by intros (? & ? & ?)).
  - intros [= H]. apply negb_false_iff in H. eauto.
  - intros (text & [= <-] & ->). done.
Qed.

(** Whatever [mkdir] adds is a directory on the way to its target. *)
Lemma mkdir_from_new (done rest : path) (fs fs' : filesystem) (q : path) (n : node) :
  mkdir_from done rest fs = Ok fs' → fs !! q = None → fs' !! q = Some n →
  n = Dir ∧ q `prefix_of` done ++ rest ∧ done `prefix_of` q ∧ q ≠ done.
Proof.
  revert done fs. induction rest as [|c rest IH]; intros done fs Hmk Hq Hq'.
  - injection Hmk as <-. congruence.
  - cbn [mkdir_from] in Hmk.
    assert (∀ x : path, x `prefix_of` (done ++ [c]) ++ rest → x `prefix_of` done ++ c :: rest) as Hre.
    { intros x. by rewrite <- app_assoc. }
    assert (∀ x : path, done ++ [c] `prefix_of` x → x ≠ done ++ [c] → done `prefix_of` x ∧ x ≠ done) as Hd.
    { intros x [y ->] _. split; [exists ([c] ++ y); by rewrite app_assoc|].
      rewrite <- app_assoc. intros H. apply (f_equal length) in H.
      rewrite length_app in H. simpl in H. lia. }
    destruct (fs !! (done ++ [c])) as [[|r t|]|] eqn:E; [| done | done |].
    + destruct (IH _ _ Hmk Hq Hq') as (-> & H1 & H2 & H3).
      destruct (Hd _ H2 H3). auto.
    + destruct (decide (q = done ++ [c])) as [->|Hne].
      * pose proof (mkdir_from_keeps _ _ _ _ (done ++ [c]) Dir Hmk) as Hk.
        rewrite lookup_insert_eq in Hk. specialize (Hk eq_refl).
        rewrite Hk in Hq'. injection Hq' as <-. split; [done|]. split.
        -- exists rest. by rewrite <- app_assoc.
        -- split; [by exists [c]|]. intros H. apply (f_equal length) in H.
           rewrite length_app in H. simpl in H. lia.
      * assert (<[done ++ [c] := Dir]> fs !! q = None) as Hq2
          by by rewrite lookup_insert_ne.
        destruct (IH _ _ Hmk Hq2 Hq') as (-> & H1 & H2 & H3).
        destruct (Hd _ H2 H3). auto.
Qed.

Lemma mkdir_p_new (p : path) (fs fs' : filesystem) (q : path) (n : node) :
  fs_mkdir_p p fs = Ok fs' → fs !! q = None → fs' !! q = Some n →
  n = Dir ∧ q `prefix_of` p.
Proof.
  intros Hmk Hq Hq'. by destruct (mkdir_from_new [] p fs fs' q n Hmk Hq Hq') as (? & ? & _).
Qed.

Lemma mkdir_p_keeps (p : path) (fs fs' : filesystem) (q : path) (n : node) :
  fs_mkdir_p p fs = Ok fs' → fs !! q = Some n → fs' !! q = Some n.
Proof. apply mkdir_from_keeps. Qed.

Lemma fs_lookup_kept (p : path) (fs fs' : filesystem) (n : node) :
  (∀ q m, fs !! q = Some m → fs' !! q = Some m) →
  fs_lookup p fs = Some n → fs_lookup p fs' = Some n.
Proof. destruct p; [done|]. simpl. auto. Qed.

Lemma launch_success_marker (args : task) (w : world)
    (k : str * detector * combo) :
  fst (Nuproducts._launch args w) = Done (k, 0) →
  k = key_of args
  ∧ ∃ outdir r text,
      stage2_outdir args = Some outdir
      ∧ fs_lookup (Nuproducts.log_of outdir)
          (w_fs (snd (Nuproducts._launch args w))) = Some (File r text)
      ∧ Nuproducts.FIN_RE_search text = true.
Proof.
  intros Hr. pose proof (launch_run args w) as H.
  destruct H as [?|outdir e ? ?|outdir fs1 e ? ? ?|outdir fs1 Hout Hmk Hans
                 |outdir fs1 e ? ? ? ?|outdir fs1 fs2 cmd e ? ? ? ? ?
                 |outdir fs1 fs2 cmd rc fs3 ? ? ? ? ? Hrc
                 |outdir fs1 fs2 cmd fs3 e ? ? ? ? ? ?
                 |outdir fs1 fs2 cmd fs3 fs4 Hout Hmk Hans Hop Htool Hap];
    cbn [fst snd] in *; try discriminate.
  - injection Hr as <-. split; [done|].
    apply stage2_answer_complete in Hans as (text & Hl & Hfin).
    exists outdir, true, text. by rewrite grow_fs.
  - injection Hr as _ ->. done.
  - injection Hr as <-. split; [done|].
    destruct (fs_append_lookup _ _ _ _ Hap) as (r & c & Hl).
    exists outdir, r, (c ++ Nuproducts.MARKER). rewrite grow_fs.
    split; [done|]. split; [done|]. apply FIN_RE_search_marker.
Qed.


Lemma calls_app (l1 l2 : list event) : calls (l1 ++ l2) = calls l1 ++ calls l2.
Proof. apply omap_app. Qed.

Lemma calls_query (outdir : path) (fs : filesystem) :
  calls (stage2_query outdir fs) = [].
Proof. unfold stage2_query. by destruct (fs_exists _ fs) as [[]|]. Qed.

Lemma calls_prefix (outdir : path) (fs : filesystem) :
  calls (EvMkdir outdir :: stage2_query outdir fs) = [].
Proof. apply (calls_query outdir fs). Qed.

Lemma elem_calls (cmd : list str) (rc : option Z) (tr : list event) :
  EvCall cmd rc ∈ tr → (cmd, rc) ∈ calls tr.
Proof. intros H. apply list_elem_of_omap. by exists (EvCall cmd rc). Qed.

(** The calls of one run of the launcher, by the way it went. *)
Lemma launch_calls (args : task) (w : world) :
  let run := Nuproducts._launch args w in
  match calls (new_events w (snd run)) with
  | [] => (∀ res, fst run = Done res →
             res = (key_of args, 0)
             ∧ ∃ outdir fs1,
                 stage2_outdir args = Some outdir
                 ∧ fs_mkdir_p outdir (w_fs w) = Ok fs1
                 ∧ stage2_answer outdir fs1 = Done false
                 ∧ w_fs (snd run) = fs1)
  | [(cmd, None)] =>
      ∃ outdir fs1 fs2 e,
        stage2_outdir args = Some outdir
        ∧ fs_mkdir_p outdir (w_fs w) = Ok fs1
        ∧ fs_open_w (Nuproducts.log_of outdir) fs1 = Ok fs2
        ∧ run = (Raised e, grow w fs2
                   (EvMkdir outdir :: stage2_query outdir fs1
                      ++ [EvOpenW (Nuproducts.log_of outdir); EvCall cmd None]))
  | [(cmd, Some rc)] => True
  | _ => False
  end.
Proof.
  cbv zeta.
  destruct (launch_run args w) as
    [ Hout | outdir e Hout Hmk | outdir fs1 e Hout Hmk Hans
    | outdir fs1 Hout Hmk Hans | outdir fs1 e Hout Hmk Hans Hop
    | outdir fs1 fs2 cmd e Hout Hmk Hans Hop Htool
    | outdir fs1 fs2 cmd rc fs3 Hout Hmk Hans Hop Htool Hrc
    | outdir fs1 fs2 cmd fs3 e Hout Hmk Hans Hop Htool Hap
    | outdir fs1 fs2 cmd fs3 fs4 Hout Hmk Hans Hop Htool Hap ];
    cbn [fst snd]; rewrite ?new_events_grow, ?new_events_same;
    rewrite ?(app_comm_cons _ _ (EvMkdir outdir)), ?calls_app, ?calls_prefix;
    cbn [calls omap app]; try done.
  - intros res [= <-]. split; [done|]. exists outdir, fs1. by rewrite grow_fs.
  - by exists outdir, fs1, fs2, e.
Qed.

(** X2. Stage 2: whenever the launcher returns status 0, whether it
    skipped the unit or ran the tool, the unit's log is on disk as a file
    whose text holds the done line at a line start, so that the completion
    check on the resulting filesystem never answers that a run is needed. *)
Theorem launch_success_leaves_marker (args : task) (w : world)
    (k : str * detector * combo) :
  let w' := snd (Nuproducts._launch args w) in
  fst (Nuproducts._launch args w) = Done (k, 0) →
  k = key_of args
  ∧ ∃ outdir r text,
      stage2_outdir args = Some outdir
      ∧ fs_lookup (Nuproducts.log_of outdir) (w_fs w') = Some (File r text)
      ∧ Nuproducts.FIN_RE_search text = true
      ∧ fst (Nuproducts._needs_rerun outdir w') ≠ Done true.
Proof.
  intros w' Hr. destruct (launch_success_marker args w k Hr)
    as (-> & outdir & r & text & Hout & Hl & Hfin).
  split; [done|]. exists outdir, r, text. repeat (split; [done|]).
  subst w'. rewrite needs_rerun2_run. cbn [fst].
  unfold stage2_answer, fs_exists, fs_read_text.
  rewrite Hl. destruct r; [|done]. by rewrite Hfin.
Qed.

(** X3. Stage 2: launching a unit again after a launch that returned
    status 0 starts no process, keeps every entry of the filesystem, and
    can only return status 0; when the log is readable and the output
    directory can still be made, it returns status 0 after the directory
    call and the check alone. *)
Theorem relaunch_after_success (args : task) (w : world)
    (k : str * detector * combo) :
  let w' := snd (Nuproducts._launch args w) in
  let again := Nuproducts._launch args w' in
  fst (Nuproducts._launch args w) = Done (k, 0) →
  calls (new_events w' (snd again)) = []
  ∧ (∀ q n, w_fs w' !! q = Some n → w_fs (snd again) !! q = Some n)
  ∧ (∀ res, fst again = Done res → res = (key_of args, 0))
  ∧ (∀ outdir text fs1,
       stage2_outdir args = Some outdir →
       fs_read_text (Nuproducts.log_of outdir) (w_fs w') = Ok text →
       fs_mkdir_p outdir (w_fs w') = Ok fs1 →
       again = (Done (key_of args, 0),
                grow w' fs1 (EvMkdir outdir :: stage2_query outdir fs1))).
Proof.
  intros w' again Hr.
  destruct (launch_success_marker args w k Hr)
    as (-> & outdir & r & text & Hout & Hl & Hfin). fold w' in Hl.
  assert (∀ fs1, fs_mkdir_p outdir (w_fs w') = Ok fs1 →
            stage2_answer outdir fs1 ≠ Done true
            ∧ (r = true → stage2_answer outdir fs1 = Done false)) as Hans.
  { intros fs1 Hmk.
    assert (fs_lookup (Nuproducts.log_of outdir) fs1 = Some (File r text)) as Hl1.
    { apply (fs_lookup_kept _ (w_fs w')); [|done].
      intros q m. exact (mkdir_p_keeps _ _ _ q m Hmk). }
    unfold stage2_answer, fs_exists, fs_read_text. rewrite Hl1.
    destruct r; [by rewrite Hfin | done]. }
  assert (calls (new_events w' (snd again)) = []
          ∧ (∀ q n, w_fs w' !! q = Some n → w_fs (snd again) !! q = Some n)
          ∧ (∀ res, fst again = Done res → res = (key_of args, 0))) as H.
  { subst again.
    destruct (launch_run args w') as
      [ Hout' | outdir' e Hout' Hmk | outdir' fs1 e Hout' Hmk Hans'
      | outdir' fs1 Hout' Hmk Hans' | outdir' fs1 e Hout' Hmk Hans' Hop
      | outdir' fs1 fs2 cmd e Hout' Hmk Hans' Hop Htool
      | outdir' fs1 fs2 cmd rc fs3 Hout' Hmk Hans' Hop Htool Hrc
      | outdir' fs1 fs2 cmd fs3 e Hout' Hmk Hans' Hop Htool Hap
      | outdir' fs1 fs2 cmd fs3 fs4 Hout' Hmk Hans' Hop Htool Hap ];
      rewrite Hout in Hout'; try discriminate; injection Hout' as <-;
      try (by destruct (Hans _ Hmk));
      cbn [fst snd]; rewrite ?new_events_grow, ?grow_fs, ?calls_prefix.
    - done.
    - split; [done|]. split; [|done]. intros q n. exact (mkdir_p_keeps _ _ _ q n Hmk).
    - split; [done|]. split; [|by intros res [= <-]].
      intros q n. exact (mkdir_p_keeps _ _ _ q n Hmk). }
  destruct H as (H1 & H2 & H3). repeat (split; [done|]).
  intros outdir' text' fs1 Hout' Hrd Hmk. rewrite Hout in Hout'.
  injection Hout' as <-.
  assert (r = true) as ->.
  { unfold fs_read_text in Hrd. rewrite Hl in Hrd. by destruct r. }
  apply launch_short_circuit; [done.. |]. by apply Hans.
Qed.

(** X4. Stage 2: when the tool cannot be started, the log has already
    been opened for writing: it is left as an empty file, whatever it held
    before, and the completion check does not take the unit for complete. *)
Theorem spawn_failure_truncates_log (args : task) (w : world) (cmd : list str) :
  let w' := snd (Nuproducts._launch args w) in
  EvCall cmd None ∈ new_events w w' →
  ∃ outdir r,
    stage2_outdir args = Some outdir
    ∧ fs_lookup (Nuproducts.log_of outdir) (w_fs w') = Some (File r [])
    ∧ stage2_answer outdir (w_fs w') ≠ Done false.
Proof.
  intros w' Hin%elem_calls. pose proof (launch_calls args w) as H.
  cbv zeta in H. fold w' in H.
  destruct (calls (new_events w w')) as [|[cmd' [rc|]] [|]];
    try done; try (by apply elem_of_nil in Hin).
  - by apply list_elem_of_singleton in Hin.
  - destruct H as (outdir & fs1 & fs2 & e & Hout & Hmk & Hop & Hrun).
    destruct (fs_open_w_lookup _ _ _ Hop) as [r Hl].
    exists outdir, r. subst w'. rewrite Hrun. cbn [snd]. rewrite grow_fs.
    split; [done|]. split; [done|].
    unfold stage2_answer, fs_exists, fs_read_text. rewrite Hl.
    destruct r; [by rewrite FIN_RE_search_empty | done].
Qed.

(** X5. Stage 2: a launch that returns without calling the tool
    returns status 0 for its own unit, leaves the output directory in
    place, keeps every entry the filesystem had, and adds nothing but
    directories on the way to the output directory. *)
Theorem skipped_launch_keeps_files (args : task) (w : world)
    (res : str * detector * combo * Z) :
  let w' := snd (Nuproducts._launch args w) in
  fst (Nuproducts._launch args w) = Done res →
  calls (new_events w w') = [] →
  res = (key_of args, 0)
  ∧ ∃ outdir,
      stage2_outdir args = Some outdir
      ∧ fs_is_dir outdir (w_fs w') = Ok true
      ∧ (∀ q n, w_fs w !! q = Some n → w_fs w' !! q = Some n)
      ∧ (∀ q n, w_fs w !! q = None → w_fs w' !! q = Some n →
                n = Dir ∧ q `prefix_of` outdir).
Proof.
  intros w' Hr Hc. pose proof (launch_calls args w) as H.
  cbv zeta in H. fold w' in H. rewrite Hc in H.
  destruct (H res Hr) as (-> & outdir & fs1 & Hout & Hmk & Hans & Hfs).
  split; [done|]. exists outdir. fold w' in Hfs. rewrite Hfs.
  split; [done|]. split; [exact (mkdir_p_is_dir _ _ _ Hmk)|]. split.
  - intros q n. exact (mkdir_p_keeps _ _ _ q n Hmk).
  - intros q n. exact (mkdir_p_new _ _ _ q n Hmk).
Qed.

End MarkerFacts.

Section CommandFacts.
Context `{PY : Platform} {TL : Tools}.

(** X19. Stage 2: whenever the launcher calls the tool, the command has
    twelve arguments, the first is "nuproducts", the instrument is FPMA
    for detector A and FPMB for detector B, the output directory handed
    to the tool is the directory the launcher made, and the log the
    launcher opened for the tool's output is the log of that directory,
    the one the completion check reads. *)
Theorem launch_command_names_outdir (args : task) (w : world)
    (cmd : list str) (rc : option Z) :
  let w' := snd (Nuproducts._launch args w) in
  EvCall cmd rc ∈ new_events w w' →
  ∃ outdir before after,
    stage2_outdir args = Some outdir
    ∧ new_events w w' =
        EvMkdir outdir :: before
          ++ [EvOpenW (Nuproducts.log_of outdir); EvCall cmd rc] ++ after
    ∧ length cmd = 12%nat
    ∧ cmd !! 0%nat = Some (lit "nuproducts")
    ∧ cmd !! 2%nat =
        Some (lit "instrument="
                ++ match args.1.1.2 with A => lit "FPMA" | B => lit "FPMB" end)
    ∧ cmd !! 4%nat = Some (lit "outdir=" ++ path_str outdir)
    ∧ cmd !! 11%nat = Some (lit "clobber=yes").
Proof.
  destruct args as [[[obsid det] cfg] [[[r_src rin] rout] binsize]].
  cbv zeta. unfold Nuproducts._launch, Nuproducts.fmt.
  assert (∀ e : event, e ∈ new_events w w → False) as Hnone.
  { intros e. rewrite new_events_same. apply elem_of_nil. }
  destruct (fmt_03_0f r_src) as [s_src|] eqn:E1; [|intros H; by destruct (Hnone _ H)].
  destruct (fmt_03_0f rin) as [s_rin|] eqn:E2; [|intros H; by destruct (Hnone _ H)].
  destruct (fmt_03_0f rout) as [s_rout|] eqn:E3; [|intros H; by destruct (Hnone _ H)].
  destruct (fmt_03d r_src) as [d_src|] eqn:E4; [|intros H; by destruct (Hnone _ H)].
  destruct (fmt_03d rin) as [d_rin|] eqn:E5; [|intros H; by destruct (Hnone _ H)].
  destruct (fmt_03d rout) as [d_rout|] eqn:E6; [|intros H; by destruct (Hnone _ H)].
  cbn [lift_opt bind ret raise].
  set (outdir := pjoin (pjoin _ obsid) _).
  assert (stage2_outdir (obsid, det, cfg, (r_src, rin, rout, binsize)) = Some outdir)
    as Hout by (simpl; by rewrite E1, E2, E3, E4, E5, E6).
  rewrite bind_run, mkdir_p_run.
  destruct (fs_mkdir_p outdir (w_fs w)) as [fs1|e] eqn:Hmk.
  2:{ cbn [snd]. rewrite !new_events_grow.
      intros H%list_elem_of_singleton. discriminate. }
  rewrite bind_run, needs_rerun2_run, !grow_fs.
  assert (∀ l, EvCall cmd rc ∈ EvMkdir outdir :: stage2_query outdir fs1 ++ l →
               EvCall cmd rc ∈ l) as Hskip.
  { intros l [H|[H|H]%elem_of_app]%elem_of_cons; [done| |done].
    by destruct (stage2_query_quiet _ _ _ H). }
  destruct (stage2_answer outdir fs1) as [[]|e|a] eqn:Hans.
  - cbn [negb]. rewrite bind_run, open_w_run, !grow_fs.
    destruct (fs_open_w _ fs1) as [fs2|e] eqn:Hop.
    2:{ norm_grow. cbn [snd]. rewrite !new_events_grow.
        intros H%Hskip%list_elem_of_singleton. discriminate. }
    rewrite bind_run, subprocess_call_run, !grow_fs.
    match goal with |- context [nuproducts ?c fs2] => set (cmd0 := c) end.
    assert (∀ rc0 l,
              (∀ e, e ∈ l → is_call e = false) →
              EvCall cmd rc
                ∈ [EvOpenW (Nuproducts.log_of outdir); EvCall cmd0 rc0] ++ l →
              cmd = cmd0 ∧ rc = rc0) as Hcall.
    { intros rc0 l Hl [H|[H|H]%elem_of_cons]%elem_of_cons; [done| |].
      - by injection H.
      - by specialize (Hl _ H). }
    assert (length cmd0 = 12%nat
            ∧ cmd0 !! 0%nat = Some (lit "nuproducts")
            ∧ cmd0 !! 2%nat =
                Some (lit "instrument="
                        ++ match det with A => lit "FPMA" | B => lit "FPMB" end)
            ∧ cmd0 !! 4%nat = Some (lit "outdir=" ++ path_str outdir)
            ∧ cmd0 !! 11%nat = Some (lit "clobber=yes")) as Hshape by done.
    destruct (nuproducts cmd0 fs2) as [e|[rc0 fs3]] eqn:Htool.
    + norm_grow. cbn [snd]. rewrite !new_events_grow. intros H%Hskip.
      destruct (Hcall None [] (fun e He => False_ind _ (proj1 (elem_of_nil e) He)) H)
        as [-> ->].
      by exists outdir, (stage2_query outdir fs1), [].
    + destruct (Z.eqb_spec rc0 0) as [->|Hrc].
      * rewrite bind_run, append_run, !grow_fs.
        assert (∀ e, e ∈ [EvAppend (Nuproducts.log_of outdir) Nuproducts.MARKER] →
                     is_call e = false) as Hq
          by by intros e ->%list_elem_of_singleton.
        destruct (fs_append _ _ fs3) as [fs4|e] eqn:Hap.
        -- cbn [snd ret]. norm_grow. rewrite !new_events_grow. intros H%Hskip.
           destruct (Hcall (Some 0) _ Hq H) as [-> ->].
           by exists outdir, (stage2_query outdir fs1),
                [EvAppend (Nuproducts.log_of outdir) Nuproducts.MARKER].
        -- cbn [snd ret]. norm_grow. rewrite !new_events_grow. intros H%Hskip.
           destruct (Hcall (Some 0) _ Hq H) as [-> ->].
           by exists outdir, (stage2_query outdir fs1),
                [EvAppend (Nuproducts.log_of outdir) Nuproducts.MARKER].
      * rewrite bind_run. cbn [snd ret]. norm_grow. rewrite !new_events_grow.
        intros H%Hskip.
        destruct (Hcall (Some rc0) []
                    (fun e He => False_ind _ (proj1 (elem_of_nil e) He)) H)
          as [-> ->].
        by exists outdir, (stage2_query outdir fs1), [].
  - cbn [negb snd ret]. norm_grow. rewrite !new_events_grow.
    rewrite <- (app_nil_r (stage2_query outdir fs1)).
    intros H%Hskip. by apply elem_of_nil in H.
  - cbn [snd]. norm_grow. rewrite !new_events_grow.
    rewrite <- (app_nil_r (stage2_query outdir fs1)).
    intros H%Hskip. by apply elem_of_nil in H.
  - unfold stage2_answer in Hans.
    destruct (fs_exists _ fs1) as [[]|]; [destruct (fs_read_text _ fs1)| |];
      discriminate.
Qed.

End CommandFacts.

(** ** The task grid and the environment check *)

Section GridFacts.
Context `{PY : Platform} {JS : Json} {TL : Tools}.

Lemma flat_map_length_const {X Y} (f : X → list Y) (l : list X) (n : nat) :
  (∀ x, length (f x) = n) → length (flat_map f l) = (length l * n)%nat.
Proof.
  intros Hf. induction l as [|x l IH]; [done|].
  cbn [flat_map]. rewrite length_app, Hf, IH. done.
Qed.

Lemma make_combos_length (rcfg : region_cfg) :
  length (Nuproducts.make_combos rcfg) =
  (length (src_radii_arcsec rcfg)
   * (length (bkg_annuli_arcsec rcfg) * length (bin_sizes_s rcfg)))%nat.
Proof.
  unfold Nuproducts.make_combos. apply flat_map_length_const. intros r_src.
  apply flat_map_length_const. intros [rin rout]. by rewrite length_map.
Qed.

Lemma make_combos_elem (rcfg : region_cfg) (c : combo) :
  c ∈ Nuproducts.make_combos rcfg ↔
  ∃ r_src rin rout binsize,
    c = (r_src, rin, rout, binsize)
    ∧ r_src ∈ src_radii_arcsec rcfg
    ∧ (rin, rout) ∈ bkg_annuli_arcsec rcfg
    ∧ binsize ∈ bin_sizes_s rcfg.
Proof.
  unfold Nuproducts.make_combos. rewrite list_elem_of_In, in_flat_map. split.
  - intros (r_src & Hr & Hc). apply in_flat_map in Hc as ([rin rout] & Ha & Hb).
    apply in_map_iff in Hb as (binsize & <- & Hb).
    exists r_src, rin, rout, binsize. by rewrite !list_elem_of_In.
  - intros (r_src & rin & rout & binsize & -> & Hr & Ha & Hb).
    apply list_elem_of_In in Hr. apply list_elem_of_In in Ha.
    apply list_elem_of_In in Hb.
    exists r_src. split; [done|]. apply in_flat_map. exists (rin, rout).
    split; [done|]. apply in_map_iff. by exists binsize.
Qed.

(** X6. Stage 2: the task list holds exactly the tuples made of an
    observation, a detector A or B, the merged configuration and a
    combination of a source radius, a background annulus and a bin size
    of the region configuration; it has
    observations x 2 x radii x annuli x bin sizes entries. *)
Theorem make_tasks_grid (ocfg : obslist) (rcfg : region_cfg) :
  length (Nuproducts.make_tasks ocfg rcfg) =
    (length (observations ocfg)
     * (2 * (length (src_radii_arcsec rcfg)
             * (length (bkg_annuli_arcsec rcfg) * length (bin_sizes_s rcfg)))))%nat
  ∧ ∀ t : task,
      t ∈ Nuproducts.make_tasks ocfg rcfg ↔
      ∃ obs det r_src rin rout binsize,
        t = (obs, det, (ocfg, rcfg), (r_src, rin, rout, binsize))
        ∧ obs ∈ observations ocfg
        ∧ r_src ∈ src_radii_arcsec rcfg
        ∧ (rin, rout) ∈ bkg_annuli_arcsec rcfg
        ∧ binsize ∈ bin_sizes_s rcfg.
Proof.
  unfold Nuproducts.make_tasks. split.
  - apply flat_map_length_const. intros obs. cbn [flat_map].
    rewrite !length_app, !length_map, make_combos_length. cbn [length]. lia.
  - intros t. rewrite list_elem_of_In, in_flat_map. split.
    + intros (obs & Ho & Hc). apply in_flat_map in Hc as (det & Hd & Hc).
      apply in_map_iff in Hc as (comb & <- & Hc).
      apply list_elem_of_In, make_combos_elem in Hc
        as (r_src & rin & rout & binsize & -> & ? & ? & ?).
      exists obs, det, r_src, rin, rout, binsize. by rewrite list_elem_of_In.
    + intros (obs & det & r_src & rin & rout & binsize & -> & Ho & Hr & Ha & Hb).
      exists obs. split; [by apply list_elem_of_In|].
      apply in_flat_map. exists det. split; [destruct det; simpl; auto|].
      apply in_map_iff. exists (r_src, rin, rout, binsize). split; [done|].
      apply list_elem_of_In, make_combos_elem.
      by exists r_src, rin, rout, binsize.
Qed.

Lemma stage2_env_exit (environ : list str) (choices : list nat)
    (w : world) (rtext otext : str) (rcfg : region_cfg) (ocfg : obslist) :
  fs_read_text (mkpath (lit "region_cfg.json")) (w_fs w) = Ok rtext →
  loads_region_cfg rtext = Some rcfg →
  fs_read_text (mkpath (lit "obslist.json")) (w_fs w) = Ok otext →
  loads_obslist otext = Some ocfg →
  lit "HEADAS" ∉ environ ∨ lit "CALDB" ∉ environ →
  Nuproducts.main environ choices w =
    (Exited (Message Nuproducts.env_message),
     grow w (w_fs w)
       [EvReadText (mkpath (lit "region_cfg.json"));
        EvReadText (mkpath (lit "obslist.json"))]).
Proof.
  intros Hr Hrcfg Ho Hocfg Henv. unfold Nuproducts.main.
  rewrite bind_run, read_text_run, Hr, Hrcfg. cbn [lift_opt].
  rewrite bind_run. cbn [ret].
  rewrite bind_run, read_text_run, grow_fs, Ho, Hocfg. cbn [lift_opt].
  rewrite bind_run. cbn [ret].
  assert (bool_decide (lit "HEADAS" ∉ environ)
          || bool_decide (lit "CALDB" ∉ environ) = true) as ->.
  { apply orb_true_iff. rewrite !bool_decide_eq_true. done. }
  unfold sys_exit. by rewrite grow_grow.
Qed.

Lemma stage1_env_exit (environ : list str) (cfg_path : str)
    (jobs : Nupipeline.job_setting) (choices : list nat) (w : world) :
  lit "HEADAS" ∉ environ ∨ lit "CALDB" ∉ environ →
  Nupipeline.main environ cfg_path jobs choices w =
    (Exited (Message (Nupipeline.env_message (missing_vars environ))), w).
Proof.
  intros Henv. unfold Nupipeline.main, missing_vars.
  assert (filter (fun v => v ∉ environ) [lit "HEADAS"; lit "CALDB"] =
          (if bool_decide (lit "HEADAS" ∈ environ) then [] else [lit "HEADAS"])
          ++ (if bool_decide (lit "CALDB" ∈ environ) then [] else [lit "CALDB"]))
    as ->.
  { do 2 case_bool_decide.
    - rewrite !filter_cons_False by (intros H'; by apply H'). done.
    - rewrite filter_cons_False by (intros H'; by apply H').
      by rewrite filter_cons_True.
    - rewrite filter_cons_True by done.
      by rewrite filter_cons_False by (intros H'; by apply H').
    - by rewrite !filter_cons_True. }
  rewrite bool_decide_eq_false_2; [done|].
  do 2 case_bool_decide; try done. by destruct Henv.
Qed.

(** X7. The environment check. Stage 1 makes it first: with HEADAS or
    CALDB unset the process exits with the message naming the missing
    variables, in that order, before the configuration file is looked at,
    and the status is 1. Stage 2 makes it after both configuration files
    are read and parsed: the process then exits with its fixed message,
    status 1, having done nothing but the two reads. *)
Theorem env_check_order :
  (∀ (environ : list str) (cfg_path : str) (jobs : Nupipeline.job_setting)
     (choices : list nat) (w : world),
     lit "HEADAS" ∉ environ ∨ lit "CALDB" ∉ environ →
     let run := Nupipeline.main environ cfg_path jobs choices w in
     run = (Exited (Message (Nupipeline.env_message (missing_vars environ))), w)
     ∧ missing_vars environ ≠ []
     ∧ process_status (fst run) = 1)
  ∧ (∀ (environ : list str) (choices : list nat) (w : world)
       (rtext otext : str) (rcfg : region_cfg) (ocfg : obslist),
       fs_read_text (mkpath (lit "region_cfg.json")) (w_fs w) = Ok rtext →
       loads_region_cfg rtext = Some rcfg →
       fs_read_text (mkpath (lit "obslist.json")) (w_fs w) = Ok otext →
       loads_obslist otext = Some ocfg →
       lit "HEADAS" ∉ environ ∨ lit "CALDB" ∉ environ →
       let run := Nuproducts.main environ choices w in
       run = (Exited (Message Nuproducts.env_message),
              grow w (w_fs w)
                [EvReadText (mkpath (lit "region_cfg.json"));
                 EvReadText (mkpath (lit "obslist.json"))])
       ∧ process_status (fst run) = 1).
Proof.
  split.
  - intros environ cfg_path jobs choices w Henv. cbv zeta.
    rewrite (stage1_env_exit _ _ _ _ _ Henv). split; [done|]. split; [|done].
    unfold missing_vars. do 2 case_bool_decide; try done. by destruct Henv.
  - intros environ choices w rtext otext rcfg ocfg Hr Hrcfg Ho Hocfg Henv. cbv zeta.
    by rewrite (stage2_env_exit _ _ _ _ _ _ _ Hr Hrcfg Ho Hocfg Henv).
Qed.

End GridFacts.

(** ** Stage 2: empty grids and resumed runs *)

Section ResumeFacts.
Context `{PY : Platform} {JS : Json} {TL : Tools}.

Lemma make_tasks_length (ocfg : obslist) (rcfg : region_cfg) :
  length (Nuproducts.make_tasks ocfg rcfg) =
    (length (observations ocfg)
     * (2 * (length (src_radii_arcsec rcfg)
             * (length (bkg_annuli_arcsec rcfg) * length (bin_sizes_s rcfg)))))%nat.
Proof.
  unfold Nuproducts.make_tasks.
  apply flat_map_length_const. intros obs. cbn [flat_map].
  rewrite !length_app, !length_map, make_combos_length. cbn [length]. lia.
Qed.

Lemma as_completed_nil {X} (choices : list nat) :
  as_completed choices ([] : list X) = [].
Proof. by destruct choices. Qed.

(** X8. Stage 2: when the observation list or one of the three lists
    of the region configuration is empty there is no task; the process
    logs the request for 0 jobs and the success line, and exits with
    status 0 without touching the filesystem. *)
Theorem stage2_empty_grid (environ : list str) (choices : list nat)
    (w : world) (rtext otext : str) (rcfg : region_cfg) (ocfg : obslist) :
  fs_read_text (mkpath (lit "region_cfg.json")) (w_fs w) = Ok rtext →
  loads_region_cfg rtext = Some rcfg →
  fs_read_text (mkpath (lit "obslist.json")) (w_fs w) = Ok otext →
  loads_obslist otext = Some ocfg →
  lit "HEADAS" ∈ environ →
  lit "CALDB" ∈ environ →
  observations ocfg = [] ∨ src_radii_arcsec rcfg = []
    ∨ bkg_annuli_arcsec rcfg = [] ∨ bin_sizes_s rcfg = [] →
  Nuproducts.main environ choices w =
    (Exited (Code 0),
     grow w (w_fs w)
       [EvReadText (mkpath (lit "region_cfg.json"));
        EvReadText (mkpath (lit "obslist.json"));
        EvLog (LogQueuedJobs 0 (Z.max 1 (cpu_count / 2)));
        EvLog LogAllOk]).
Proof.
  intros Hr Hrcfg Ho Hocfg Hh Hc Hempty.
  rewrite (main2_run _ _ _ _ _ _ _ Hr Hrcfg Ho Hocfg Hh Hc).
  assert (Nuproducts.make_tasks ocfg rcfg = []) as ->.
  { apply length_zero_iff_nil. rewrite make_tasks_length.
    destruct Hempty as [ -> | [ -> | [ -> | -> ] ] ]; cbn [length]; lia. }
  rewrite bind_run. unfold Nuproducts.dispatch.
  rewrite as_completed_nil. cbn [for_each run_workers].
  rewrite !bind_run. cbn [ret]. rewrite !bind_run. cbn [ret].
  rewrite collect_all_run, grow_grow. cbn [flat_map app map].
  rewrite final_exit_run, grow_fs, grow_grow. done.
Qed.

(** What [mkdir] succeeds on depends only on the entries that are not
    directories. *)
Lemma mkdir_from_mono (done rest : path) (fs fs' fs2 : filesystem) :
  (∀ q n, fs2 !! q = Some n → n ≠ Dir → fs !! q = Some n) →
  mkdir_from done rest fs = Ok fs' →
  ∃ fs2', mkdir_from done rest fs2 = Ok fs2'.
Proof.
  revert done fs fs2. induction rest as [|c rest IH]; intros done fs fs2 Hsub Hmk.
  - by exists fs2.
  - cbn [mkdir_from] in *.
    assert (∀ g : filesystem,
              (∀ q n, fs2 !! q = Some n → n ≠ Dir → g !! q = Some n) →
              ∀ q n, <[done ++ [c] := Dir]> fs2 !! q = Some n → n ≠ Dir →
                     g !! q = Some n) as Hins.
    { intros g Hg q n Hq Hn.
      destruct (decide (q = done ++ [c])) as [->|Hne].
      - rewrite lookup_insert_eq in Hq. congruence.
      - rewrite lookup_insert_ne in Hq by done. by apply Hg. }
    assert (∀ n, fs2 !! (done ++ [c]) = n → (n = None ∨ n = Some Dir) →
              ∀ q m, fs2 !! q = Some m → m ≠ Dir →
                     <[done ++ [c] := Dir]> fs !! q = Some m) as Hnew.
    { intros n E2 Hn q m Hq Hm. rewrite lookup_insert_ne; [by apply Hsub|].
      intros <-. destruct Hn; congruence. }
    destruct (fs2 !! (done ++ [c])) as [[|r t|]|] eqn:E2.
    + destruct (fs !! (done ++ [c])) as [[|r t|]|] eqn:E; [| done | done |].
      * by apply (IH _ fs).
      * apply (IH _ (<[done ++ [c] := Dir]> fs)); [|done].
        apply (Hnew _ eq_refl); by right.
    + rewrite (Hsub _ _ E2) in Hmk; done.
    + rewrite (Hsub _ _ E2) in Hmk; done.
    + destruct (fs !! (done ++ [c])) as [[|r t|]|] eqn:E; [| done | done |].
      * apply (IH _ fs); [|done]. by apply Hins.
      * apply (IH _ (<[done ++ [c] := Dir]> fs)); [|done]. apply Hins.
        apply (Hnew _ eq_refl); by left.
Qed.

(** The entries after [mkdir] that are not directories were there before. *)
Lemma mkdir_p_files (p : path) (fs fs' : filesystem) (q : path) (n : node) :
  fs_mkdir_p p fs = Ok fs' → fs' !! q = Some n → n ≠ Dir → fs !! q = Some n.
Proof.
  intros Hmk Hq Hn. destruct (fs !! q) as [m|] eqn:E.
  - by rewrite (mkdir_p_keeps _ _ _ _ _ Hmk E) in Hq.
  - by destruct (mkdir_p_new _ _ _ _ _ Hmk E Hq).
Qed.

Lemma stage2_answer_kept (outdir : path) (fs fs' : filesystem) :
  (∀ q m, fs !! q = Some m → fs' !! q = Some m) →
  stage2_answer outdir fs = Done false → stage2_answer outdir fs' = Done false.
Proof.
  intros Hk (text & Hl & Hfin)%stage2_answer_complete.
  apply stage2_answer_complete. exists text. split; [|done].
  by apply (fs_lookup_kept _ fs).
Qed.

Lemma stage2_done_spec (fs : filesystem) (t : task) :
  stage2_done fs t = true ↔
  ∃ outdir fs1, stage2_outdir t = Some outdir
                ∧ fs_mkdir_p outdir fs = Ok fs1
                ∧ stage2_answer outdir fs = Done false.
Proof.
  unfold stage2_done. split.
  - destruct (stage2_outdir t) as [outdir|]; [|done].
    destruct (fs_mkdir_p outdir fs) as [fs1|] eqn:Hmk; [|done].
    destruct (stage2_answer outdir fs) as [[]| |] eqn:Hans; try done.
    intros _. by exists outdir, fs1.
  - intros (outdir & fs1 & -> & -> & ->). done.
Qed.

Lemma stage2_done_kept (p : path) (fs fs' : filesystem) (t : task) :
  fs_mkdir_p p fs = Ok fs' → stage2_done fs t = true → stage2_done fs' t = true.
Proof.
  intros Hmk (outdir & fs1 & Hout & Hmk1 & Hans)%stage2_done_spec.
  apply stage2_done_spec.
  destruct (mkdir_from_mono [] outdir fs fs1 fs') as [fs2 Hmk2]; [|done|].
  { intros q n. exact (mkdir_p_files _ _ _ q n Hmk). }
  exists outdir, fs2. split; [done|]. split; [done|].
  apply (stage2_answer_kept _ fs); [|done].
  intros q m. exact (mkdir_p_keeps _ _ _ q m Hmk).
Qed.

Lemma launch_done (t : task) (w : world) :
  stage2_done (w_fs w) t = true →
  ∃ outdir fs1,
    fs_mkdir_p outdir (w_fs w) = Ok fs1
    ∧ Nuproducts._launch t w =
        (Done (key_of t, 0),
         grow w fs1 (EvMkdir outdir :: stage2_query outdir fs1)).
Proof.
  intros (outdir & fs1 & Hout & Hmk & Hans)%stage2_done_spec.
  exists outdir, fs1. split; [done|].
  apply launch_short_circuit; [done..|].
  apply (stage2_answer_kept _ (w_fs w)); [|done].
  intros q m. exact (mkdir_p_keeps _ _ _ q m Hmk).
Qed.

(** The pool on units that are all complete. *)
Lemma run_workers_done (all order : list task) (w : world) :
  forallb (stage2_done (w_fs w)) all = true →
  (∀ t, t ∈ order → t ∈ all) →
  ∃ fs' evs,
    run_workers Nuproducts._launch order w =
      (Done (map (fun t => (t, inr (key_of t, 0))) order), grow w fs' evs)
    ∧ calls evs = []
    ∧ reports evs = []
    ∧ submitted2 evs = []
    ∧ (∀ q n, w_fs w !! q = Some n → fs' !! q = Some n).
Proof.
  revert w. induction order as [|t order IH]; intros w Hall Hin.
  - exists (w_fs w), []. by rewrite grow_nil.
  - cbn [run_workers]. rewrite bind_run.
    assert (stage2_done (w_fs w) t = true) as Ht.
    { rewrite forallb_forall in Hall. apply Hall, list_elem_of_In, Hin. left. }
    destruct (launch_done t w Ht) as (outdir & fs1 & Hmk & Hrun).
    unfold attempt at 1. rewrite Hrun.
    destruct (IH (grow w fs1 (EvMkdir outdir :: stage2_query outdir fs1)))
      as (fs' & evs & Hrest & Hc & Hrep & Hsub & Hk).
    { rewrite grow_fs. rewrite forallb_forall in Hall |- *.
      intros x Hx. by apply (stage2_done_kept outdir (w_fs w)), Hall. }
    { intros x Hx. apply Hin. by right. }
    rewrite bind_run, Hrest. cbn [ret map]. rewrite grow_grow.
    exists fs', ((EvMkdir outdir :: stage2_query outdir fs1) ++ evs).
    split; [done|].
    pose proof (stage2_query_worker outdir fs1) as Hq.
    split; [by rewrite calls_app, calls_prefix|].
    split; [rewrite reports_app, Hrep, app_nil_r;
            apply (worker_events_no_report (_ :: _)); by constructor|].
    split; [rewrite submitted2_app, Hsub, app_nil_r;
            apply (worker_events_no_submit2 (_ :: _)); by constructor|].
    intros q n Hq'. apply Hk. rewrite grow_fs.
    exact (mkdir_p_keeps _ _ _ q n Hmk Hq').
Qed.

Lemma calls_skip (e : event) (l : list event) :
  is_call e = false → calls (e :: l) = calls l.
Proof. by destruct e. Qed.

Lemma reports_skip (e : event) (l : list event) :
  (∀ r, e ≠ EvLog r) → reports (e :: l) = reports l.
Proof. intros H. destruct e; try done. by destruct (H r). Qed.

Lemma calls_submits2 (l : list task) : calls (map EvSubmit2 l) = [].
Proof. by induction l. Qed.

Lemma calls_logs {X} (f : X → record) (l : list X) :
  calls (map (fun x => EvLog (f x)) l) = [].
Proof. by induction l. Qed.

Lemma failure2_zero (l : list task) :
  flat_map failure2 (map (fun t => (t, inr (key_of t, 0))) l) = [].
Proof. induction l as [|[[[obs det] cfg] comb] l IH]; [done|]. apply IH. Qed.

(** X9. Stage 2, resumed: when every unit of the grid is complete on
    the filesystem the run starts, the process starts no tool, keeps
    every entry of the filesystem, logs one completed line per unit in
    completion order, and exits with status 0. *)
Theorem stage2_resume_all_done (environ : list str) (choices : list nat)
    (w : world) (rtext otext : str) (rcfg : region_cfg) (ocfg : obslist) :
  fs_read_text (mkpath (lit "region_cfg.json")) (w_fs w) = Ok rtext →
  loads_region_cfg rtext = Some rcfg →
  fs_read_text (mkpath (lit "obslist.json")) (w_fs w) = Ok otext →
  loads_obslist otext = Some ocfg →
  lit "HEADAS" ∈ environ →
  lit "CALDB" ∈ environ →
  forallb (stage2_done (w_fs w)) (Nuproducts.make_tasks ocfg rcfg) = true →
  let run := Nuproducts.main environ choices w in
  fst run = Exited (Code 0)
  ∧ calls (new_events w (snd run)) = []
  ∧ (∀ q n, w_fs w !! q = Some n → w_fs (snd run) !! q = Some n)
  ∧ reports (new_events w (snd run)) =
      map completed_line
        (as_completed choices (Nuproducts.make_tasks ocfg rcfg)).
Proof.
  intros Hr Hrcfg Ho Hocfg Hh Hc Hall. cbv zeta.
  rewrite (main2_run _ _ _ _ _ _ _ Hr Hrcfg Ho Hocfg Hh Hc).
  set (tasks := Nuproducts.make_tasks ocfg rcfg) in *.
  rewrite bind_run. unfold Nuproducts.dispatch.
  set (order := as_completed choices tasks).
  rewrite bind_run, for_each_emit, grow_fs, grow_grow.
  destruct (run_workers_done tasks order
              (grow w (w_fs w)
                 ([EvReadText (mkpath (lit "region_cfg.json"));
                   EvReadText (mkpath (lit "obslist.json"));
                   EvLog (LogQueuedJobs (length tasks) (Z.max 1 (cpu_count / 2)))]
                  ++ map EvSubmit2 tasks)))
    as (fs' & evs & Hrun & Hcalls & Hrep & Hsub & Hk).
  { by rewrite grow_fs. }
  { intros t Ht. by rewrite <- (as_completed_perm choices tasks). }
  rewrite bind_run, Hrun, collect_all_run, grow_fs, !grow_grow.
  rewrite failure2_zero.
  cbn [app]. rewrite final_exit_run, grow_fs, grow_grow. cbn [fst snd].
  rewrite new_events_grow, grow_fs. split; [done|].
  split; [|split].
  - rewrite !calls_app, !calls_skip by done.
    rewrite !calls_app, calls_submits2, Hcalls, calls_logs. done.
  - intros q n Hq. apply Hk. by rewrite grow_fs.
  - rewrite !reports_app, !reports_skip by done.
    rewrite (reports_cons (EvLog _)), !reports_app, reports_submits2, Hrep.
    rewrite reports_report2, map_map. cbn [reports omap is_report app].
    rewrite app_nil_r. apply map_ext. by intros [[[obs det] cfg] comb].
Qed.

End ResumeFacts.

(** ** Stage 2: every unit is launched *)

Section LaunchFacts.
Context `{PY : Platform} {TL : Tools}.










End LaunchFacts.

(** ** The exit status *)

Section StatusFacts.
Context `{PY : Platform} {JS : Json} {TL : Tools}.

Lemma failure2_count (futs : list (task * (exn + (str * detector * combo * Z)))) :
  length (flat_map failure2 futs) =
  length (filter (fun f => returned_zero f = false) futs).
Proof.
  induction futs as [|[[[[obs det] cfg] comb] [e|[[[oid detd] combd] rc]]] futs IH];
    [done| |].
  - rewrite filter_cons_True by done. cbn [flat_map failure2 app length].
    by rewrite IH.
  - cbn [flat_map failure2 returned_zero].
    destruct (rc =? 0) eqn:E; cbn [negb].
    + rewrite filter_cons_False by (cbn [returned_zero]; by rewrite E). apply IH.
    + rewrite filter_cons_True by (cbn [returned_zero]; by rewrite E).
      cbn [app length]. by rewrite IH.
Qed.

Lemma failure2_none (futs : list (task * (exn + (str * detector * combo * Z)))) :
  flat_map failure2 futs = [] ↔ forallb returned_zero futs = true.
Proof.
  induction futs as [|[[[[obs det] cfg] comb] [e|[[[oid detd] combd] rc]]] futs IH];
    [done| |].
  - done.
  - cbn [flat_map failure2 forallb returned_zero].
    destruct (rc =? 0); cbn [negb andb app]; [apply IH | done].
Qed.

(** X10. Stage 2: once the configuration is loaded and the environment
    is set, the process exits with status 0 and the success line when
    every future returned exit code 0; otherwise it exits with status 1,
    and its last line counts exactly the futures that raised or returned
    a non-zero code. *)
Theorem stage2_status_counts_failures (environ : list str) (choices : list nat)
    (w : world) (rtext otext : str) (rcfg : region_cfg) (ocfg : obslist) :
  fs_read_text (mkpath (lit "region_cfg.json")) (w_fs w) = Ok rtext →
  loads_region_cfg rtext = Some rcfg →
  fs_read_text (mkpath (lit "obslist.json")) (w_fs w) = Ok otext →
  loads_obslist otext = Some ocfg →
  lit "HEADAS" ∈ environ →
  lit "CALDB" ∈ environ →
  let run := Nuproducts.main environ choices w in
  let futs :=
    futures2 (Nuproducts.make_tasks ocfg rcfg) choices
      (grow w (w_fs w)
         [EvReadText (mkpath (lit "region_cfg.json"));
          EvReadText (mkpath (lit "obslist.json"));
          EvLog (LogQueuedJobs (length (Nuproducts.make_tasks ocfg rcfg))
                   (Z.max 1 (cpu_count / 2)))]) in
  (forallb returned_zero futs = true →
     fst run = Exited (Code 0)
     ∧ last (w_trace (snd run)) = Some (EvLog LogAllOk))
  ∧ (forallb returned_zero futs = false →
       fst run = Exited (Code 1)
       ∧ last (w_trace (snd run)) =
           Some (EvLog (LogTotalFailures
                          (length (filter (fun f => returned_zero f = false) futs))))).
Proof.
  intros Hr Hrcfg Ho Hocfg Hh Hc. cbv zeta.
  rewrite (main2_run _ _ _ _ _ _ _ Hr Hrcfg Ho Hocfg Hh Hc).
  set (w0 := grow w _ _). set (tasks := Nuproducts.make_tasks ocfg rcfg).
  destruct (dispatch2_run tasks choices w0) as (fs' & evs & Hrun & _ & _).
  rewrite bind_run, Hrun, final_exit_run. cbn [fst snd].
  rewrite grow_trace, last_snoc, failure2_count.
  split; intros Hz.
  - rewrite bool_decide_eq_true_2 by by apply failure2_none. done.
  - rewrite bool_decide_eq_false_2; [done|].
    rewrite failure2_none, Hz. done.
Qed.




End StatusFacts.

(** ** Stage 1: the planning loop *)

Section PlanningFacts.
Context `{PY : Platform} {JS : Json} {TL : Tools}.

Lemma queued_app (l1 l2 : list event) : queued (l1 ++ l2) = queued l1 ++ queued l2.
Proof. apply omap_app. Qed.

Lemma decided_app (l1 l2 : list event) : decided (l1 ++ l2) = decided l1 ++ decided l2.
Proof. apply omap_app. Qed.

Lemma submitted1_query (cfg : obslist) (obs : str) (fs : filesystem) :
  submitted1 (stage1_query cfg obs fs) = [] ∧ calls (stage1_query cfg obs fs) = []
  ∧ queued (stage1_query cfg obs fs) = [] ∧ decided (stage1_query cfg obs fs) = [].
Proof. unfold stage1_query. by destruct (fs_is_file _ fs) as [[]|]. Qed.

Lemma rmtree_sub (p q : path) (fs : filesystem) (n : node) :
  fs_rmtree p fs !! q = Some n → fs !! q = Some n.
Proof. unfold fs_rmtree. by intros [? _]%map_lookup_filter_Some. Qed.

Lemma rmtree_lost (p q : path) (fs : filesystem) (n : node) :
  fs !! q = Some n → fs_rmtree p fs !! q = None → p `prefix_of` q.
Proof.
  intros Hq Hgone. destruct (decide (p `prefix_of` q)) as [|Hn]; [done|].
  rewrite (rmtree_elsewhere _ _ _ Hn) in Hgone. congruence.
Qed.

(** Deleting never makes a unit look finished, nor a test raise. *)
Lemma stage1_answer_mono (cfg : obslist) (obs : str) (fs fs' : filesystem) :
  (∀ q n, fs' !! q = Some n → fs !! q = Some n) →
  stage1_answer cfg obs fs = Done true → stage1_answer cfg obs fs' = Done true.
Proof.
  intros Hsub. unfold stage1_answer, fs_is_file, fs_read_text, fs_lookup.
  destruct (Nupipeline.log_path_of cfg obs) as [|c p]; [done|].
  destruct (fs' !! (c :: p)) as [n|] eqn:E; [|done].
  by rewrite (Hsub _ _ E).
Qed.

Lemma permitted_spec (cfg : obslist) (obs : str) (fs : filesystem) :
  permitted cfg fs obs = true ↔
  fs_lookup (Nupipeline.log_path_of cfg obs) fs ≠ Some Denied
  ∧ fs_lookup (Nupipeline.outdir_of cfg obs) fs ≠ Some Denied
  ∧ rmtree_refused (Nupipeline.outdir_of cfg obs) fs = false.
Proof.
  unfold permitted, fs_is_file, fs_is_dir.
  destruct (fs_lookup (Nupipeline.log_path_of cfg obs) fs) as [[]|],
           (fs_lookup (Nupipeline.outdir_of cfg obs) fs) as [[]|];
    rewrite ?negb_true_iff; split; try done; try (by intros (? & ? & ?)).
Qed.

Lemma fs_lookup_sub (p : path) (fs fs' : filesystem) (n : node) :
  (∀ q m, fs' !! q = Some m → fs !! q = Some m) →
  fs_lookup p fs' = Some n → fs_lookup p fs = Some n.
Proof. destruct p; [done|]. simpl. auto. Qed.

Lemma permitted_mono (cfg : obslist) (obs : str) (fs fs' : filesystem) :
  (∀ q n, fs' !! q = Some n → fs !! q = Some n) →
  permitted cfg fs obs = true → permitted cfg fs' obs = true.
Proof.
  intros Hsub (Hlog & Hdir & Hfree)%permitted_spec. apply permitted_spec.
  split; [|split].
  - intros H. by apply Hlog, (fs_lookup_sub _ fs fs').
  - intros H. by apply Hdir, (fs_lookup_sub _ fs fs').
  - destruct (rmtree_refused (Nupipeline.outdir_of cfg obs) fs') eqn:E; [|done].
    apply rmtree_refused_spec in E as (q & Hp & Hq).
    assert (rmtree_refused (Nupipeline.outdir_of cfg obs) fs = true) as Hr
      by (apply rmtree_refused_spec; exists q; auto).
    congruence.
Qed.

(** A unit nothing is refused for gets its decision. *)
Lemma permitted_step (cfg : obslist) (obs : str) (wl : list str) (w : world) :
  permitted cfg (w_fs w) obs = true →
  ∃ wl', fst (plan_step cfg obs wl w) = Done wl'.
Proof.
  unfold permitted, plan_step, stage1_answer.
  destruct (fs_is_file _ (w_fs w)) as [[]|]; [| |done].
  - destruct (fs_is_dir _ (w_fs w)) as [[]|]; [| |done];
      destruct (fs_read_text _ (w_fs w)) as [text|];
      try destruct (negb (Nupipeline.finished_in _ _));
      try destruct (rmtree_refused _ (w_fs w)); try done; by eexists.
  - destruct (fs_is_dir _ (w_fs w)) as [[]|]; [| |done];
      try destruct (rmtree_refused _ (w_fs w)); try done; by eexists.
Qed.

(** One turn of the planning loop. *)
Lemma plan_step_run (cfg : obslist) (obs : str) (wl : list str) (w : world) :
  let outdir := Nupipeline.outdir_of cfg obs in
  ∃ fs1 evs,
    snd (plan_step cfg obs wl w) = grow w fs1 evs
    ∧ submitted1 evs = [] ∧ calls evs = []
    ∧ (∀ q n, fs1 !! q = Some n → w_fs w !! q = Some n)
    ∧ (∀ q n, w_fs w !! q = Some n → fs1 !! q = None →
              outdir `prefix_of` q
              ∧ (queued evs = [obs]
                 ∨ (fst (plan_step cfg obs wl w) = Raised OSError
                    ∧ last evs = Some (EvRmtree outdir))))
    ∧ match fst (plan_step cfg obs wl w) with
      | Done wl' =>
          wl' = wl ++ queued evs
          ∧ decided evs = [obs]
          ∧ match stage1_answer cfg obs (w_fs w) with
            | Done true => queued evs = [obs] ∧ fs1 !! outdir ≠ Some Dir
            | Done false =>
                queued evs = [] ∧ fs1 = w_fs w
                ∧ evs = skip_events cfg (w_fs w) obs
            | _ => False
            end
      | Raised e =>
          queued evs = [] ∧ decided evs = []
          ∧ ((fs1 = w_fs w
              ∧ (stage1_answer cfg obs (w_fs w) = Raised e
                 ∨ (stage1_answer cfg obs (w_fs w) = Done true
                    ∧ fs_is_dir outdir (w_fs w) = Raise e)))
             ∨ (e = OSError ∧ last evs = Some (EvRmtree outdir)
                ∧ rmtree_refused outdir (w_fs w) = true))
      | Exited _ => False
      end.
Proof.
  intros outdir. pose proof (plan_step_never_exits cfg obs wl w) as Hne.
  unfold plan_step in *. fold outdir in Hne |- *.
  destruct (submitted1_query cfg obs (w_fs w)) as (Hs & Hc & Hq & Hd).
  destruct (stage1_answer cfg obs (w_fs w)) as [[]|e|a] eqn:Hans.
  - destruct (fs_is_dir _ (w_fs w)) as [[]|e] eqn:Hdir;
      [destruct (rmtree_refused outdir (w_fs w)) eqn:Hrefused| |].
    + exists (fs_rmtree_stopped (rmtree_kept outdir (w_fs w)) outdir (w_fs w)),
        (stage1_query cfg obs (w_fs w) ++ [EvIsDir outdir; EvRmtree outdir]).
      cbn [fst snd].
      rewrite decided_app, submitted1_app, calls_app, queued_app, Hs, Hc, Hq, Hd.
      cbn [app decided submitted1 calls queued omap].
      assert (last (stage1_query cfg obs (w_fs w) ++ [EvIsDir outdir; EvRmtree outdir])
              = Some (EvRmtree outdir)) as Hlast
        by by rewrite last_app.
      split_and!; try done.
      * intros q n. apply stopped_sub.
      * intros q n Hq1 Hq2. split; [exact (stopped_lost _ _ _ _ _ Hq1 Hq2)|].
        by right.
      * by right.
    + exists (fs_rmtree outdir (w_fs w)),
        (stage1_query cfg obs (w_fs w)
           ++ [EvIsDir outdir; EvRmtree outdir; EvLog (LogQueued obs)]).
      cbn [fst snd].
      rewrite decided_app, submitted1_app, calls_app, queued_app, Hs, Hc, Hq, Hd.
      cbn [app decided submitted1 calls queued omap].
      split_and!; try done.
      * intros q n. apply rmtree_sub.
      * intros q n Hq1 Hq2. split; [exact (rmtree_lost _ _ _ _ Hq1 Hq2)|]. by left.
      * by rewrite rmtree_gone.
    + exists (w_fs w),
        (stage1_query cfg obs (w_fs w) ++ [EvIsDir outdir; EvLog (LogQueued obs)]).
      cbn [fst snd].
      rewrite decided_app, submitted1_app, calls_app, queued_app, Hs, Hc, Hq, Hd.
      cbn [app decided submitted1 calls queued omap].
      split_and!; try done.
      * intros q n Hq1 Hq2. congruence.
      * unfold fs_is_dir, fs_lookup in Hdir. subst outdir.
        destruct (Nupipeline.outdir_of cfg obs) as [|c p]; [done|].
        by destruct (w_fs w !! (c :: p)) as [[]|].
    + exists (w_fs w), (stage1_query cfg obs (w_fs w) ++ [EvIsDir outdir]).
      cbn [fst snd].
      rewrite decided_app, submitted1_app, calls_app, queued_app, Hs, Hc, Hq, Hd.
      cbn [app decided submitted1 calls queued omap].
      split_and!; try done; [|left; split; [done|by right]].
      intros q n Hq1 Hq2. congruence.
  - exists (w_fs w), (stage1_query cfg obs (w_fs w) ++ [EvLog (LogSkipped obs)]).
    cbn [fst snd].
    rewrite decided_app, submitted1_app, calls_app, queued_app, Hs, Hc, Hq, Hd.
    cbn [app decided submitted1 calls queued omap]. rewrite app_nil_r.
    split_and!; try done. intros q n Hq1 Hq2. congruence.
  - exists (w_fs w), (stage1_query cfg obs (w_fs w)). cbn [fst snd].
    split_and!; try done; [|left; split; [done|by left]].
    intros q n Hq1 Hq2. congruence.
  - by destruct (Hne a).
Qed.

(** The whole planning loop. *)
Lemma plan_run (obsids : list str) (cfg : obslist) (wl : list str) (w : world) :
  ∃ fs' evs,
    snd (Nupipeline.plan obsids cfg wl w) = grow w fs' evs
    ∧ submitted1 evs = [] ∧ calls evs = []
    ∧ (∀ q n, fs' !! q = Some n → w_fs w !! q = Some n)
    ∧ (∀ q n, w_fs w !! q = Some n → fs' !! q = None →
              ∃ obs, Nupipeline.outdir_of cfg obs `prefix_of` q
                     ∧ (obs ∈ queued evs
                        ∨ (fst (Nupipeline.plan obsids cfg wl w) = Raised OSError
                           ∧ last evs
                             = Some (EvRmtree (Nupipeline.outdir_of cfg obs)))))
    ∧ (∀ obs, obs ∈ queued evs →
              stage1_answer cfg obs fs' = Done true
              ∧ fs' !! Nupipeline.outdir_of cfg obs ≠ Some Dir)
    ∧ match fst (Nupipeline.plan obsids cfg wl w) with
      | Done wl' => wl' = wl ++ queued evs ∧ decided evs = obsids
      | Raised e =>
          ∃ obs rest,
            obsids = decided evs ++ obs :: rest
            ∧ (stage1_answer cfg obs fs' = Raised e
               ∨ (stage1_answer cfg obs fs' = Done true
                  ∧ fs_is_dir (Nupipeline.outdir_of cfg obs) fs' = Raise e)
               ∨ (e = OSError
                  ∧ last evs = Some (EvRmtree (Nupipeline.outdir_of cfg obs))))
      | Exited _ => False
      end.
Proof.
  revert wl w. induction obsids as [|obs rest IH]; intros wl w.
  - exists (w_fs w), []. rewrite grow_nil, app_nil_r. cbn [Nupipeline.plan ret fst snd].
    repeat (split; [done|]). split; [congruence|].
    split; [by intros obs Hin%elem_of_nil | done].
  - rewrite plan_cons.
    destruct (plan_step_run cfg obs wl w)
      as (fs1 & evs1 & Hw1 & Hs1 & Hc1 & Hsub1 & Hlost1 & Hend1).
    destruct (plan_step cfg obs wl w) as [[wl1|e|a] w1]; cbn [fst snd] in *;
      subst w1; [| |done].
    + destruct Hend1 as (-> & Hd1 & Hans1).
      destruct (IH (wl ++ queued evs1) (grow w fs1 evs1))
        as (fs' & evs & Hw & Hs & Hc & Hsub & Hlost & Hq & Hend).
      rewrite grow_fs in Hsub, Hlost. rewrite Hw, grow_grow.
      exists fs', (evs1 ++ evs). split; [done|].
      rewrite decided_app, submitted1_app, calls_app, Hd1, Hs1, Hs, Hc1, Hc.
      repeat (split; [done|]). split; [by auto|]. split; [|split].
      * intros q n Hq0 Hgone. rewrite queued_app.
        destruct (fs1 !! q) as [n1|] eqn:E1.
        -- destruct (Hlost q n1 E1 Hgone) as (o & Hp & [Ho|[Hr Hl]]).
           ++ exists o. split; [done|]. left. apply elem_of_app. by right.
           ++ exists o. split; [done|]. right. split; [done|].
              by rewrite last_app, Hl.
        -- destruct (Hlost1 q n Hq0 E1) as [Hp [Hq1|[Hr _]]]; [|done].
           exists obs. split; [done|]. left. apply elem_of_app. left.
           rewrite Hq1. by left.
      * intros o. rewrite queued_app. intros [Ho|Ho]%elem_of_app; [|by apply Hq].
        destruct (stage1_answer cfg obs (w_fs w)) as [[]|e|a] eqn:Hans; try done.
        -- destruct Hans1 as [Hq1 Hnd]. rewrite Hq1 in Ho.
           apply list_elem_of_singleton in Ho as ->. split.
           ++ apply (stage1_answer_mono _ _ (w_fs w)); [by auto | done].
           ++ intros Hdir. by apply Hnd, Hsub.
        -- destruct Hans1 as [Hq1 _]. rewrite Hq1 in Ho. by apply elem_of_nil in Ho.
      * destruct (fst (Nupipeline.plan rest cfg (wl ++ queued evs1) (grow w fs1 evs1)))
          as [wl'|e|a]; [| |done].
        -- destruct Hend as [-> <-]. by rewrite queued_app, app_assoc.
        -- destruct Hend as (o & rest' & -> & Ho). exists o, rest'.
           split; [by rewrite <- app_assoc|].
           destruct Ho as [Ho|[Ho|[-> Hl]]]; [by left | by right; left |].
           right; right. split; [done|]. by rewrite last_app, Hl.
    + destruct Hend1 as (Hq1 & Hd1 & Hwhy).
      exists fs1, evs1. rewrite Hq1, Hd1.
      split; [done|]. split; [done|]. split; [done|].
      split; [exact Hsub1|]. split; [|split].
      * intros q n Hq0 Hgone.
        destruct (Hlost1 q n Hq0 Hgone) as [Hp [Hq'|[[= ->] Hl]]]; [by rewrite Hq1 in Hq'|].
        exists obs. split; [done|]. by right.
      * by intros o Ho%elem_of_nil.
      * exists obs, rest. split; [done|].
        destruct Hwhy as [[-> [Ha|Ha]]|(-> & Hl & _)];
          [by left | by right; left | by right; right].
Qed.

(** Where nothing is refused, the loop returns. *)
Lemma plan_returns (obsids : list str) (cfg : obslist) (wl : list str) (w : world) :
  forallb (permitted cfg (w_fs w)) obsids = true →
  ∃ wl', fst (Nupipeline.plan obsids cfg wl w) = Done wl'.
Proof.
  revert wl w. induction obsids as [|obs rest IH]; intros wl w Hall;
    [by eexists|].
  cbn [forallb] in Hall. apply andb_true_iff in Hall as [Hobs Hrest].
  rewrite plan_cons.
  destruct (permitted_step cfg obs wl w Hobs) as [wl1 Hstep].
  destruct (plan_step_run cfg obs wl w) as (fs1 & evs1 & Hw1 & _ & _ & Hsub1 & _).
  destruct (plan_step cfg obs wl w) as [r w1]. cbn [fst snd] in *. subst r w1.
  apply IH. rewrite grow_fs. rewrite forallb_forall in Hrest |- *.
  intros o Ho. apply (permitted_mono _ _ (w_fs w)); [done|]. by apply Hrest.
Qed.

Lemma omap_sublist {X Y} (f g : X → option Y) (l : list X) :
  (∀ x y, f x = Some y → g x = Some y) → omap f l `sublist_of` omap g l.
Proof.
  intros Hfg. induction l as [|x l IH]; [constructor|].
  pose proof (Hfg x) as Hx. simpl.
  destruct (f x) as [y|], (g x) as [y'|].
  - specialize (Hx y eq_refl). injection Hx as ->. by constructor.
  - by specialize (Hx y eq_refl).
  - by constructor.
  - done.
Qed.

(** X12. Stage 1: the planning loop ends by returning its work list or
    by raising, never through [sys.exit]. Whichever way it ends, it has
    logged one decision, queued or skipped, for each candidate of an
    initial stretch of the candidates, in input order, the units logged
    as queued being an order-preserving selection of these; it has
    submitted nothing and started no process. When it returns, every
    candidate has its decision and the work list is the list it was given
    followed by the units logged as queued. When it raises, the candidate
    after the last decision is the one at which it stopped: its
    completion check raised that error, or the test of its output
    directory did, or the removal of that directory was refused, the
    removal being the last call made. It returns whenever nothing is
    refused for any candidate on the filesystem it starts from: neither
    of the two tests, nor the removal of the output directory. *)
Theorem plan_decides_each_unit_once (obsids : list str) (cfg : obslist)
    (wl : list str) (w : world) :
  let run := Nupipeline.plan obsids cfg wl w in
  let tr := new_events w (snd run) in
  let fs' := w_fs (snd run) in
  (∀ a, fst run ≠ Exited a)
  ∧ decided tr `prefix_of` obsids
  ∧ queued tr `sublist_of` decided tr
  ∧ submitted1 tr = []
  ∧ calls tr = []
  ∧ (∀ wl', fst run = Done wl' → wl' = wl ++ queued tr ∧ decided tr = obsids)
  ∧ (∀ e, fst run = Raised e →
       ∃ obs rest,
         obsids = decided tr ++ obs :: rest
         ∧ (stage1_answer cfg obs fs' = Raised e
            ∨ (stage1_answer cfg obs fs' = Done true
               ∧ fs_is_dir (Nupipeline.outdir_of cfg obs) fs' = Raise e)
            ∨ (e = OSError
               ∧ last tr = Some (EvRmtree (Nupipeline.outdir_of cfg obs)))))
  ∧ (forallb (permitted cfg (w_fs w)) obsids = true →
       fst run = Done (wl ++ queued tr) ∧ decided tr = obsids).
Proof.
  cbv zeta.
  pose proof (plan_returns obsids cfg wl w) as Hret.
  destruct (plan_run obsids cfg wl w)
    as (fs' & evs & Hw & Hs & Hc & _ & _ & _ & Hend).
  rewrite Hw, new_events_grow, grow_fs.
  destruct (fst (Nupipeline.plan obsids cfg wl w)) as [wl'|e|a]; [| |done].
  - destruct Hend as [-> Hd]. split_and!; try done.
    + by rewrite Hd.
    + apply omap_sublist. intros [] y; try done. by destruct r.
    + by intros wl' [= <-].
  - destruct Hend as (obs & rest & Hobs & Hwhy). split_and!; try done.
    + by exists (obs :: rest).
    + apply omap_sublist. intros [] y; try done. by destruct r.
    + intros e' [= <-]. by exists obs, rest.
    + intros Hall. by destruct (Hret Hall).
Qed.

(** X13. Stage 1: planning only deletes: every entry left was there
    before, unchanged, and every entry lost lay in the output directory
    of a unit logged as queued, or in the one whose removal was refused
    when that ended the planning. At the end of planning no queued unit
    has its output directory left as a directory, and the completion
    check still finds each of them unfinished. *)
Theorem planning_deletes_only_queued_dirs (obsids : list str) (cfg : obslist)
    (wl : list str) (w : world) :
  let run := Nupipeline.plan obsids cfg wl w in
  let tr := new_events w (snd run) in
  let fs' := w_fs (snd run) in
  (∀ q n, fs' !! q = Some n → w_fs w !! q = Some n)
  ∧ (∀ q n, w_fs w !! q = Some n → fs' !! q = None →
            ∃ obs, Nupipeline.outdir_of cfg obs `prefix_of` q
                   ∧ (obs ∈ queued tr
                      ∨ (fst run = Raised OSError
                         ∧ last tr = Some (EvRmtree (Nupipeline.outdir_of cfg obs)))))
  ∧ ((∀ e, fst run ≠ Raised e) →
     ∀ q n, w_fs w !! q = Some n → fs' !! q = None →
            ∃ obs, obs ∈ queued tr ∧ Nupipeline.outdir_of cfg obs `prefix_of` q)
  ∧ (∀ obs, obs ∈ queued tr →
            fs' !! Nupipeline.outdir_of cfg obs ≠ Some Dir
            ∧ stage1_answer cfg obs fs' = Done true).
Proof.
  cbv zeta.
  destruct (plan_run obsids cfg wl w) as (fs' & evs & -> & _ & _ & H1 & H2 & H3 & _).
  rewrite new_events_grow, grow_fs.
  split; [done|]. split; [done|]. split.
  - intros Hnr q n Hq Hgone.
    destruct (H2 q n Hq Hgone) as (obs & Hp & [Ho|[Hr _]]); [by exists obs|].
    by destruct (Hnr OSError).
  - intros obs Ho. by destruct (H3 obs Ho).
Qed.

End PlanningFacts.

(** ** Stage 1: the whole run *)

Section Stage1Facts.
Context `{PY : Platform} {JS : Json} {TL : Tools}.

Lemma plan_all_done (obsids : list str) (cfg : obslist) (wl : list str) (w : world) :
  forallb (stage1_done cfg (w_fs w)) obsids = true →
  Nupipeline.plan obsids cfg wl w =
  (Done wl, grow w (w_fs w) (flat_map (skip_events cfg (w_fs w)) obsids)).
Proof.
  revert w. induction obsids as [|obs rest IH]; intros w Hall.
  - cbn [Nupipeline.plan flat_map]. by rewrite grow_nil.
  - cbn [forallb] in Hall. apply andb_true_iff in Hall as [Hobs Hrest].
    rewrite plan_cons. unfold stage1_done in Hobs. unfold plan_step.
    destruct (stage1_answer cfg obs (w_fs w)) as [[]| |]; try done.
    rewrite IH by by rewrite grow_fs.
    by rewrite grow_fs, grow_grow.
Qed.

(** X14. Stage 1: when every observation of the list is finished, the
    process checks each one, logs it as skipped, logs that there is
    nothing to do and returns; it leaves the filesystem as it was and
    creates no pool, so that even a worker count below 1 goes unnoticed. *)
Theorem stage1_nothing_to_do (environ : list str) (cfg_path : str)
    (jobs : Nupipeline.job_setting) (choices : list nat) (w : world)
    (text : str) (cfg : obslist) (mw : Z) :
  lit "HEADAS" ∈ environ →
  lit "CALDB" ∈ environ →
  fs_read_text (mkpath cfg_path) (w_fs w) = Ok text →
  loads_obslist text = Some cfg →
  worker_count jobs = Some mw →
  forallb (stage1_done cfg (w_fs w)) (observations cfg) = true →
  Nupipeline.main environ cfg_path jobs choices w =
  (Done tt,
   grow w (w_fs w)
     ([EvExists (mkpath cfg_path); EvReadText (mkpath cfg_path);
       EvLog (LogRequest (length (observations cfg)) mw)]
      ++ flat_map (skip_events cfg (w_fs w)) (observations cfg)
      ++ [EvLog LogNothingToDo])).
Proof.
  intros Hh Hc Hread Hcfg Hmw Hall.
  rewrite (main1_run _ _ _ _ _ _ _ _ Hh Hc Hread Hcfg Hmw).
  rewrite bind_run, plan_all_done by by rewrite grow_fs.
  rewrite bool_decide_eq_true_2 by done.
  by rewrite logging_run, !grow_fs, !grow_grow.
Qed.

(** X15. Stage 1, the [-j] option. A value [int()] refuses raises
    [ValueError] right after the configuration is read, before the
    request is logged and before planning. A worker count below 1 is
    refused by the pool only: when there is work to do the process raises
    [ValueError] after the planning loop has run, partial output
    directories wiped, and nothing is submitted. *)
Theorem stage1_bad_worker_count :
  (∀ (environ : list str) (cfg_path : str) (choices : list nat) (w : world)
     (text : str) (cfg : obslist),
     lit "HEADAS" ∈ environ →
     lit "CALDB" ∈ environ →
     fs_read_text (mkpath cfg_path) (w_fs w) = Ok text →
     loads_obslist text = Some cfg →
     Nupipeline.main environ cfg_path (Nupipeline.JInt None) choices w =
     (Raised ValueError,
      grow w (w_fs w) [EvExists (mkpath cfg_path); EvReadText (mkpath cfg_path)]))
  ∧ (∀ (environ : list str) (cfg_path : str) (jobs : Nupipeline.job_setting)
       (choices : list nat) (w : world) (text : str) (cfg : obslist) (mw : Z)
       (worklist : list str) (w_p : world),
       lit "HEADAS" ∈ environ →
       lit "CALDB" ∈ environ →
       fs_read_text (mkpath cfg_path) (w_fs w) = Ok text →
       loads_obslist text = Some cfg →
       worker_count jobs = Some mw →
       mw ≤ 0 →
       Nupipeline.plan (observations cfg) cfg []
         (grow w (w_fs w)
            [EvExists (mkpath cfg_path); EvReadText (mkpath cfg_path);
             EvLog (LogRequest (length (observations cfg)) mw)])
         = (Done worklist, w_p) →
       worklist ≠ [] →
       Nupipeline.main environ cfg_path jobs choices w = (Raised ValueError, w_p)).
Proof.
  split.
  - intros environ cfg_path choices w text cfg Hh Hc Hread Hcfg.
    unfold Nupipeline.main.
    assert (filter (fun v => v ∉ environ) [lit "HEADAS"; lit "CALDB"] = []) as ->.
    { rewrite filter_cons_False by (intros H; by apply H).
      rewrite filter_cons_False by (intros H; by apply H). done. }
    rewrite bool_decide_eq_true_2 by done. cbn [negb].
    rewrite bind_run, exists_run, (read_text_exists _ _ _ Hread). cbn [negb].
    rewrite bind_run, read_text_run, grow_fs, Hread, Hcfg. cbn [lift_opt].
    rewrite bind_run. cbn [ret]. rewrite bind_run. cbn [lift_opt raise].
    by rewrite grow_grow.
  - intros environ cfg_path jobs choices w text cfg mw worklist w_p
      Hh Hc Hread Hcfg Hmw Hle Hplan Hne.
    rewrite (main1_run _ _ _ _ _ _ _ _ Hh Hc Hread Hcfg Hmw).
    rewrite bind_run, Hplan. rewrite bool_decide_eq_false_2 by done.
    unfold Nupipeline.dispatch. rewrite bind_run.
    by rewrite (proj2 (Z.leb_le mw 0) Hle).
Qed.

Lemma launch_one_command (obs : str) (cfg : obslist) (w : world) :
  Nupipeline._launch_one (obs, cfg) w =
  match nupipe_one_sh (nupipe_command cfg obs) (w_fs w) with
  | inr (rc, fs') =>
      (Done (obs, rc), grow w fs' [EvCall (nupipe_command cfg obs) (Some rc)])
  | inl e => (Raised e, grow w (w_fs w) [EvCall (nupipe_command cfg obs) None])
  end.
Proof.
  unfold Nupipeline._launch_one, nupipe_command.
  rewrite bind_run, subprocess_call_run.
  by destruct (nupipe_one_sh _ (w_fs w)) as [e|[rc fs']].
Qed.

Lemma calls_call (cmd : list str) (rc : option Z) (l : list event) :
  calls (EvCall cmd rc :: l) = (cmd, rc) :: calls l.
Proof. reflexivity. Qed.

Lemma run_launch_one (order : list str) (cfg : obslist) (w : world) :
  ∃ fs' evs futs,
    run_workers (fun obs => Nupipeline._launch_one (obs, cfg)) order w
      = (Done futs, grow w fs' evs)
    ∧ map fst (calls evs) = map (nupipe_command cfg) order
    ∧ evs = map (fun c => EvCall c.1 c.2) (calls evs).
Proof.
  revert w. induction order as [|obs order IH]; intros w.
  - exists (w_fs w), [], []. by rewrite grow_nil.
  - cbn [run_workers]. rewrite bind_run. unfold attempt at 1.
    rewrite launch_one_command.
    destruct (nupipe_one_sh _ (w_fs w)) as [e|[rc fs1]].
    + destruct (IH (grow w (w_fs w) [EvCall (nupipe_command cfg obs) None]))
        as (fs' & evs & futs & Hrun & Hc & He).
      rewrite bind_run, Hrun. cbn [ret]. rewrite grow_grow.
      exists fs', (EvCall (nupipe_command cfg obs) None :: evs), ((obs, inl e) :: futs).
      split; [done|]. rewrite calls_call. cbn [map fst snd].
      by rewrite Hc, <- He.
    + destruct (IH (grow w fs1 [EvCall (nupipe_command cfg obs) (Some rc)]))
        as (fs' & evs & futs & Hrun & Hc & He).
      rewrite bind_run, Hrun. cbn [ret]. rewrite grow_grow.
      exists fs', (EvCall (nupipe_command cfg obs) (Some rc) :: evs),
        ((obs, inr (obs, rc)) :: futs).
      split; [done|]. rewrite calls_call. cbn [map fst snd].
      by rewrite Hc, <- He.
Qed.

Lemma report_loop_logs (futs : list (str * (exn + (str * Z)))) (w : world) :
  ∃ logs, snd (for_each futs Nupipeline.report w)
          = grow w (w_fs w) (map EvLog logs).
Proof.
  destruct (forallb returned futs) eqn:Hret.
  - eexists. by rewrite report_run.
  - destruct (first_raised _ Hret) as (ok & u & e & rest & -> & Hok).
    eexists. by rewrite report_stops.
Qed.

Lemma calls_submits1 (l : list str) : calls (map EvSubmit1 l) = [].
Proof. by induction l. Qed.

Lemma calls_log_list (l : list record) : calls (map EvLog l) = [].
Proof. by induction l. Qed.

Lemma dispatch_calls (mw : Z) (worklist : list str) (cfg : obslist)
    (choices : list nat) (w : world) :
  0 < mw →
  map fst (calls (new_events w (snd (Nupipeline.dispatch mw worklist cfg choices w))))
  = map (nupipe_command cfg) (as_completed choices worklist).
Proof.
  intros Hmw. unfold Nupipeline.dispatch. rewrite bind_run.
  rewrite (proj2 (Z.leb_gt mw 0) Hmw). cbn [ret].
  rewrite bind_run, for_each_emit.
  destruct (run_launch_one (as_completed choices worklist) cfg
              (grow w (w_fs w) (map EvSubmit1 worklist)))
    as (fs' & evs & futs & Hrun & Hc & _).
  rewrite bind_run, Hrun, grow_grow.
  destruct (report_loop_logs futs (grow w fs' (map EvSubmit1 worklist ++ evs)))
    as [logs ->].
  rewrite ?grow_fs, grow_grow, new_events_grow.
  by rewrite !calls_app, calls_submits1, calls_log_list, app_nil_r.
Qed.

(** X16. Stage 1: with a valid worker count, the dispatch calls
    nupipe_one.sh exactly once per unit of the work list, with the unit's
    id, the two base directories, and "no" and the empty string when the
    configuration has no clobber or extra_args key; this holds whether or
    not some call raises or exits non-zero. *)
Theorem stage1_one_call_per_unit (mw : Z) (worklist : list str) (cfg : obslist)
    (choices : list nat) (w : world) :
  0 < mw →
  map fst (calls (new_events w (snd (Nupipeline.dispatch mw worklist cfg choices w))))
  ≡ₚ map (nupipe_command cfg) worklist.
Proof.
  intros Hmw. rewrite (dispatch_calls _ _ _ _ _ Hmw).
  apply Permutation_map, as_completed_perm.
Qed.

End Stage1Facts.

(** ** Broken configurations, and the run against its log *)

Section ConfigFacts.
Context `{PY : Platform} {JS : Json} {TL : Tools}.

(** X17. A configuration that is there and cannot be used. Stage 1:
    when the file exists and cannot be read, or is not a JSON document,
    [main] raises the error of the read, or [ValueError], after the
    existence test and the read alone. Stage 2: a region or observation
    file that is not a JSON document makes [main] raise [ValueError]
    after the reads made so far, before the environment check. *)
Theorem broken_config_raises :
  (∀ (environ : list str) (cfg_path : str) (jobs : Nupipeline.job_setting)
     (choices : list nat) (w : world),
     lit "HEADAS" ∈ environ →
     lit "CALDB" ∈ environ →
     fs_exists (mkpath cfg_path) (w_fs w) = Ok true →
     match fs_read_text (mkpath cfg_path) (w_fs w) with
     | Ok text => loads_obslist text = None
     | Raise _ => True
     end →
     let run := Nupipeline.main environ cfg_path jobs choices w in
     fst run = Raised (match fs_read_text (mkpath cfg_path) (w_fs w) with
                       | Ok _ => ValueError
                       | Raise e => e
                       end)
     ∧ snd run =
         grow w (w_fs w) [EvExists (mkpath cfg_path); EvReadText (mkpath cfg_path)])
  ∧ (∀ (environ : list str) (choices : list nat) (w : world) (rtext : str),
       fs_read_text (mkpath (lit "region_cfg.json")) (w_fs w) = Ok rtext →
       loads_region_cfg rtext = None →
       Nuproducts.main environ choices w =
       (Raised ValueError,
        grow w (w_fs w) [EvReadText (mkpath (lit "region_cfg.json"))]))
  ∧ (∀ (environ : list str) (choices : list nat) (w : world)
       (rtext otext : str) (rcfg : region_cfg),
       fs_read_text (mkpath (lit "region_cfg.json")) (w_fs w) = Ok rtext →
       loads_region_cfg rtext = Some rcfg →
       fs_read_text (mkpath (lit "obslist.json")) (w_fs w) = Ok otext →
       loads_obslist otext = None →
       Nuproducts.main environ choices w =
       (Raised ValueError,
        grow w (w_fs w)
          [EvReadText (mkpath (lit "region_cfg.json"));
           EvReadText (mkpath (lit "obslist.json"))])).
Proof.
  split; [|split].
  - intros environ cfg_path jobs choices w Hh Hc Hex Hbad. cbv zeta.
    unfold Nupipeline.main.
    assert (filter (fun v => v ∉ environ) [lit "HEADAS"; lit "CALDB"] = []) as ->.
    { rewrite filter_cons_False by (intros H; by apply H).
      rewrite filter_cons_False by (intros H; by apply H). done. }
    rewrite bool_decide_eq_true_2 by done. cbn [negb].
    rewrite bind_run, exists_run, Hex. cbn [negb].
    rewrite bind_run, read_text_run, grow_fs.
    destruct (fs_read_text (mkpath cfg_path) (w_fs w)) as [text|e].
    + rewrite bind_run, Hbad. cbn [lift_opt raise fst snd]. by rewrite !grow_grow.
    + cbn [fst snd]. by rewrite !grow_grow.
  - intros environ choices w rtext Hr Hrcfg. unfold Nuproducts.main.
    rewrite bind_run, read_text_run, Hr. by rewrite bind_run, Hrcfg.
  - intros environ choices w rtext otext rcfg Hr Hrcfg Ho Hocfg.
    unfold Nuproducts.main.
    rewrite bind_run, read_text_run, Hr, Hrcfg. cbn [lift_opt].
    rewrite bind_run. cbn [ret].
    rewrite bind_run, read_text_run, grow_fs, Ho.
    rewrite bind_run, Hocfg. cbn [lift_opt raise]. by rewrite grow_grow.
Qed.

Lemma queued_workers (evs : list event) :
  Forall (fun e => is_worker_event e = true) evs → queued evs = [].
Proof.
  intros H. apply omap_none. eapply Forall_impl; [exact H|]. by intros [].
Qed.

Lemma queued_submits1 (l : list str) : queued (map EvSubmit1 l) = [].
Proof. by induction l. Qed.

Lemma queued_reports (l : list record) :
  Forall (fun r => is_report r = true) l → queued (map EvLog l) = [].
Proof.
  intros H. apply omap_none, Forall_map. eapply Forall_impl; [exact H|].
  by intros [].
Qed.

Lemma report_loop_reports (futs : list (str * (exn + (str * Z)))) (w : world) :
  ∃ logs, snd (for_each futs Nupipeline.report w)
          = grow w (w_fs w) (map EvLog logs)
          ∧ Forall (fun r => is_report r = true) logs.
Proof.
  destruct (forallb returned futs) eqn:Hret.
  - eexists. rewrite report_run by done. split; [done|]. apply report1_of_reports.
  - destruct (first_raised _ Hret) as (ok & u & e & rest & -> & Hok).
    eexists. rewrite report_stops by done. split; [done|]. apply report1_of_reports.
Qed.

Lemma submitted1_reports (l : list record) : submitted1 (map EvLog l) = [].
Proof. by induction l. Qed.

(** X18. Stage 1, a whole run with the environment set, the
    configuration loaded, a valid worker count, and none of the planner's
    tests refused: the units submitted to the pool are the units logged
    as queued, in that order; the units a decision was logged for are the
    observations of the list, in order; and the commands called are those
    of the queued units, one call each. *)
Theorem stage1_submits_what_it_logs_queued (environ : list str) (cfg_path : str)
    (jobs : Nupipeline.job_setting) (choices : list nat) (w : world)
    (text : str) (cfg : obslist) (mw : Z) :
  lit "HEADAS" ∈ environ →
  lit "CALDB" ∈ environ →
  fs_read_text (mkpath cfg_path) (w_fs w) = Ok text →
  loads_obslist text = Some cfg →
  worker_count jobs = Some mw →
  0 < mw →
  forallb (permitted cfg (w_fs w)) (observations cfg) = true →
  let tr := new_events w (snd (Nupipeline.main environ cfg_path jobs choices w)) in
  submitted1 tr = queued tr
  ∧ decided tr = observations cfg
  ∧ map fst (calls tr) ≡ₚ map (nupipe_command cfg) (queued tr).
Proof.
  intros Hh Hc Hread Hcfg Hmw Hpos Hall. cbv zeta.
  rewrite (main1_run _ _ _ _ _ _ _ _ Hh Hc Hread Hcfg Hmw).
  set (pre := [EvExists _; _; _]).
  destruct (plan_run (observations cfg) cfg [] (grow w (w_fs w) pre))
    as (fs' & evs & Hw & Hs & Hcl & _ & _ & _ & Hend).
  destruct (plan_returns (observations cfg) cfg [] (grow w (w_fs w) pre))
    as [wl' Hwl']; [by rewrite grow_fs|].
  rewrite Hwl' in Hend. destruct Hend as [-> Hd].
  assert (Nupipeline.plan (observations cfg) cfg [] (grow w (w_fs w) pre)
          = (Done (queued evs), grow (grow w (w_fs w) pre) fs' evs))
    as Hplan.
  { rewrite (surjective_pairing (Nupipeline.plan _ _ _ _)). by rewrite Hwl', Hw. }
  rewrite bind_run, Hplan, grow_grow.
  assert (submitted1 pre = [] ∧ queued pre = [] ∧ decided pre = [] ∧ calls pre = [])
    as (Hp1 & Hp2 & Hp3 & Hp4) by done.
  case_bool_decide as Hwl.
  - rewrite logging_run, grow_fs, grow_grow. cbn [snd].
    rewrite new_events_grow, !submitted1_app, !queued_app, !decided_app, !calls_app.
    rewrite Hp1, Hp2, Hp3, Hp4, Hs, Hd, Hcl, Hwl. cbn [app].
    split; [done|]. split; [by rewrite app_nil_r|].
    done.
  - unfold Nupipeline.dispatch. rewrite bind_run.
    rewrite (proj2 (Z.leb_gt mw 0) Hpos). cbn [ret].
    rewrite bind_run, for_each_emit, grow_fs, grow_grow.
    destruct (run_launch_one (as_completed choices (queued evs)) cfg
                (grow w fs' ((pre ++ evs) ++ map EvSubmit1 (queued evs))))
      as (fs2 & evs2 & futs & Hrun & Hc2 & He2).
    rewrite bind_run, Hrun, grow_grow.
    destruct (report_loop_reports futs
                (grow w fs2 (((pre ++ evs) ++ map EvSubmit1 (queued evs)) ++ evs2)))
      as (logs & -> & Hlogs).
    rewrite grow_fs, grow_grow, new_events_grow.
    assert (submitted1 evs2 = [] ∧ queued evs2 = [] ∧ decided evs2 = []) as (H1 & H2 & H3).
    { rewrite He2. generalize (calls evs2). intros l. by induction l. }
    assert (decided (map EvLog logs) = []) as H4.
    { apply omap_none, Forall_map. eapply Forall_impl; [exact Hlogs|]. by intros []. }
    assert (decided (map EvSubmit1 (queued evs)) = []) as H5
      by (generalize (queued evs); intros l; by induction l).
    rewrite !submitted1_app, !queued_app, !decided_app, !calls_app.
    rewrite Hp1, Hp2, Hp3, Hp4, Hs, Hd, Hcl, H1, H2, H3, H4, H5.
    rewrite submitted1_submits, queued_submits1, (queued_reports _ Hlogs).
    rewrite submitted1_reports, calls_submits1, calls_log_list.
    cbn [app]. rewrite !app_nil_r. split; [done|]. split; [done|].
    rewrite Hc2. apply Permutation_map, as_completed_perm.
Qed.

End ConfigFacts.

(** * The theorems on concrete runs *)

Module Runs.
Import Scenario.
#[local] Existing Instances python documents shell.

(** Closed goals are settled by evaluation: an equation by comparing
    the two values, a decidable statement through its decision. *)
Ltac compute_eq :=
  lazymatch goal with |- ?a = ?b => vm_cast_no_check (@eq_refl _ b) end.

Ltac compute_in :=
  lazymatch goal with |- ?P => refine (@bool_decide_eq_true_1 P _ _) end;
  compute_eq.

Ltac decide_goal :=
  lazymatch goal with
  | |- _ = _ => compute_eq
  | |- _ => compute_in
  end.

(** C1: the first stage-1 run, where 102 exits with code 2. *)
Lemma C1_stage1_counterexample :
  let run := Nupipeline.main environ_ok (lit "obslist.json") Nupipeline.JAuto []
               (start files_102_fails) in
  failures1 (w_trace (snd run)) = [(lit "102", 2)]
  ∧ process_status (fst run) = 0
  ∧ ¬ (process_status (fst run) = 0 ↔ failures1 (w_trace (snd run)) = []).
Proof.
  cbv zeta.
  assert (failures1
            (w_trace
               (snd (Nupipeline.main environ_ok (lit "obslist.json")
                       Nupipeline.JAuto [] (start files_102_fails))))
          = [(lit "102", 2)]) as Hf by compute_eq.
  assert (process_status
            (fst (Nupipeline.main environ_ok (lit "obslist.json")
                    Nupipeline.JAuto [] (start files_102_fails))) = 0)
    as Hs by compute_eq.
  split; [exact Hf|]. split; [exact Hs|].
  intros [H _]. specialize (H Hs). rewrite Hf in H. discriminate.
Qed.

Lemma C1_witness :
  process_status (fst (Nuproducts.main environ_ok [] (start files_stage2))) = 0
  ∧ process_status
      (fst (Nupipeline.main environ_ok (lit "obslist.json") Nupipeline.JAuto [1%nat]
              (start files_102_fails))) = 0.
Proof.
  destruct (@C1_exit_status python documents shell) as [H2 H1]. split.
  - destruct (H2 environ_ok [] (start files_stage2) region_text obslist_one_text
                region obslist_one) as (failures & Hf & _ & Hiff & _);
      [compute_eq | compute_eq | compute_eq | compute_eq
      | compute_in | compute_in |].
    apply Hiff. rewrite Hf. compute_eq.
  - refine (proj2 (H1 environ_ok (lit "obslist.json") Nupipeline.JAuto [1%nat]
                     (start files_102_fails) obslist_two_text obslist_two 4
                     [lit "101"; lit "102"]
                     (snd (Nupipeline.plan (observations obslist_two) obslist_two []
                             (grow (start files_102_fails)
                                (w_fs (start files_102_fails))
                                [EvExists (P "obslist.json");
                                 EvReadText (P "obslist.json");
                                 EvLog (LogRequest 2 4)])))
                     _ _ _ _ _ _ _ _));
      decide_goal.
Defined.

Lemma C2_witness :
  ∃ r text,
    fs_lookup (Nuproducts.log_of outdir_A)
      (w_fs (snd (Nuproducts._launch task_A (start files_stage2))))
    = Some (File r (text ++ 10%N :: lit "nuproducts done" ++ [10%N])).
Proof.
  assert (fst (Nuproducts._launch task_A (start files_stage2))
          = Done (key_of task_A, 0)) as Hd by compute_eq.
  assert (stage2_outdir task_A = Some outdir_A) as Ho by compute_eq.
  assert (length (Nuproducts.log_of outdir_A) = 4%nat) as Hlen by compute_eq.
  assert (Nuproducts.log_of outdir_A ≠ []) as Hne
    by (intros E; rewrite E in Hlen; discriminate).
  destruct (@C2_marker_only_after_zero_exit python shell task_A
              (start files_stage2) cmd_A 0)
    as (outdir & before & fs_before & fs_tool & Hout & _ & _ & _ & _ & _ & _ & _ & Hz);
    [apply calls_elem; compute_in|].
  rewrite Ho in Hout. injection Hout as <-. specialize (Hz eq_refl).
  destruct (fs_lookup (Nuproducts.log_of outdir_A) fs_tool) as [[|r text|]|].
  - destruct Hz as [Hz _]. rewrite Hd in Hz. discriminate.
  - destruct Hz as [_ ->]. exists r, text. exact (fs_lookup_insert _ _ _ Hne).
  - destruct Hz as [Hz _]. rewrite Hd in Hz. discriminate.
  - destruct (parent_is_dir (Nuproducts.log_of outdir_A) fs_tool).
    + destruct Hz as [_ ->]. exists true, []. exact (fs_lookup_insert _ _ _ Hne).
    + destruct Hz as [Hz _]. rewrite Hd in Hz. discriminate.
Defined.

(** C3: stage 2, with the products of detector A complete: the check
    answers complete, and the unit is submitted all the same. *)
Lemma C3_stage2_counterexample :
  let w := start files_stage2_done in
  let run := Nuproducts.main environ_ok [] w in
  stage2_outdir task_A = Some outdir_A
  ∧ stage2_answer outdir_A (w_fs w) = Done false
  ∧ head (submitted2 (w_trace (snd run))) = Some task_A
  ∧ length (submitted2 (w_trace (snd run))) = 2%nat.
Proof.
  cbv zeta. split; [compute_eq|]. split; [compute_eq|]. split; compute_eq.
Qed.

Lemma C3_witness :
  fst (Nupipeline.plan [lit "101"] obslist_two [] (start files_resume)) = Done []
  ∧ fst (Nuproducts._launch task_A (start files_stage2_done))
    = Done (key_of task_A, 0).
Proof.
  destruct (@C3_check_before_dispatch python shell) as (Hplan & _ & _ & Hlaunch).
  split.
  - pose proof (Hplan obslist_two [] (lit "101") [] (start files_resume) []
                  (start files_resume) eq_refl) as H.
    cbv zeta in H. destruct H as (_ & _ & _ & Hskip & _).
    destruct Hskip as [Hrun _]; [compute_eq|]. exact Hrun.
  - refine (proj1 (Hlaunch task_A (start files_stage2_done) outdir_A
                     (w_fs (start files_stage2_done)) _ _ _)); compute_eq.
Defined.

(** C4: stage 1, the first id ends with a NUL character: its call
    raises, the other unit runs to exit code 0, and no outcome at all is
    reported. *)
Lemma C4_stage1_counterexample :
  let run := Nupipeline.main environ_ok (lit "obslist.json") Nupipeline.JAuto []
               (start files_nul) in
  submitted1 (w_trace (snd run)) = [lit "101" ++ [0%N]; lit "102"]
  ∧ (∃ cmd, EvCall cmd (Some 0) ∈ w_trace (snd run))
  ∧ reports (w_trace (snd run)) = []
  ∧ fst run = Raised ValueError.
Proof.
  cbv zeta. split; [compute_eq|]. split; [|split; compute_eq].
  exists [lit "./nupipe_one.sh"; lit "102"; lit "in"; lit "out"; lit "no"; []].
  apply calls_elem. compute_in.
Qed.

Lemma C4_witness :
  length
    (reports
       (new_events (start files_102_fails)
          (snd (Nupipeline.dispatch 4 [lit "101"; lit "102"] obslist_two [1%nat]
                  (start files_102_fails))))) = 2%nat.
Proof.
  destruct (@C4_one_outcome_per_unit python shell) as [_ H1].
  refine (proj2 (proj2 (proj2
            (H1 4 [lit "101"; lit "102"] obslist_two [1%nat]
               (start files_102_fails) _ _)))); decide_goal.
Defined.

(** C5: stage 1 without the script: the call raises and the exception
    leaves the dispatch loop and the process. *)
Lemma C5_stage1_counterexample :
  let w := start files_no_script in
  fst (Nupipeline.dispatch 4 [lit "101"; lit "102"] obslist_two [] w)
    = Raised OSError
  ∧ fst (Nupipeline.main environ_ok (lit "obslist.json") Nupipeline.JAuto [] w)
    = Raised OSError
  ∧ reports
      (w_trace
         (snd (Nupipeline.main environ_ok (lit "obslist.json") Nupipeline.JAuto [] w)))
    = [].
Proof. cbv zeta. split; [compute_eq|]. split; compute_eq. Qed.

Lemma C5_witness :
  ∃ e, fst (Nupipeline.dispatch 4 [lit "101"; lit "102"] obslist_two []
              (start files_no_script)) = Raised e.
Proof.
  destruct (@C5_spawn_exception python shell) as (_ & _ & _ & H1).
  apply H1; decide_goal.
Defined.

Lemma C6_witness :
  fst (Nupipeline._needs_rerun (lit "101") obslist_two (start files_resume))
  = Done false.
Proof.
  destruct (@C6_stage1_completion_check python (lit "101") obslist_two
              (start files_resume)) as (_ & H & _).
  destruct (H (text_lines ["Running nupipeline"; "Finished nupipeline for 101"]))
    as [_ Hiff]; [compute_eq|].
  apply Hiff. exists (lit "Finished nupipeline for 101"). split.
  - compute_in.
  - apply FINISH_RE_search_spec. compute_eq.
Defined.

(** C7: stage 2, the log is there and cannot be read. *)
Lemma C7_stage2_counterexample :
  let w := start files_unreadable in
  fs_exists (Nuproducts.log_of outdir_A) (w_fs w) = Ok true
  ∧ fs_read_text (Nuproducts.log_of outdir_A) (w_fs w) = Raise OSError
  ∧ fst (Nuproducts._needs_rerun outdir_A w) = Raised OSError
  ∧ fst (Nuproducts._needs_rerun outdir_A w) ≠ Done true.
Proof.
  cbv zeta.
  assert (fst (Nuproducts._needs_rerun outdir_A (start files_unreadable))
          = Raised OSError) as Hr by compute_eq.
  split; [compute_eq|]. split; [compute_eq|]. split; [exact Hr|].
  rewrite Hr. discriminate.
Qed.

Lemma C7_witness :
  fst (Nupipeline._needs_rerun (lit "101") obslist_two (start files_unreadable))
    = Done true
  ∧ fst (Nupipeline._needs_rerun (lit "101") obslist_two (start files_denied))
    = Raised OSError
  ∧ fst (Nuproducts._needs_rerun outdir_A (start files_unreadable))
    = Raised OSError
  ∧ fst (Nuproducts._needs_rerun outdir_A (start files_denied))
    = Raised OSError.
Proof.
  destruct (@C7_unreadable_log python (lit "101") obslist_two outdir_A
              (start files_unreadable)) as (H1 & _ & H2 & _).
  destruct (@C7_unreadable_log python (lit "101") obslist_two outdir_A
              (start files_denied)) as (_ & H1' & _ & H2').
  split; [apply H1; compute_eq|]. split; [apply H1'; compute_eq|].
  split; [apply H2; compute_eq | apply H2'; compute_eq].
Defined.

Lemma C8_witness :
  ∃ w_a,
    Nupipeline.plan [lit "101"; lit "102"] obslist_two [] (start files_resume)
      = (Done [lit "102"], w_a)
    ∧ w_fs w_a !! P "out/102_out/event_cl/nu102A01_cl.evt" = None.
Proof.
  destruct (@C8_wipe_before_requeue python obslist_two [lit "101"] (lit "102") []
              (start files_resume) []
              (snd (Nupipeline.plan [lit "101"] obslist_two [] (start files_resume))))
    as (Hwipe & _); [compute_eq|].
  destruct Hwipe as (w_a & Hrun & _ & _ & Hgone & _);
    [compute_eq | compute_eq | compute_eq |].
  exists w_a. split; [exact Hrun|]. apply Hgone.
  exists [lit "event_cl"; lit "nu102A01_cl.evt"]. compute_eq.
Defined.

(** C9: stage 2 without region_cfg.json: the process ends on the
    error raised by the read, not through [sys.exit]. *)
Lemma C9_stage2_counterexample :
  let w := start [(P "obslist.json", File true obslist_one_text)] in
  fs_exists (P "region_cfg.json") (w_fs w) = Ok false
  ∧ fst (Nuproducts.main environ_ok [] w) = Raised OSError
  ∧ ∀ a, fst (Nuproducts.main environ_ok [] w) ≠ Exited a.
Proof.
  cbv zeta.
  assert (fst (Nuproducts.main environ_ok []
                 (start [(P "obslist.json", File true obslist_one_text)]))
          = Raised OSError) as Hr by compute_eq.
  split; [compute_eq|]. split; [exact Hr|].
  intros a. rewrite Hr. discriminate.
Qed.

Lemma C9_witness :
  (∃ m, fst (Nupipeline.main environ_ok (lit "obslist.json") Nupipeline.JAuto []
               (start [])) = Exited (Message m))
  ∧ (∃ e, fst (Nuproducts.main environ_ok []
                 (start [(P "obslist.json", File true obslist_one_text)]))
          = Raised e).
Proof.
  destruct (@C9_missing_config python documents shell) as [H1 H2]. split.
  - refine (proj1 (H1 environ_ok (lit "obslist.json") Nupipeline.JAuto []
                     (start []) _)). compute_eq.
  - refine (proj1 (H2 environ_ok []
                     (start [(P "obslist.json", File true obslist_one_text)]) _)).
    left. compute_eq.
Defined.


End Runs.

(** * More theorems on concrete runs *)

Module MoreRuns.
Import Scenario MoreScenarios Runs.
#[local] Existing Instances python documents shell.

Lemma X2_witness :
  ∃ r text,
    fs_lookup (Nuproducts.log_of outdir_A)
      (w_fs (snd (Nuproducts._launch task_A (start files_stage2))))
      = Some (File r text)
    ∧ Nuproducts.FIN_RE_search text = true.
Proof.
  destruct (@launch_success_leaves_marker python shell task_A (start files_stage2)
              (key_of task_A))
    as (_ & outdir & r & text & Hout & Hl & Hfin & _); [compute_eq|].
  assert (stage2_outdir task_A = Some outdir_A) as E by compute_eq.
  rewrite E in Hout. injection Hout as <-.
  exists r, text. split; [exact Hl | exact Hfin].
Defined.

Lemma X3_witness :
  calls
    (new_events (snd (Nuproducts._launch task_A (start files_stage2)))
       (snd (Nuproducts._launch task_A
               (snd (Nuproducts._launch task_A (start files_stage2)))))) = [].
Proof.
  refine (proj1 (@relaunch_after_success python shell task_A (start files_stage2)
                   (key_of task_A) _)).
  compute_eq.
Defined.

Lemma X4_witness :
  ∃ outdir r,
    stage2_outdir task_nul = Some outdir
    ∧ fs_lookup (Nuproducts.log_of outdir)
        (w_fs (snd (Nuproducts._launch task_nul (start files_stage2))))
      = Some (File r []).
Proof.
  destruct (@spawn_failure_truncates_log python shell task_nul (start files_stage2)
              (default []
                 (fst <$> head
                    (calls (w_trace (snd (Nuproducts._launch task_nul
                                            (start files_stage2))))))))
    as (outdir & r & Hout & Hl & _).
  - apply calls_elem. compute_in.
  - exists outdir, r. split; [exact Hout | exact Hl].
Defined.

Lemma X5_witness :
  w_fs (snd (Nuproducts._launch task_A (start files_stage2_done)))
    !! P "obslist.json" = Some (File true obslist_one_text).
Proof.
  destruct (@skipped_launch_keeps_files python shell task_A
              (start files_stage2_done) (key_of task_A, 0))
    as (_ & outdir & _ & _ & Hkeep & _); [compute_eq | compute_eq |].
  apply Hkeep. compute_eq.
Defined.

Lemma X7_witness :
  process_status
    (fst (Nupipeline.main [lit "HOME"; lit "CALDB"] (lit "obslist.json")
            Nupipeline.JAuto [] (start files_resume))) = 1
  ∧ process_status
      (fst (Nuproducts.main [lit "HOME"; lit "HEADAS"] [] (start files_stage2))) = 1.
Proof.
  destruct (@env_check_order python documents shell) as [H1 H2]. split.
  - refine (proj2 (proj2 (H1 [lit "HOME"; lit "CALDB"] (lit "obslist.json")
                            Nupipeline.JAuto [] (start files_resume) _))).
    left. compute_in.
  - refine (proj2 (H2 [lit "HOME"; lit "HEADAS"] [] (start files_stage2)
                     region_text obslist_one_text region obslist_one _ _ _ _ _));
      [compute_eq | compute_eq | compute_eq | compute_eq |].
    right. compute_in.
Defined.

Lemma X17_witness :
  fst (Nupipeline.main environ_ok (lit "obslist.json") Nupipeline.JAuto []
         (start files_config_unreadable)) = Raised OSError
  ∧ fst (Nuproducts.main environ_ok [] (start files_stage2_bad_region))
    = Raised ValueError
  ∧ fst (Nuproducts.main environ_ok [] (start files_stage2_bad_obslist))
    = Raised ValueError.
Proof.
  destruct (@broken_config_raises python documents shell) as (H1 & H2 & H3).
  split; [|split].
  - destruct (H1 environ_ok (lit "obslist.json") Nupipeline.JAuto []
                (start files_config_unreadable)) as [Hr _];
      [compute_in | compute_in | compute_eq | |].
    + replace (fs_read_text (mkpath (lit "obslist.json"))
                 (w_fs (start files_config_unreadable)))
        with (Raise OSError : res str) by compute_eq.
      exact I.
    + rewrite Hr. compute_eq.
  - rewrite (H2 environ_ok [] (start files_stage2_bad_region) (lit "{"));
      [done | compute_eq | compute_eq].
  - rewrite (H3 environ_ok [] (start files_stage2_bad_obslist) region_text (lit "{")
               region); [done | compute_eq | compute_eq | compute_eq | compute_eq].
Defined.

Lemma X8_witness :
  fst (@Nuproducts.main python documents_more shell environ_ok []
         (start files_stage2_none)) = Exited (Code 0).
Proof.
  rewrite (@stage2_empty_grid python documents_more shell environ_ok []
             (start files_stage2_none) region_text obslist_none_text region
             obslist_none);
    [done | compute_eq | compute_eq | compute_eq | compute_eq
    | compute_in | compute_in | by left].
Defined.

Lemma X9_witness :
  fst (Nuproducts.main environ_ok [1%nat] (start files_stage2_all_done))
    = Exited (Code 0)
  ∧ calls (new_events (start files_stage2_all_done)
             (snd (Nuproducts.main environ_ok [1%nat] (start files_stage2_all_done))))
    = [].
Proof.
  destruct (@stage2_resume_all_done python documents shell environ_ok [1%nat]
              (start files_stage2_all_done) region_text obslist_one_text region
              obslist_one) as (H1 & H2 & _);
    [compute_eq | compute_eq | compute_eq | compute_eq
    | compute_in | compute_in | compute_eq |].
  split; [exact H1 | exact H2].
Defined.

Lemma X10_witness :
  fst (Nuproducts.main environ_ok [] (start files_stage2)) = Exited (Code 0)
  ∧ fst (Nuproducts.main environ_ok [] (start files_stage2_no_events))
    = Exited (Code 1).
Proof.
  split.
  - refine (proj1 (proj1 (@stage2_status_counts_failures python documents shell
                            environ_ok [] (start files_stage2) region_text
                            obslist_one_text region obslist_one _ _ _ _ _ _) _));
      decide_goal.
  - refine (proj1 (proj2 (@stage2_status_counts_failures python documents shell
                            environ_ok [] (start files_stage2_no_events) region_text
                            obslist_one_text region obslist_one _ _ _ _ _ _) _));
      decide_goal.
Defined.

Lemma X12_witness :
  decided
    (new_events (start files_resume)
       (snd (Nupipeline.plan [lit "101"; lit "102"] obslist_two []
               (start files_resume)))) = [lit "101"; lit "102"]
  ∧ (∃ obs rest,
       [lit "101"; lit "102"] =
       decided
         (new_events (start files_resume_denied)
            (snd (Nupipeline.plan [lit "101"; lit "102"] obslist_two []
                    (start files_resume_denied)))) ++ obs :: rest)
  ∧ (∃ obs rest,
       [lit "101"; lit "102"] =
       decided
         (new_events (start files_resume_locked)
            (snd (Nupipeline.plan [lit "101"; lit "102"] obslist_two []
                    (start files_resume_locked)))) ++ obs :: rest).
Proof.
  split; [|split].
  - destruct (@plan_decides_each_unit_once python [lit "101"; lit "102"]
                obslist_two [] (start files_resume))
      as (_ & _ & _ & _ & _ & _ & _ & H).
    refine (proj2 (H _)). compute_eq.
  - destruct (@plan_decides_each_unit_once python [lit "101"; lit "102"]
                obslist_two [] (start files_resume_denied))
      as (_ & _ & _ & _ & _ & _ & H & _).
    destruct (H OSError) as (obs & rest & Hobs & _); [compute_eq|].
    exists obs, rest. exact Hobs.
  - destruct (@plan_decides_each_unit_once python [lit "101"; lit "102"]
                obslist_two [] (start files_resume_locked))
      as (_ & _ & _ & _ & _ & _ & H & _).
    destruct (H OSError) as (obs & rest & Hobs & _); [compute_eq|].
    exists obs, rest. exact Hobs.
Defined.

Lemma X13_witness :
  stage1_answer obslist_two (lit "102")
    (w_fs (snd (Nupipeline.plan [lit "101"; lit "102"] obslist_two []
                  (start files_resume)))) = Done true.
Proof.
  refine (proj2 (proj2 (proj2 (proj2
            (@planning_deletes_only_queued_dirs python [lit "101"; lit "102"]
               obslist_two [] (start files_resume)))) (lit "102") _)).
  compute_in.
Defined.

Lemma X14_witness :
  fst (Nupipeline.main environ_ok (lit "obslist.json") (Nupipeline.JInt (Some 0)) []
         (start files_all_finished)) = Done tt.
Proof.
  rewrite (@stage1_nothing_to_do python documents shell environ_ok
             (lit "obslist.json") (Nupipeline.JInt (Some 0)) []
             (start files_all_finished) obslist_one_text obslist_one 0);
    [done | compute_in | compute_in | compute_eq | compute_eq | compute_eq
    | compute_eq].
Defined.

Lemma X15_witness :
  fst (Nupipeline.main environ_ok (lit "obslist.json") (Nupipeline.JInt None) []
         (start files_resume)) = Raised ValueError
  ∧ fst (Nupipeline.main environ_ok (lit "obslist.json") (Nupipeline.JInt (Some 0)) []
           (start files_resume)) = Raised ValueError.
Proof.
  destruct (@stage1_bad_worker_count python documents shell) as [H1 H2]. split.
  - rewrite (H1 environ_ok (lit "obslist.json") [] (start files_resume)
               obslist_two_text obslist_two);
      [done | compute_in | compute_in | compute_eq | compute_eq].
  - rewrite (H2 environ_ok (lit "obslist.json") (Nupipeline.JInt (Some 0)) []
               (start files_resume) obslist_two_text obslist_two 0 [lit "102"]
               (snd (Nupipeline.plan (observations obslist_two) obslist_two []
                       (grow (start files_resume) (w_fs (start files_resume))
                          [EvExists (P "obslist.json");
                           EvReadText (P "obslist.json");
                           EvLog (LogRequest 2 0)]))));
      [done | compute_in | compute_in | compute_eq | compute_eq | compute_eq
      | done | compute_eq | done].
Defined.

Lemma X16_witness :
  length
    (calls (new_events (start files_no_script)
              (snd (Nupipeline.dispatch 4 [lit "101"; lit "102"] obslist_two [1%nat]
                      (start files_no_script))))) = 2%nat.
Proof.
  rewrite <- (length_map fst).
  rewrite (Permutation_length
             (@stage1_one_call_per_unit python shell 4 [lit "101"; lit "102"]
                obslist_two [1%nat] (start files_no_script) eq_refl)).
  reflexivity.
Defined.

Lemma X18_witness :
  submitted1
    (new_events (start files_resume)
       (snd (Nupipeline.main environ_ok (lit "obslist.json") Nupipeline.JAuto []
               (start files_resume))))
  = queued
      (new_events (start files_resume)
         (snd (Nupipeline.main environ_ok (lit "obslist.json") Nupipeline.JAuto []
                 (start files_resume)))).
Proof.
  refine (proj1 (@stage1_submits_what_it_logs_queued python documents shell
                   environ_ok (lit "obslist.json") Nupipeline.JAuto []
                   (start files_resume) obslist_two_text obslist_two 4
                   _ _ _ _ _ _ _)); decide_goal.
Defined.

Lemma X19_witness :
  length cmd_A = 12%nat ∧ cmd_A !! 0%nat = Some (lit "nuproducts").
Proof.
  destruct (@launch_command_names_outdir python shell task_A (start files_stage2)
              cmd_A (Some 0))
    as (outdir & before & after & _ & _ & Hlen & Hhead & _).
  - apply calls_elem. compute_in.
  - split; [exact Hlen | exact Hhead].
Defined.

End MoreRuns.
